(** * Ice Plunge cognitive tasks: the client-side task protocol

    A shallow embedding of the browser-side task runners of the repository
    (task_core.js, pvt.js, sart.js, flanker.js, digit_symbol.js, mood.js)
    and the properties of the task execution and submission protocol.

    Conventions of the embedding:
    - a JavaScript number that the code keeps integral is a [Z]; the 32-bit
      coercions of the bit operators and of [Math.imul] are written out, and
      so is the rounding of a sum of doubles that passes 2^53;
    - a reading of [performance.now()] is a rational [Q] (milliseconds);
      [Math.round] is [Qfloor (x + 1/2)];
    - a JavaScript string that is hashed is the list of its UTF-16 code
      units; other strings are [string];
    - a JavaScript object used as a record of named fields is a
      [gmap string _];
    - closures' captured variables are fields of an explicit state record;
      [setTimeout]/[requestAnimationFrame] are tables of pending callbacks;
      each handler of the event loop is a function on the page state. *)

From Stdlib Require Import ZArith QArith Qround Lia Lqa Ascii.
From stdpp Require Import gmap strings list fin_maps.

Local Open Scope Z_scope.

(** ** JavaScript 32-bit integer operators *)

Module JS.

Definition two32 : Z := 4294967296.
Definition two31 : Z := 2147483648.

(** ToUint32 and ToInt32 of an integral number. *)
Definition toUint32 (x : Z) : Z := x mod two32.

Definition toInt32 (x : Z) : Z :=
    let u := toUint32 x in
    if two31 <=? u then u - two32 else u.

(** [Math.imul(a, b)]. *)
Definition imul (a b : Z) : Z := toInt32 (toInt32 a * toInt32 b).

(** [a | b], [a ^ b]: both operands go through ToInt32; on signed
    values [Z.lor] and [Z.lxor] are the two's-complement operations. *)
Definition bitor (a b : Z) : Z := Z.lor (toInt32 a) (toInt32 b).
Definition bitxor (a b : Z) : Z := Z.lxor (toInt32 a) (toInt32 b).

(** [a >>> n]: the left operand goes through ToUint32. *)
Definition ushr (a n : Z) : Z := Z.shiftr (toUint32 a) n.

(** [Math.round(x)]: nearest integer, ties towards +infinity. *)
Definition round (x : Q) : Z := Qfloor (x + (1 # 2))%Q.

(** [Math.floor(x)]. *)
Definition floor (x : Q) : Z := Qfloor x.

(** [a < b] on numbers. *)
Definition lt (a b : Q) : bool := negb (Qle_bool b a).

(** The double nearest to an integer: exact below 2^53, then the nearest
    multiple of the unit in the last place, a tie going to the even
    mantissa.  This is the result of [a + b] on integral numbers whose sum
    is [x]; the sums of the code stay far below the overflow threshold. *)
Definition toDouble (x : Z) : Z :=
    let a := Z.abs x in
    if a <? 9007199254740992 then x
    else
      let ulp := 2 ^ (Z.log2 a - 52) in
      let q := a / ulp in
      let r := a mod ulp in
      let q := if 2 * r <? ulp then q
               else if ulp <? 2 * r then q + 1
               else if Z.even q then q else q + 1 in
      Z.sgn x * (q * ulp).

(** Code units of a string literal (8-bit characters). *)
Definition units (s : string) : list Z :=
    map (fun c => Z.of_nat (Ascii.nat_of_ascii c)) (String.list_ascii_of_string s).

End JS.

(** ** The seeded generator shared by the four timed tasks

    Every task file has its own copy of [makeRng]; the copies differ only in
    the two constants of the line that mixes the string hash, and in the
    salt that [init] appends to the session seed. *)

Module Rng.
Import JS.

Inductive TaskId := Pvt | Sart | Flanker | DigitSymbol.

#[export] Instance TaskId_eq_dec : EqDecision TaskId.
Proof. solve_decision. Defined.

(** [h = (Math.imul(h, mul) + add) | 0] *)
Definition mixMul (t : TaskId) : Z :=
    match t with
    | Pvt => 1664525
    | Sart => 22695477
    | Flanker => 1664525
    | DigitSymbol => 69069
    end.

Definition mixAdd (t : TaskId) : Z :=
    match t with
    | Pvt => 1013904223
    | Sart => 1
    | Flanker => 1013904223
    | DigitSymbol => 1
    end.

(** The salt of [makeRng((config.seed || "") + salt)]. *)
Definition salt (t : TaskId) : string :=
    match t with
    | Pvt => "_pvt"
    | Sart => "_sart"
    | Flanker => "_flanker"
    | DigitSymbol => "_ds"
    end.

(** The loop [h = (Math.imul(31, h) + seed.charCodeAt(i)) | 0]. *)
Definition hashStep (h c : Z) : Z := bitor (imul 31 h + c) 0.
Definition hashFrom (h : Z) (s : list Z) : Z := fold_left hashStep s h.
Definition hash (s : list Z) : Z := hashFrom 0 s.

(** [makeRng(seed)] of task [t]: the value of the captured variable [h]
    when the closure is returned. *)
Definition makeRng (t : TaskId) (seed : list Z) : Z :=
    bitor (imul (hash seed) (mixMul t) + mixAdd t) 0.

(** The generator that [init] of task [t] builds from [config.seed]. *)
Definition taskRng (t : TaskId) (seed : list Z) : Z :=
    makeRng t (seed ++ units (salt t)).

(** One call of the closure.  [h += 0x6d2b79f5] is an addition of
    doubles: [h] is never wrapped, so it grows by 0x6d2b79f5 at every call
    and the sum is rounded once it passes 2^53; every later use of [h] goes
    through a 32-bit coercion. *)
Definition bump (h : Z) : Z := toDouble (h + 1831565813).

Definition output (h : Z) : Z :=
    let t := imul (bitxor h (ushr h 15)) (bitor 1 h) in
    let t := bitxor t (t + imul (bitxor t (ushr t 7)) (bitor 61 t)) in
    ushr (bitxor t (ushr t 14)) 0.

(** The returned number is [output / 4294967296], exact in a double. *)
Definition toUnit (u : Z) : Q := Qmake u 4294967296.

(** [rng()] as a state transformer on the captured [h]. *)
Definition next (h : Z) : Z * Z := (bump h, output (bump h)).

Definition draw (h : Z) : Q * Z := (toUnit (output (bump h)), bump h).

(** The first [n] numerators produced from state [h]. *)
Fixpoint outputs (n : nat) (h : Z) : list Z :=
    match n with
    | O => []
    | S n => output (bump h) :: outputs n (bump h)
    end.

(** The captured variable after [k] calls of a closure that started
    at [h]. *)
Fixpoint after (k : nat) (h : Z) : Z :=
    match k with
    | O => h
    | S k => bump (after k h)
    end.

(** The [k]-th call (counting from 0) of a closure whose captured
    variable started at [h]. *)
Definition nthOutput (h : Z) (k : nat) : Z := output (after (S k) h).

End Rng.

(** ** Trial records, as the task files push them *)

Module PvtTrial.
Record t := mk {
    stimulus_at_ms : option Z;
    response_at_ms : Z;
    rt_ms : option Z;
    is_anticipation : bool;
    is_lapse : bool;
    responded : bool }.
End PvtTrial.

Module SartTrial.
Record t := mk {
    digit : option Z;
    is_nogo : bool;
    responded : bool;
    rt_ms : option Z;
    is_commission : bool;
    is_omission : bool }.
End SartTrial.

Inductive Direction := Left | Right.

#[export] Instance Direction_eq_dec : EqDecision Direction.
Proof. solve_decision. Defined.

Module FlankerTrial.
Record t := mk {
    arrows : string;
    direction : Direction;
    is_congruent : bool;
    responded : bool;
    response : option Direction;
    correct : bool;
    rt_ms : option Z }.
End FlankerTrial.

Module DigitSymbolTrial.
(** A symbol is its index in [SYMBOL_POOL]; [None] is [undefined]. *)
Record t := mk {
    digit : Z;
    target_symbol : option nat;
    selected_symbol : option nat;
    stimulus_at_ms : Z;
    response_at_ms : Z;
    rt_ms : Z;
    correct : bool;
    responded : bool }.
End DigitSymbolTrial.

(** ** task_core.js *)

Module Core.

(** An entry of the interruption log. *)
Record Interruption := mkInterruption {
    type : string;
    detail : option string;
    at_ : string }.

Inductive Trials :=
  | PvtTrials (l : list PvtTrial.t)
  | SartTrials (l : list SartTrial.t)
  | FlankerTrials (l : list FlankerTrial.t)
  | DigitSymbolTrials (l : list DigitSymbolTrial.t)
  | MoodTrials (l : list (gmap string Z)).

(** Values of the fields of a result payload. *)
Inductive Value :=
  | VNull
  | VStr (s : string)
  | VNum (z : Z)
  | VTrials (t : Trials)
  | VObj (o : gmap string Z)
  | VLog (l : list Interruption).

Inductive Request :=
  | MetaPost (session_id : string)
  | SubmitPost (csrf : option string) (body : gmap string Value).

(** The module-level variables of task_core.js, with the part of the
    browser they act on: [navigator.onLine] and the requests issued by
    [fetch].  [submitCalls] and [calls] are ghost logs: the arguments of
    every call of [TaskCore.submit], and every lifecycle method invoked
    on the registered task. *)
Inductive Call := CallPause | CallResume | CallAbort (reason : string).

Record State := mk {
    sessionId : option string;
    csrfToken : option string;
    initPerfTime : option Q;
    interruptions : list Interruption;
    activeTask : bool;
    onLine : bool;
    fetches : list Request;
    submitCalls : list (gmap string Value);
    calls : list Call }.

Definition initial (online : bool) : State :=
    mk None None None [] false online [] [] [].

Definition set_interruptions (l : list Interruption) (c : State) : State :=
    mk (sessionId c) (csrfToken c) (initPerfTime c) l (activeTask c)
       (onLine c) (fetches c) (submitCalls c) (calls c).
Definition set_activeTask (b : bool) (c : State) : State :=
    mk (sessionId c) (csrfToken c) (initPerfTime c) (interruptions c) b
       (onLine c) (fetches c) (submitCalls c) (calls c).
Definition set_onLine (b : bool) (c : State) : State :=
    mk (sessionId c) (csrfToken c) (initPerfTime c) (interruptions c)
       (activeTask c) b (fetches c) (submitCalls c) (calls c).
Definition set_fetches (l : list Request) (c : State) : State :=
    mk (sessionId c) (csrfToken c) (initPerfTime c) (interruptions c)
       (activeTask c) (onLine c) l (submitCalls c) (calls c).
Definition set_submitCalls (l : list (gmap string Value)) (c : State) : State :=
    mk (sessionId c) (csrfToken c) (initPerfTime c) (interruptions c)
       (activeTask c) (onLine c) (fetches c) l (calls c).
Definition set_calls (l : list Call) (c : State) : State :=
    mk (sessionId c) (csrfToken c) (initPerfTime c) (interruptions c)
       (activeTask c) (onLine c) (fetches c) (submitCalls c) l.

(** [TaskCore.init(sessionId, csrfToken)] at clock reading [perf]. *)
Definition init (sid csrf : string) (perf : Q) (c : State) : State :=
    mk (Some sid) (Some csrf) (Some perf) (interruptions c) (activeTask c)
       (onLine c) (fetches c ++ [MetaPost sid]) (submitCalls c) (calls c).

Definition REQUIRED : list string :=
    [ "session_id"; "task_type"; "task_version"; "started_at"; "ended_at";
      "duration_ms"; "input_modality"; "trials"; "summary" ].

(** The loop over [REQUIRED]: the first field that is not a key of the
    payload. *)
Fixpoint firstMissing (fields : list string) (payload : gmap string Value)
    : option string :=
    match fields with
    | [] => None
    | f :: rest =>
        match payload !! f with
        | None => Some f
        | Some _ => firstMissing rest payload
        end
    end.

Inductive SubmitResult :=
  | Rejected (message : string)
  | Sent.

Definition optStr (o : option string) : Value :=
    match o with Some s => VStr s | None => VNull end.

(** [Object.assign({}, payload, {session_id, interruptions})] *)
Definition body (c : State) (payload : gmap string Value) : gmap string Value :=
    <["interruptions" := VLog (interruptions c)]>
      (<["session_id" := optStr (sessionId c)]> payload).

(** [TaskCore.submit(payload)]: the promise is either rejected before
    any request, or the POST is issued. *)
Definition submit (payload : gmap string Value) (c : State) : SubmitResult * State :=
    let c := set_submitCalls (submitCalls c ++ [payload]) c in
    match firstMissing REQUIRED payload with
    | Some f => (Rejected (String.append "Missing required field: " f), c)
    | None =>
        if negb (onLine c)
        then (Rejected "You are offline. Cannot submit task result.", c)
        else (Sent, set_fetches (fetches c ++ [SubmitPost (csrfToken c) (body c payload)]) c)
    end.

(** [TaskCore.logEvent(type, detail)] with [wall] the wall clock. *)
Definition logEvent (ty : string) (d : option string) (wall : string) (c : State) : State :=
    set_interruptions (interruptions c ++ [mkInterruption ty d wall]) c.

(** [TaskCore.now()] at clock reading [perf]. *)
Definition now (c : State) (perf : Q) : Q :=
    match initPerfTime c with
    | None => 0%Q
    | Some t0 => (perf - t0)%Q
    end.

Definition registerTask (c : State) : State := set_activeTask true c.

End Core.

(** ** Timers of the page *)

Inductive Callback :=
| CbShowStimulus      (* pvt: showStimulus *)
| CbNoResponse        (* pvt: the no-response closure *)
| CbAnimate           (* pvt: animate *)
| CbHideStimulus      (* sart: the outer closure of showNextTrial *)
| CbWindowEnd         (* sart: the inner closure; flanker: the trial closure *)
| CbNextTrial         (* flanker: showNextTrial after the blank interval *)
| CbEndTask.          (* every timed task: endTask *)

#[export] Instance Callback_eq_dec : EqDecision Callback.
Proof. solve_decision. Defined.

Module Timers.

(** Pending [setTimeout] callbacks with their delay, and pending
    animation frames.  A handle variable of the code is [option nat]
    ([None] is [null]). *)
Record t := mk {
    timeouts : gmap nat (Callback * Q);
    nextTimeout : nat;
    frames : gmap nat Callback;
    nextFrame : nat }.

Definition empty : t := mk ∅ 1%nat ∅ 1%nat.

Definition setTimeout (cb : Callback) (delay : Q) (tm : t) : nat * t :=
    (nextTimeout tm,
     mk (<[nextTimeout tm := (cb, delay)]> (timeouts tm)) (S (nextTimeout tm))
        (frames tm) (nextFrame tm)).

Definition clearTimeout (h : option nat) (tm : t) : t :=
    match h with
    | None => tm
    | Some i => mk (delete i (timeouts tm)) (nextTimeout tm) (frames tm) (nextFrame tm)
    end.

Definition requestAnimationFrame (cb : Callback) (tm : t) : nat * t :=
    (nextFrame tm,
     mk (timeouts tm) (nextTimeout tm)
        (<[nextFrame tm := cb]> (frames tm)) (S (nextFrame tm))).

Definition cancelAnimationFrame (h : option nat) (tm : t) : t :=
    match h with
    | None => tm
    | Some i => mk (timeouts tm) (nextTimeout tm) (delete i (frames tm)) (nextFrame tm)
    end.

(** A timeout is pending. *)
Definition pending (tm : t) (h : option nat) : bool :=
    match h with
    | None => false
    | Some i => bool_decide (is_Some (timeouts tm !! i))
    end.

End Timers.

(** The readings of the clocks that a handler of the event loop takes:
    [performance.now()] and the ISO string of [new Date()]. *)
Record Env := mkEnv { perfNow : Q; wallClock : string }.

(** The browser state one task runner acts on. *)
Record Browser := mkBrowser { core : Core.State; timers : Timers.t }.

Definition withCore (f : Core.State -> Core.State) (b : Browser) : Browser :=
  mkBrowser (f (core b)) (timers b).
Definition withTimers (f : Timers.t -> Timers.t) (b : Browser) : Browser :=
  mkBrowser (core b) (f (timers b)).

(** What a task shows in its stimulus element. *)
Inductive Display :=
| DBlank
| DNumber (z : Z)
| DStimulus (s : string)
| DSubmitting
| DError (message : string).

(** The envelope every timed task passes to [TaskCore.submit]. *)
Definition envelope (task_type task_version started_at ended_at : string)
    (duration_ms : Z) (trials : Core.Trials) (summary : gmap string Z)
  : gmap string Core.Value :=
  <["task_type" := Core.VStr task_type]>
  (<["task_version" := Core.VStr task_version]>
  (<["started_at" := Core.VStr started_at]>
  (<["ended_at" := Core.VStr ended_at]>
  (<["duration_ms" := Core.VNum duration_ms]>
  (<["input_modality" := Core.VStr "touch"]>
  (<["trials" := Core.VTrials trials]>
  (<["summary" := Core.VObj summary]> ∅))))))).

(** ** pvt.js *)

Module PvtTask.

Definition TASK_TYPE : string := "pvt".
Definition TASK_VERSION : string := "1.0".
Definition DURATION_MS : Z := 60000.
Definition ISI_MIN : Z := 2000.
Definition ISI_MAX : Z := 10000.
Definition LAPSE_THRESHOLD : Z := 500.
Definition ANTICIPATION_THRESHOLD : Z := 100.
Definition NO_RESPONSE_THRESHOLD : Z := 2000.

(** The variables captured by the closures of [init].  [listening] says
    whether the click/touchend listeners are on the container. *)
Record State := mk {
    rng : Z;
    durationMs : Z;
    startedAt : string;
    taskStartMs : Q;
    trials : list PvtTrial.t;
    stimulusStartMs : option Q;
    isiTimer : option nat;
    noResponseTimer : option nat;
    animTimer : option nat;
    taskEndTimer : option nat;
    isPaused : bool;
    isRunning : bool;
    isStopped : bool;
    listening : bool;
    display : Display }.

Definition set_rng v s := mk v (durationMs s) (startedAt s) (taskStartMs s) (trials s) (stimulusStartMs s) (isiTimer s) (noResponseTimer s) (animTimer s) (taskEndTimer s) (isPaused s) (isRunning s) (isStopped s) (listening s) (display s).
Definition set_trials v s := mk (rng s) (durationMs s) (startedAt s) (taskStartMs s) v (stimulusStartMs s) (isiTimer s) (noResponseTimer s) (animTimer s) (taskEndTimer s) (isPaused s) (isRunning s) (isStopped s) (listening s) (display s).
Definition set_stimulusStartMs v s := mk (rng s) (durationMs s) (startedAt s) (taskStartMs s) (trials s) v (isiTimer s) (noResponseTimer s) (animTimer s) (taskEndTimer s) (isPaused s) (isRunning s) (isStopped s) (listening s) (display s).
Definition set_isiTimer v s := mk (rng s) (durationMs s) (startedAt s) (taskStartMs s) (trials s) (stimulusStartMs s) v (noResponseTimer s) (animTimer s) (taskEndTimer s) (isPaused s) (isRunning s) (isStopped s) (listening s) (display s).
Definition set_noResponseTimer v s := mk (rng s) (durationMs s) (startedAt s) (taskStartMs s) (trials s) (stimulusStartMs s) (isiTimer s) v (animTimer s) (taskEndTimer s) (isPaused s) (isRunning s) (isStopped s) (listening s) (display s).
Definition set_animTimer v s := mk (rng s) (durationMs s) (startedAt s) (taskStartMs s) (trials s) (stimulusStartMs s) (isiTimer s) (noResponseTimer s) v (taskEndTimer s) (isPaused s) (isRunning s) (isStopped s) (listening s) (display s).
Definition set_taskEndTimer v s := mk (rng s) (durationMs s) (startedAt s) (taskStartMs s) (trials s) (stimulusStartMs s) (isiTimer s) (noResponseTimer s) (animTimer s) v (isPaused s) (isRunning s) (isStopped s) (listening s) (display s).
Definition set_isPaused v s := mk (rng s) (durationMs s) (startedAt s) (taskStartMs s) (trials s) (stimulusStartMs s) (isiTimer s) (noResponseTimer s) (animTimer s) (taskEndTimer s) v (isRunning s) (isStopped s) (listening s) (display s).
Definition set_isRunning v s := mk (rng s) (durationMs s) (startedAt s) (taskStartMs s) (trials s) (stimulusStartMs s) (isiTimer s) (noResponseTimer s) (animTimer s) (taskEndTimer s) (isPaused s) v (isStopped s) (listening s) (display s).
Definition set_isStopped v s := mk (rng s) (durationMs s) (startedAt s) (taskStartMs s) (trials s) (stimulusStartMs s) (isiTimer s) (noResponseTimer s) (animTimer s) (taskEndTimer s) (isPaused s) (isRunning s) v (listening s) (display s).
Definition set_listening v s := mk (rng s) (durationMs s) (startedAt s) (taskStartMs s) (trials s) (stimulusStartMs s) (isiTimer s) (noResponseTimer s) (animTimer s) (taskEndTimer s) (isPaused s) (isRunning s) (isStopped s) v (display s).
Definition set_display v s := mk (rng s) (durationMs s) (startedAt s) (taskStartMs s) (trials s) (stimulusStartMs s) (isiTimer s) (noResponseTimer s) (animTimer s) (taskEndTimer s) (isPaused s) (isRunning s) (isStopped s) (listening s) v.

Definition Page : Type := State * Browser.

(** [randomISI()]: [ISI_MIN + rng() * (ISI_MAX - ISI_MIN)]. *)
Definition randomISI (s : State) : Q * State :=
    let '(u, h) := Rng.draw (rng s) in
    ((inject_Z ISI_MIN + u * inject_Z (ISI_MAX - ISI_MIN))%Q, set_rng h s).

Definition clearTimers (s : State) (tm : Timers.t) : Timers.t :=
    Timers.clearTimeout (taskEndTimer s)
      (Timers.cancelAnimationFrame (animTimer s)
        (Timers.clearTimeout (noResponseTimer s)
          (Timers.clearTimeout (isiTimer s) tm))).

Definition startISI (p : Page) : Page :=
    let '(s, b) := p in
    if negb (isRunning s) || isPaused s then p
    else
      let s := set_display DBlank (set_stimulusStartMs None s) in
      let '(isi, s) := randomISI s in
      let '(id, tm) := Timers.setTimeout CbShowStimulus isi (timers b) in
      (set_isiTimer (Some id) s, mkBrowser (core b) tm).

Definition showStimulus (e : Env) (p : Page) : Page :=
    let '(s, b) := p in
    if negb (isRunning s) || isPaused s then p
    else
      let s := set_stimulusStartMs (Some (Core.now (core b) (perfNow e))) s in
      let '(fid, tm) := Timers.requestAnimationFrame CbAnimate (timers b) in
      let s := set_animTimer (Some fid) s in
      let '(id, tm) :=
        Timers.setTimeout CbNoResponse (inject_Z NO_RESPONSE_THRESHOLD) tm in
      (set_noResponseTimer (Some id) s, mkBrowser (core b) tm).

Definition animate (e : Env) (p : Page) : Page :=
    let '(s, b) := p in
    match stimulusStartMs s with
    | None => p
    | Some t0 =>
        if negb (isRunning s) then p
        else
          let elapsed := JS.round (Core.now (core b) (perfNow e) - t0) in
          let s := set_display (DNumber elapsed) s in
          let '(fid, tm) := Timers.requestAnimationFrame CbAnimate (timers b) in
          (set_animTimer (Some fid) s, mkBrowser (core b) tm)
    end.

Definition recordResponse (isUserTap : bool) (e : Env) (p : Page) : Page :=
    let '(s, b) := p in
    let responseMs := Core.now (core b) (perfNow e) in
    match stimulusStartMs s with
    | None =>
        if negb isUserTap then p
        else
          let tm := Timers.clearTimeout (isiTimer s) (timers b) in
          let s := set_trials
            (trials s ++
               [PvtTrial.mk None (JS.round responseMs) None true false true]) s in
          startISI (s, mkBrowser (core b) tm)
    | Some t0 =>
        let tm := Timers.cancelAnimationFrame (animTimer s)
                    (Timers.clearTimeout (noResponseTimer s) (timers b)) in
        let rtMs := JS.round (responseMs - t0) in
        let isAnticipation := rtMs <? ANTICIPATION_THRESHOLD in
        let isLapse := LAPSE_THRESHOLD <? rtMs in
        let s := set_trials
          (trials s ++
             [PvtTrial.mk (Some (JS.round t0)) (JS.round responseMs)
                (if isUserTap then Some rtMs else None)
                isAnticipation (isLapse || negb isUserTap) isUserTap]) s in
        let s := set_display DBlank (set_stimulusStartMs None s) in
        if isRunning s then startISI (s, mkBrowser (core b) tm)
        else (s, mkBrowser (core b) tm)
    end.

(** The closure passed to [setTimeout] by [showStimulus]. *)
Definition noResponse (e : Env) (p : Page) : Page :=
    let '(s, b) := p in
    match stimulusStartMs s with
    | Some _ => if isRunning s then recordResponse false e p else p
    | None => p
    end.

(** A click or touchend on the container. *)
Definition handleInteraction (e : Env) (p : Page) : Page :=
    let '(s, b) := p in
    if negb (listening s) then p
    else if negb (isRunning s) || isPaused s || isStopped s then p
    else recordResponse true e p.

Definition payload (s : State) (endedAt : string) : gmap string Core.Value :=
    envelope TASK_TYPE TASK_VERSION (startedAt s) endedAt (durationMs s)
      (Core.PvtTrials (trials s)) ∅.

Definition endTask (e : Env) (p : Page) : Page :=
    let '(s, b) := p in
    if isStopped s then p
    else
      let s := set_isRunning false (set_isStopped true s) in
      let tm := clearTimers s (timers b) in
      let s := set_display DSubmitting (set_listening false s) in
      let '(r, c) := Core.submit (payload s (wallClock e)) (core b) in
      match r with
      | Core.Sent => (s, mkBrowser c tm)
      | Core.Rejected msg => (set_display (DError msg) s, mkBrowser c tm)
      end.

Definition pause (p : Page) : Page :=
    let '(s, b) := p in
    let tm := Timers.cancelAnimationFrame (animTimer s)
                (Timers.clearTimeout (noResponseTimer s)
                  (Timers.clearTimeout (isiTimer s) (timers b))) in
    (set_isPaused true s, mkBrowser (core b) tm).

Definition resume (p : Page) : Page :=
    let '(s, b) := p in
    startISI (set_isPaused false s, b).

Definition abort (reason : string) (p : Page) : Page :=
    let '(s, b) := p in
    let s := set_isRunning false (set_isStopped true s) in
    (s, mkBrowser (core b) (clearTimers s (timers b))).

(** [init(config)]: [seed] is [config.seed || ""], [duration] is
    [config.durationMs] ([0] or absent selects the default). *)
Definition init (seed : list Z) (duration : Z) (e : Env) (b : Browser) : Page :=
    let s := mk (Rng.taskRng Rng.Pvt seed)
                (if duration =? 0 then DURATION_MS else duration)
                (wallClock e) (Core.now (core b) (perfNow e))
                [] None None None None None false true false true DBlank in
    let '(s, b) := startISI (s, b) in
    let '(id, tm) := Timers.setTimeout CbEndTask (inject_Z (durationMs s)) (timers b) in
    (set_taskEndTimer (Some id) s, mkBrowser (Core.registerTask (core b)) tm).

(** A pending timeout or animation frame fires. *)
Definition run (cb : Callback) (e : Env) (p : Page) : Page :=
    match cb with
    | CbShowStimulus => showStimulus e p
    | CbNoResponse => noResponse e p
    | CbAnimate => animate e p
    | CbEndTask => endTask e p
    | _ => p
    end.

End PvtTask.

(** ** sart.js *)

Module SartTask.

Definition TASK_TYPE : string := "sart".
Definition TASK_VERSION : string := "1.0".
Definition DURATION_MS : Z := 75000.
Definition STIMULUS_MS : Z := 250.
Definition ISI_MS : Z := 900.
Definition NOGO_DIGIT : Z := 3.

Definition digits : list Z := [1; 2; 3; 4; 5; 6; 7; 8; 9].

(** [digits.filter(d => d !== NOGO_DIGIT)] *)
Definition goDigits : list Z :=
    filter (fun d => d ≠ NOGO_DIGIT) digits.

(** One iteration of the loop of [buildSequence].  [rng() < 0.111]: no
    multiple of 2^-32 lies between 111/1000 and the double 0.111, so the
    comparison with the rational is the comparison the code makes.  An
    index outside [goDigits] would push [undefined], written [0] here;
    [floor(rng() * 8)] is always inside. *)
Definition nextDigit (h : Z) : Z * Z :=
    let '(u, h) := Rng.draw h in
    if JS.lt u (111 # 1000) then (NOGO_DIGIT, h)
    else
      let '(v, h) := Rng.draw h in
      let k := JS.floor (v * inject_Z (Z.of_nat (length goDigits))) in
      (default 0 (goDigits !! Z.to_nat k), h).

Fixpoint buildLoop (count : nat) (h : Z) (seq : list Z) : list Z * Z :=
    match count with
    | O => (seq, h)
    | S n => let '(d, h) := nextDigit h in buildLoop n h (seq ++ [d])
    end.

(** [Math.ceil(durationMs / trialDuration) + 5] iterations. *)
Definition trialCount (durationMs : Z) : Z :=
    - ((- durationMs) / (STIMULUS_MS + ISI_MS)) + 5.

Definition buildSequence (h : Z) (durationMs : Z) : list Z * Z :=
    buildLoop (Z.to_nat (trialCount durationMs)) h [].

Record State := mk {
    rng : Z;
    durationMs : Z;
    startedAt : string;
    sequence : list Z;
    seqIndex : nat;
    trials : list SartTrial.t;
    isRunning : bool;
    isPaused : bool;
    isStopped : bool;
    taskEndTimer : option nat;
    trialTimer : option nat;
    currentTrialStart : option Q;
    currentDigit : option Z;
    responded : bool;
    listening : bool;
    display : Display }.

Definition set_rng v s := mk v (durationMs s) (startedAt s) (sequence s) (seqIndex s) (trials s) (isRunning s) (isPaused s) (isStopped s) (taskEndTimer s) (trialTimer s) (currentTrialStart s) (currentDigit s) (responded s) (listening s) (display s).
Definition set_durationMs v s := mk (rng s) v (startedAt s) (sequence s) (seqIndex s) (trials s) (isRunning s) (isPaused s) (isStopped s) (taskEndTimer s) (trialTimer s) (currentTrialStart s) (currentDigit s) (responded s) (listening s) (display s).
Definition set_startedAt v s := mk (rng s) (durationMs s) v (sequence s) (seqIndex s) (trials s) (isRunning s) (isPaused s) (isStopped s) (taskEndTimer s) (trialTimer s) (currentTrialStart s) (currentDigit s) (responded s) (listening s) (display s).
Definition set_sequence v s := mk (rng s) (durationMs s) (startedAt s) v (seqIndex s) (trials s) (isRunning s) (isPaused s) (isStopped s) (taskEndTimer s) (trialTimer s) (currentTrialStart s) (currentDigit s) (responded s) (listening s) (display s).
Definition set_seqIndex v s := mk (rng s) (durationMs s) (startedAt s) (sequence s) v (trials s) (isRunning s) (isPaused s) (isStopped s) (taskEndTimer s) (trialTimer s) (currentTrialStart s) (currentDigit s) (responded s) (listening s) (display s).
Definition set_trials v s := mk (rng s) (durationMs s) (startedAt s) (sequence s) (seqIndex s) v (isRunning s) (isPaused s) (isStopped s) (taskEndTimer s) (trialTimer s) (currentTrialStart s) (currentDigit s) (responded s) (listening s) (display s).
Definition set_isRunning v s := mk (rng s) (durationMs s) (startedAt s) (sequence s) (seqIndex s) (trials s) v (isPaused s) (isStopped s) (taskEndTimer s) (trialTimer s) (currentTrialStart s) (currentDigit s) (responded s) (listening s) (display s).
Definition set_isPaused v s := mk (rng s) (durationMs s) (startedAt s) (sequence s) (seqIndex s) (trials s) (isRunning s) v (isStopped s) (taskEndTimer s) (trialTimer s) (currentTrialStart s) (currentDigit s) (responded s) (listening s) (display s).
Definition set_isStopped v s := mk (rng s) (durationMs s) (startedAt s) (sequence s) (seqIndex s) (trials s) (isRunning s) (isPaused s) v (taskEndTimer s) (trialTimer s) (currentTrialStart s) (currentDigit s) (responded s) (listening s) (display s).
Definition set_taskEndTimer v s := mk (rng s) (durationMs s) (startedAt s) (sequence s) (seqIndex s) (trials s) (isRunning s) (isPaused s) (isStopped s) v (trialTimer s) (currentTrialStart s) (currentDigit s) (responded s) (listening s) (display s).
Definition set_trialTimer v s := mk (rng s) (durationMs s) (startedAt s) (sequence s) (seqIndex s) (trials s) (isRunning s) (isPaused s) (isStopped s) (taskEndTimer s) v (currentTrialStart s) (currentDigit s) (responded s) (listening s) (display s).
Definition set_currentTrialStart v s := mk (rng s) (durationMs s) (startedAt s) (sequence s) (seqIndex s) (trials s) (isRunning s) (isPaused s) (isStopped s) (taskEndTimer s) (trialTimer s) v (currentDigit s) (responded s) (listening s) (display s).
Definition set_currentDigit v s := mk (rng s) (durationMs s) (startedAt s) (sequence s) (seqIndex s) (trials s) (isRunning s) (isPaused s) (isStopped s) (taskEndTimer s) (trialTimer s) (currentTrialStart s) v (responded s) (listening s) (display s).
Definition set_responded v s := mk (rng s) (durationMs s) (startedAt s) (sequence s) (seqIndex s) (trials s) (isRunning s) (isPaused s) (isStopped s) (taskEndTimer s) (trialTimer s) (currentTrialStart s) (currentDigit s) v (listening s) (display s).
Definition set_listening v s := mk (rng s) (durationMs s) (startedAt s) (sequence s) (seqIndex s) (trials s) (isRunning s) (isPaused s) (isStopped s) (taskEndTimer s) (trialTimer s) (currentTrialStart s) (currentDigit s) (responded s) v (display s).
Definition set_display v s := mk (rng s) (durationMs s) (startedAt s) (sequence s) (seqIndex s) (trials s) (isRunning s) (isPaused s) (isStopped s) (taskEndTimer s) (trialTimer s) (currentTrialStart s) (currentDigit s) (responded s) (listening s) v.

Definition Page : Type := State * Browser.

(** [currentDigit === NOGO_DIGIT] *)
Definition isNogoDigit (d : option Z) : bool :=
    match d with
    | Some z => z =? NOGO_DIGIT
    | None => false
    end.

Definition payload (s : State) (endedAt : string) : gmap string Core.Value :=
    envelope TASK_TYPE TASK_VERSION (startedAt s) endedAt (durationMs s)
      (Core.SartTrials (trials s)) ∅.

Definition endTask (e : Env) (p : Page) : Page :=
    let '(s, b) := p in
    if isStopped s then p
    else
      let s := set_isRunning false (set_isStopped true s) in
      let tm := Timers.clearTimeout (taskEndTimer s)
                  (Timers.clearTimeout (trialTimer s) (timers b)) in
      let s := set_display DSubmitting (set_listening false s) in
      let '(r, c) := Core.submit (payload s (wallClock e)) (core b) in
      match r with
      | Core.Sent => (s, mkBrowser c tm)
      | Core.Rejected msg => (set_display (DError msg) s, mkBrowser c tm)
      end.

Definition digitText (d : option Z) : Display :=
    match d with
    | Some z => DNumber z
    | None => DBlank
    end.

Definition showNextTrial (e : Env) (p : Page) : Page :=
    let '(s, b) := p in
    if negb (isRunning s) || isPaused s || (length (sequence s) <=? seqIndex s)%nat
    then endTask e p
    else
      let s := set_seqIndex (S (seqIndex s))
                 (set_currentDigit (sequence s !! seqIndex s) s) in
      let s := set_currentTrialStart (Some (Core.now (core b) (perfNow e))) s in
      let s := set_display (digitText (currentDigit s)) (set_responded false s) in
      let '(id, tm) :=
        Timers.setTimeout CbHideStimulus (inject_Z STIMULUS_MS) (timers b) in
      (set_trialTimer (Some id) s, mkBrowser (core b) tm).

(** The outer closure: hide the digit, open the rest of the window. *)
Definition hideStimulus (p : Page) : Page :=
    let '(s, b) := p in
    let s := set_display DBlank s in
    let '(id, tm) :=
      Timers.setTimeout CbWindowEnd (inject_Z (ISI_MS - STIMULUS_MS)) (timers b) in
    (set_trialTimer (Some id) s, mkBrowser (core b) tm).

(** The inner closure: record a non-response, go to the next trial. *)
Definition windowEnd (e : Env) (p : Page) : Page :=
    let '(s, b) := p in
    let s :=
      if responded s then s
      else
        let isNogo := isNogoDigit (currentDigit s) in
        set_trials
          (trials s ++
             [SartTrial.mk (currentDigit s) isNogo false None false (negb isNogo)]) s in
    showNextTrial e (s, b).

(** [TaskCore.now() - currentTrialStart]: [null] counts as 0. *)
Definition since (start : option Q) (t : Q) : Q :=
    match start with
    | Some t0 => (t - t0)%Q
    | None => (t - 0)%Q
    end.

Definition handleInteraction (e : Env) (p : Page) : Page :=
    let '(s, b) := p in
    if negb (listening s) then p
    else if negb (isRunning s) || isPaused s || isStopped s || responded s then p
    else
      let rtMs := JS.round (since (currentTrialStart s) (Core.now (core b) (perfNow e))) in
      let isNogo := isNogoDigit (currentDigit s) in
      let s := set_responded true s in
      (set_trials
         (trials s ++
            [SartTrial.mk (currentDigit s) isNogo true (Some rtMs) isNogo false]) s,
       b).

Definition pause (p : Page) : Page :=
    let '(s, b) := p in
    (set_display DBlank (set_isPaused true s),
     mkBrowser (core b) (Timers.clearTimeout (trialTimer s) (timers b))).

Definition resume (e : Env) (p : Page) : Page :=
    let '(s, b) := p in
    showNextTrial e (set_isPaused false s, b).

Definition abort (reason : string) (p : Page) : Page :=
    let '(s, b) := p in
    let s := set_isRunning false (set_isStopped true s) in
    (s, mkBrowser (core b)
          (Timers.clearTimeout (taskEndTimer s)
             (Timers.clearTimeout (trialTimer s) (timers b)))).

Definition init (seed : list Z) (duration : Z) (e : Env) (b : Browser) : Page :=
    let d := if duration =? 0 then DURATION_MS else duration in
    let '(seq, h) := buildSequence (Rng.taskRng Rng.Sart seed) d in
    let s := mk h d (wallClock e) seq 0%nat [] true false false None None
                None None false true DBlank in
    let '(s, b) := showNextTrial e (s, b) in
    let '(id, tm) := Timers.setTimeout CbEndTask (inject_Z (durationMs s)) (timers b) in
    (set_taskEndTimer (Some id) s, mkBrowser (Core.registerTask (core b)) tm).

Definition run (cb : Callback) (e : Env) (p : Page) : Page :=
    match cb with
    | CbHideStimulus => hideStimulus p
    | CbWindowEnd => windowEnd e p
    | CbEndTask => endTask e p
    | _ => p
    end.

End SartTask.

(** ** flanker.js *)

Module FlankerTask.

Definition TASK_TYPE : string := "flanker".
Definition TASK_VERSION : string := "1.0".
Definition DURATION_MS : Z := 75000.
Definition RESPONSE_WINDOW_MS : Z := 500.
Definition ISI_MS : Z := 500.

(** The object returned by [buildTrial]. *)
Record Stimulus := mkStimulus {
    arrows : string;
    direction : Direction;
    is_congruent : bool }.

Definition buildTrial (h : Z) : Stimulus * Z :=
    let '(u, h) := Rng.draw h in
    let isCongruent := JS.lt u (1 # 2) in
    let '(v, h) := Rng.draw h in
    let dir := if JS.lt v (1 # 2) then Left else Right in
    let arr :=
      if isCongruent
      then (match dir with Left => "< < < < <" | Right => "> > > > >" end)
      else (match dir with Left => "> > < > >" | Right => "< < > < <" end) in
    (mkStimulus arr dir isCongruent, h).

Record State := mk {
    rng : Z;
    durationMs : Z;
    startedAt : string;
    trials : list FlankerTrial.t;
    isRunning : bool;
    isPaused : bool;
    isStopped : bool;
    trialTimer : option nat;
    taskEndTimer : option nat;
    currentTrial : option Stimulus;
    currentTrialStart : option Q;
    responded : bool;
    keyListening : bool;
    display : Display }.

Definition set_rng v s := mk v (durationMs s) (startedAt s) (trials s) (isRunning s) (isPaused s) (isStopped s) (trialTimer s) (taskEndTimer s) (currentTrial s) (currentTrialStart s) (responded s) (keyListening s) (display s).
Definition set_durationMs v s := mk (rng s) v (startedAt s) (trials s) (isRunning s) (isPaused s) (isStopped s) (trialTimer s) (taskEndTimer s) (currentTrial s) (currentTrialStart s) (responded s) (keyListening s) (display s).
Definition set_startedAt v s := mk (rng s) (durationMs s) v (trials s) (isRunning s) (isPaused s) (isStopped s) (trialTimer s) (taskEndTimer s) (currentTrial s) (currentTrialStart s) (responded s) (keyListening s) (display s).
Definition set_trials v s := mk (rng s) (durationMs s) (startedAt s) v (isRunning s) (isPaused s) (isStopped s) (trialTimer s) (taskEndTimer s) (currentTrial s) (currentTrialStart s) (responded s) (keyListening s) (display s).
Definition set_isRunning v s := mk (rng s) (durationMs s) (startedAt s) (trials s) v (isPaused s) (isStopped s) (trialTimer s) (taskEndTimer s) (currentTrial s) (currentTrialStart s) (responded s) (keyListening s) (display s).
Definition set_isPaused v s := mk (rng s) (durationMs s) (startedAt s) (trials s) (isRunning s) v (isStopped s) (trialTimer s) (taskEndTimer s) (currentTrial s) (currentTrialStart s) (responded s) (keyListening s) (display s).
Definition set_isStopped v s := mk (rng s) (durationMs s) (startedAt s) (trials s) (isRunning s) (isPaused s) v (trialTimer s) (taskEndTimer s) (currentTrial s) (currentTrialStart s) (responded s) (keyListening s) (display s).
Definition set_trialTimer v s := mk (rng s) (durationMs s) (startedAt s) (trials s) (isRunning s) (isPaused s) (isStopped s) v (taskEndTimer s) (currentTrial s) (currentTrialStart s) (responded s) (keyListening s) (display s).
Definition set_taskEndTimer v s := mk (rng s) (durationMs s) (startedAt s) (trials s) (isRunning s) (isPaused s) (isStopped s) (trialTimer s) v (currentTrial s) (currentTrialStart s) (responded s) (keyListening s) (display s).
Definition set_currentTrial v s := mk (rng s) (durationMs s) (startedAt s) (trials s) (isRunning s) (isPaused s) (isStopped s) (trialTimer s) (taskEndTimer s) v (currentTrialStart s) (responded s) (keyListening s) (display s).
Definition set_currentTrialStart v s := mk (rng s) (durationMs s) (startedAt s) (trials s) (isRunning s) (isPaused s) (isStopped s) (trialTimer s) (taskEndTimer s) (currentTrial s) v (responded s) (keyListening s) (display s).
Definition set_responded v s := mk (rng s) (durationMs s) (startedAt s) (trials s) (isRunning s) (isPaused s) (isStopped s) (trialTimer s) (taskEndTimer s) (currentTrial s) (currentTrialStart s) v (keyListening s) (display s).
Definition set_keyListening v s := mk (rng s) (durationMs s) (startedAt s) (trials s) (isRunning s) (isPaused s) (isStopped s) (trialTimer s) (taskEndTimer s) (currentTrial s) (currentTrialStart s) (responded s) v (display s).
Definition set_display v s := mk (rng s) (durationMs s) (startedAt s) (trials s) (isRunning s) (isPaused s) (isStopped s) (trialTimer s) (taskEndTimer s) (currentTrial s) (currentTrialStart s) (responded s) (keyListening s) v.

Definition Page : Type := State * Browser.

Definition showNextTrial (e : Env) (p : Page) : Page :=
    let '(s, b) := p in
    if negb (isRunning s) || isPaused s || isStopped s then p
    else
      let '(st, h) := buildTrial (rng s) in
      let s := set_currentTrial (Some st) (set_rng h s) in
      let s := set_currentTrialStart (Some (Core.now (core b) (perfNow e))) s in
      let s := set_display (DStimulus (arrows st)) (set_responded false s) in
      let '(id, tm) :=
        Timers.setTimeout CbWindowEnd (inject_Z RESPONSE_WINDOW_MS) (timers b) in
      (set_trialTimer (Some id) s, mkBrowser (core b) tm).

(** The closure of [showNextTrial].  It reads [currentTrial], which is
    set whenever the closure exists. *)
Definition windowEnd (p : Page) : Page :=
    let '(s, b) := p in
    let s := set_display DBlank s in
    let s :=
      match currentTrial s with
      | Some st =>
          if responded s then s
          else set_trials
                 (trials s ++
                    [FlankerTrial.mk (arrows st) (direction st) (is_congruent st)
                       false None false None]) s
      | None => s
      end in
    let '(id, tm) := Timers.setTimeout CbNextTrial (inject_Z ISI_MS) (timers b) in
    (set_trialTimer (Some id) s, mkBrowser (core b) tm).

Definition since (start : option Q) (t : Q) : Q :=
    match start with
    | Some t0 => (t - t0)%Q
    | None => (t - 0)%Q
    end.

Definition handleResponse (d : Direction) (e : Env) (p : Page) : Page :=
    let '(s, b) := p in
    if negb (isRunning s) || isPaused s || isStopped s || responded s then p
    else
      match currentTrial s with
      | None => p
      | Some st =>
          let s := set_responded true s in
          let rtMs := JS.round (since (currentTrialStart s) (Core.now (core b) (perfNow e))) in
          (set_trials
             (trials s ++
                [FlankerTrial.mk (arrows st) (direction st) (is_congruent st)
                   true (Some d) (bool_decide (d = direction st)) (Some rtMs)]) s,
           b)
      end.

(** A keydown of an arrow key (or z, /) goes through [keyHandler]. *)
Definition keyHandler (d : Direction) (e : Env) (p : Page) : Page :=
    if keyListening (fst p) then handleResponse d e p else p.

Definition payload (s : State) (endedAt : string) : gmap string Core.Value :=
    envelope TASK_TYPE TASK_VERSION (startedAt s) endedAt (durationMs s)
      (Core.FlankerTrials (trials s)) ∅.

Definition endTask (e : Env) (p : Page) : Page :=
    let '(s, b) := p in
    if isStopped s then p
    else
      let s := set_isRunning false (set_isStopped true s) in
      let tm := Timers.clearTimeout (taskEndTimer s)
                  (Timers.clearTimeout (trialTimer s) (timers b)) in
      let s := set_display DSubmitting (set_keyListening false s) in
      let '(r, c) := Core.submit (payload s (wallClock e)) (core b) in
      match r with
      | Core.Sent => (s, mkBrowser c tm)
      | Core.Rejected msg => (set_display (DError msg) s, mkBrowser c tm)
      end.

Definition pause (p : Page) : Page :=
    let '(s, b) := p in
    (set_display DBlank (set_isPaused true s),
     mkBrowser (core b) (Timers.clearTimeout (trialTimer s) (timers b))).

Definition resume (e : Env) (p : Page) : Page :=
    let '(s, b) := p in
    showNextTrial e (set_isPaused false s, b).

Definition abort (reason : string) (p : Page) : Page :=
    let '(s, b) := p in
    let s := set_isRunning false (set_isStopped true s) in
    (set_keyListening false s,
     mkBrowser (core b)
       (Timers.clearTimeout (taskEndTimer s)
          (Timers.clearTimeout (trialTimer s) (timers b)))).

Definition init (seed : list Z) (duration : Z) (e : Env) (b : Browser) : Page :=
    let s := mk (Rng.taskRng Rng.Flanker seed)
                (if duration =? 0 then DURATION_MS else duration)
                (wallClock e) [] true false false None None None None false
                true DBlank in
    let '(s, b) := showNextTrial e (s, b) in
    let '(id, tm) := Timers.setTimeout CbEndTask (inject_Z (durationMs s)) (timers b) in
    (set_taskEndTimer (Some id) s, mkBrowser (Core.registerTask (core b)) tm).

Definition run (cb : Callback) (e : Env) (p : Page) : Page :=
    match cb with
    | CbWindowEnd => windowEnd p
    | CbNextTrial => showNextTrial e p
    | CbEndTask => endTask e p
    | _ => p
    end.

End FlankerTask.

(** ** digit_symbol.js *)

Module DigitSymbolTask.

Definition TASK_TYPE : string := "digit_symbol".
Definition TASK_VERSION : string := "1.0".
Definition DURATION_MS : Z := 75000.

(** [SYMBOL_POOL], each symbol named by its index. *)
Definition SYMBOL_POOL : list nat := seq 0 9.

(** The loop of [shuffle] at index [i], then the lower indices. *)
Fixpoint shuffleLoop {A : Type} (i : nat) (a : list A) (h : Z) : list A * Z :=
    match i with
    | O => (a, h)
    | S i' =>
        let '(u, h) := Rng.draw h in
        let j := Z.to_nat (JS.floor (u * inject_Z (Z.of_nat i + 1))) in
        let a :=
          match a !! i, a !! j with
          | Some x, Some y => <[j := x]> (<[i := y]> a)
          | _, _ => a
          end in
        shuffleLoop i' a h
    end.

Definition shuffle {A : Type} (arr : list A) (h : Z) : list A * Z :=
    shuffleLoop (length arr - 1) arr h.

(** [symbolMap[d]] with [symbolMap[d] = shuffledSymbols[d - 1]] for
    [d] from 1 to 9. *)
Definition symbolOf (shuffled : list nat) (d : Z) : option nat :=
    if (1 <=? d) && (d <=? 9) then shuffled !! Z.to_nat (d - 1) else None.

(** What the click closure of one option button captured. *)
Record Button := mkButton {
    optDigit : Z;
    targetDigit : Z;
    targetSymbol : option nat;
    trialStartMs : Q }.

Record State := mk {
    rng : Z;
    durationMs : Z;
    startedAt : string;
    symbolMap : list nat;
    trials : list DigitSymbolTrial.t;
    isRunning : bool;
    isPaused : bool;
    isStopped : bool;
    taskEndTimer : option nat;
    options : list Button;
    display : Display }.

Definition set_rng v s := mk v (durationMs s) (startedAt s) (symbolMap s) (trials s) (isRunning s) (isPaused s) (isStopped s) (taskEndTimer s) (options s) (display s).
Definition set_durationMs v s := mk (rng s) v (startedAt s) (symbolMap s) (trials s) (isRunning s) (isPaused s) (isStopped s) (taskEndTimer s) (options s) (display s).
Definition set_startedAt v s := mk (rng s) (durationMs s) v (symbolMap s) (trials s) (isRunning s) (isPaused s) (isStopped s) (taskEndTimer s) (options s) (display s).
Definition set_symbolMap v s := mk (rng s) (durationMs s) (startedAt s) v (trials s) (isRunning s) (isPaused s) (isStopped s) (taskEndTimer s) (options s) (display s).
Definition set_trials v s := mk (rng s) (durationMs s) (startedAt s) (symbolMap s) v (isRunning s) (isPaused s) (isStopped s) (taskEndTimer s) (options s) (display s).
Definition set_isRunning v s := mk (rng s) (durationMs s) (startedAt s) (symbolMap s) (trials s) v (isPaused s) (isStopped s) (taskEndTimer s) (options s) (display s).
Definition set_isPaused v s := mk (rng s) (durationMs s) (startedAt s) (symbolMap s) (trials s) (isRunning s) v (isStopped s) (taskEndTimer s) (options s) (display s).
Definition set_isStopped v s := mk (rng s) (durationMs s) (startedAt s) (symbolMap s) (trials s) (isRunning s) (isPaused s) v (taskEndTimer s) (options s) (display s).
Definition set_taskEndTimer v s := mk (rng s) (durationMs s) (startedAt s) (symbolMap s) (trials s) (isRunning s) (isPaused s) (isStopped s) v (options s) (display s).
Definition set_options v s := mk (rng s) (durationMs s) (startedAt s) (symbolMap s) (trials s) (isRunning s) (isPaused s) (isStopped s) (taskEndTimer s) v (display s).
Definition set_display v s := mk (rng s) (durationMs s) (startedAt s) (symbolMap s) (trials s) (isRunning s) (isPaused s) (isStopped s) (taskEndTimer s) (options s) v.

Definition Page : Type := State * Browser.

(** [Object.keys(symbolMap).map(Number)] *)
Definition keys : list Z := [1; 2; 3; 4; 5; 6; 7; 8; 9].

Definition showNextTrial (e : Env) (p : Page) : Page :=
    let '(s, b) := p in
    if negb (isRunning s) || isPaused s || isStopped s then p
    else
      let '(u, h) := Rng.draw (rng s) in
      let target := JS.floor (u * 9) + 1 in
      let targetSym := symbolOf (symbolMap s) target in
      let distractorDigits := filter (fun d => d ≠ target) keys in
      let '(sh, h) := shuffle distractorDigits h in
      let shuffled := take 3 sh in
      let '(opts, h) := shuffle (target :: shuffled) h in
      let t0 := Core.now (core b) (perfNow e) in
      let s := set_display (DNumber target) (set_rng h s) in
      (set_options (map (fun d => mkButton d target targetSym t0) opts) s, b).

(** A click on the [k]-th option button currently in the row. *)
Definition click (k : nat) (e : Env) (p : Page) : Page :=
    let '(s, b) := p in
    match options s !! k with
    | None => p
    | Some btn =>
        if negb (isRunning s) || isPaused s || isStopped s then p
        else
          let t := Core.now (core b) (perfNow e) in
          let rtMs := JS.round (t - trialStartMs btn) in
          let s := set_trials
            (trials s ++
               [DigitSymbolTrial.mk (targetDigit btn) (targetSymbol btn)
                  (symbolOf (symbolMap s) (optDigit btn))
                  (JS.round (trialStartMs btn)) (JS.round t) rtMs
                  (optDigit btn =? targetDigit btn) true]) s in
          showNextTrial e (s, b)
    end.

Definition payload (s : State) (endedAt : string) : gmap string Core.Value :=
    envelope TASK_TYPE TASK_VERSION (startedAt s) endedAt (durationMs s)
      (Core.DigitSymbolTrials (trials s)) ∅.

Definition endTask (e : Env) (p : Page) : Page :=
    let '(s, b) := p in
    if isStopped s then p
    else
      let s := set_isRunning false (set_isStopped true s) in
      let tm := Timers.clearTimeout (taskEndTimer s) (timers b) in
      let s := set_options [] (set_display DSubmitting s) in
      let '(r, c) := Core.submit (payload s (wallClock e)) (core b) in
      match r with
      | Core.Sent => (s, mkBrowser c tm)
      | Core.Rejected msg => (set_display (DError msg) s, mkBrowser c tm)
      end.

Definition pause (p : Page) : Page :=
    let '(s, b) := p in (set_isPaused true s, b).

Definition resume (e : Env) (p : Page) : Page :=
    let '(s, b) := p in
    showNextTrial e (set_isPaused false s, b).

Definition abort (reason : string) (p : Page) : Page :=
    let '(s, b) := p in
    let s := set_isRunning false (set_isStopped true s) in
    (s, mkBrowser (core b) (Timers.clearTimeout (taskEndTimer s) (timers b))).

Definition init (seed : list Z) (duration : Z) (e : Env) (b : Browser) : Page :=
    let '(shuffledSymbols, h) := shuffle SYMBOL_POOL (Rng.taskRng Rng.DigitSymbol seed) in
    let s := mk h (if duration =? 0 then DURATION_MS else duration)
                (wallClock e) shuffledSymbols [] true false false None [] DBlank in
    let '(s, b) := showNextTrial e (s, b) in
    let '(id, tm) := Timers.setTimeout CbEndTask (inject_Z (durationMs s)) (timers b) in
    (set_taskEndTimer (Some id) s, mkBrowser (Core.registerTask (core b)) tm).

Definition run (cb : Callback) (e : Env) (p : Page) : Page :=
    match cb with
    | CbEndTask => endTask e p
    | _ => p
    end.

End DigitSymbolTask.

(** ** mood.js *)

Module MoodTask.

Definition TASK_TYPE : string := "mood".
Definition TASK_VERSION : string := "1.0".

(** The keys of [SCALES]. *)
Definition SCALES : list string := ["valence"; "arousal"; "stress"; "sharpness"].

Record State := mk {
    startedAt : string;
    startedAtMs : Z;            (* new Date(startedAt).getTime() *)
    ratings : gmap string Z;
    submitDisabled : bool;
    alerts : list string }.

Definition Page : Type := State * Browser.

Definition updateSubmit (s : State) : State :=
    let allRated := forallb (fun k => bool_decide (is_Some (ratings s !! k))) SCALES in
    mk (startedAt s) (startedAtMs s) (ratings s) (negb allRated) (alerts s).

(** A click on button [val] of scale [key]. *)
Definition rate (key : string) (val : Z) (p : Page) : Page :=
    let '(s, b) := p in
    (updateSubmit
       (mk (startedAt s) (startedAtMs s) (<[key := val]> (ratings s))
          (submitDisabled s) (alerts s)), b).

Definition payload (s : State) (endedAt : string) (dateNow : Z)
    : gmap string Core.Value :=
    <["task_type" := Core.VStr TASK_TYPE]>
    (<["task_version" := Core.VStr TASK_VERSION]>
    (<["started_at" := Core.VStr (startedAt s)]>
    (<["ended_at" := Core.VStr endedAt]>
    (<["duration_ms" := Core.VNum (dateNow - startedAtMs s)]>
    (<["input_modality" := Core.VStr "touch"]>
    (<["trials" := Core.VTrials (Core.MoodTrials [ratings s])]>
    (<["summary" := Core.VObj (ratings s)]> ∅))))))).

(** A click on the submit button; [dateNow] is [Date.now()]. *)
Definition clickSubmit (dateNow : Z) (e : Env) (p : Page) : Page :=
    let '(s, b) := p in
    if submitDisabled s then p
    else
      let s := mk (startedAt s) (startedAtMs s) (ratings s) true (alerts s) in
      let '(r, c) := Core.submit (payload s (wallClock e) dateNow) (core b) in
      match r with
      | Core.Sent => (s, mkBrowser c (timers b))
      | Core.Rejected msg =>
          (mk (startedAt s) (startedAtMs s) (ratings s) false
              (alerts s ++ [String.append "Error: " msg]),
           mkBrowser c (timers b))
      end.

Definition init (dateNow : Z) (e : Env) (b : Browser) : Page :=
    (mk (wallClock e) dateNow ∅ true [], withCore Core.registerTask b).

End MoodTask.

(** ** The task object interface and the listeners of task_core.js

    [TaskCore.registerTask] receives an object with [pause], [resume] and
    [abort]; the page also delivers timer callbacks and user input to the
    closures of the same [init]. *)

Class TaskObject (S I : Type) := {
  pause : S * Browser -> S * Browser;
  resume : Env -> S * Browser -> S * Browser;
  abort : string -> S * Browser -> S * Browser;
  timer : Callback -> Env -> S * Browser -> S * Browser;
  input : I -> Env -> S * Browser -> S * Browser }.

(** What the statements below observe of a timed runner. *)
Class Observed (S : Type) := {
  stopped : S -> bool;
  paused : S -> bool;
  recorded : S -> Core.Trials }.

Inductive Tap := TapContainer.
Inductive FlankerInput := Button (d : Direction) | Key (d : Direction).
Inductive DigitSymbolInput := Option_ (k : nat).
Inductive MoodInput := Rate (key : string) (val : Z) | Submit (dateNow : Z).

#[export] Instance PvtObject : TaskObject PvtTask.State Tap := {
  pause := PvtTask.pause;
  resume := fun _ => PvtTask.resume;
  abort := PvtTask.abort;
  timer := PvtTask.run;
  input := fun _ => PvtTask.handleInteraction }.

#[export] Instance PvtObserved : Observed PvtTask.State := {
  stopped := PvtTask.isStopped;
  paused := PvtTask.isPaused;
  recorded := fun s => Core.PvtTrials (PvtTask.trials s) }.

#[export] Instance SartObject : TaskObject SartTask.State Tap := {
  pause := SartTask.pause;
  resume := SartTask.resume;
  abort := SartTask.abort;
  timer := SartTask.run;
  input := fun _ => SartTask.handleInteraction }.

#[export] Instance SartObserved : Observed SartTask.State := {
  stopped := SartTask.isStopped;
  paused := SartTask.isPaused;
  recorded := fun s => Core.SartTrials (SartTask.trials s) }.

#[export] Instance FlankerObject : TaskObject FlankerTask.State FlankerInput := {
  pause := FlankerTask.pause;
  resume := FlankerTask.resume;
  abort := FlankerTask.abort;
  timer := FlankerTask.run;
  input := fun i =>
    match i with
    | Button d => FlankerTask.handleResponse d
    | Key d => FlankerTask.keyHandler d
    end }.

#[export] Instance FlankerObserved : Observed FlankerTask.State := {
  stopped := FlankerTask.isStopped;
  paused := FlankerTask.isPaused;
  recorded := fun s => Core.FlankerTrials (FlankerTask.trials s) }.

#[export] Instance DigitSymbolObject
  : TaskObject DigitSymbolTask.State DigitSymbolInput := {
  pause := DigitSymbolTask.pause;
  resume := DigitSymbolTask.resume;
  abort := DigitSymbolTask.abort;
  timer := DigitSymbolTask.run;
  input := fun i => match i with Option_ k => DigitSymbolTask.click k end }.

#[export] Instance DigitSymbolObserved : Observed DigitSymbolTask.State := {
  stopped := DigitSymbolTask.isStopped;
  paused := DigitSymbolTask.isPaused;
  recorded := fun s => Core.DigitSymbolTrials (DigitSymbolTask.trials s) }.

(** mood.js registers three empty functions and sets no timer. *)
#[export] Instance MoodObject : TaskObject MoodTask.State MoodInput := {
  pause := fun p => p;
  resume := fun _ p => p;
  abort := fun _ p => p;
  timer := fun _ _ p => p;
  input := fun i =>
    match i with
    | Rate k v => fun _ => MoodTask.rate k v
    | Submit d => MoodTask.clickSubmit d
    end }.

(** What the event loop of the page delivers. *)
Inductive Event (I : Type) :=
| Timeout (id : nat)
| Frame (id : nat)
| Input (i : I)
| VisibilityHidden
| VisibilityVisible
| Pagehide
| Beforeunload
| Offline
| Online.

Arguments Timeout {I} id.
Arguments Frame {I} id.
Arguments Input {I} i.
Arguments VisibilityHidden {I}.
Arguments VisibilityVisible {I}.
Arguments Pagehide {I}.
Arguments Beforeunload {I}.
Arguments Offline {I}.
Arguments Online {I}.

Section Lifecycle.
Context {S I : Type} `{TaskObject S I}.

(** [if (_activeTask && typeof _activeTask.m === "function") _activeTask.m()] *)
Definition invoke (c : Core.Call) (e : Env) (p : S * Browser) : S * Browser :=
  let '(s, b) := p in
  if Core.activeTask (core b) then
    let b := withCore (fun k => Core.set_calls (Core.calls k ++ [c]) k) b in
    match c with
    | Core.CallPause => pause (s, b)
    | Core.CallResume => resume e (s, b)
    | Core.CallAbort reason => abort reason (s, b)
    end
  else p.

(** [TaskCore.logEvent(type, { at: TaskCore.wallClock() })] *)
Definition logged (ty : string) (e : Env) (p : S * Browser) : S * Browser :=
  (fst p, withCore (Core.logEvent ty (Some (wallClock e)) (wallClock e)) (snd p)).

Definition onVisibilityHidden (e : Env) (p : S * Browser) : S * Browser :=
  invoke Core.CallPause e (logged "visibility_hidden" e p).

Definition onVisibilityVisible (e : Env) (p : S * Browser) : S * Browser :=
  invoke Core.CallResume e (logged "visibility_visible" e p).

Definition onPagehide (e : Env) (p : S * Browser) : S * Browser :=
  invoke (Core.CallAbort "pagehide") e (logged "pagehide" e p).

Definition onBeforeunload (e : Env) (p : S * Browser) : S * Browser :=
  invoke (Core.CallAbort "beforeunload") e (logged "beforeunload" e p).

(** The listener of [offline] (the banner is not modelled). *)
Definition onOffline (e : Env) (p : S * Browser) : S * Browser :=
  invoke (Core.CallAbort "offline") e (logged "offline" e p).

(** The listener of [online] only removes the banner and shows a dialog. *)
Definition onOnline (p : S * Browser) : S * Browser := p.

Definition fireTimeout (id : nat) (e : Env) (p : S * Browser) : S * Browser :=
  let '(s, b) := p in
  match Timers.timeouts (timers b) !! id with
  | None => p
  | Some (cb, _) =>
      timer cb e (s, withTimers (Timers.clearTimeout (Some id)) b)
  end.

Definition fireFrame (id : nat) (e : Env) (p : S * Browser) : S * Browser :=
  let '(s, b) := p in
  match Timers.frames (timers b) !! id with
  | None => p
  | Some cb =>
      timer cb e (s, withTimers (Timers.cancelAnimationFrame (Some id)) b)
  end.

Definition setOnLine (v : bool) (p : S * Browser) : S * Browser :=
  (fst p, withCore (Core.set_onLine v) (snd p)).

(** One turn of the event loop.  The browser changes [navigator.onLine]
    before it fires [offline] or [online]. *)
Definition step (e : Env) (ev : Event I) (p : S * Browser) : S * Browser :=
  match ev with
  | Timeout id => fireTimeout id e p
  | Frame id => fireFrame id e p
  | Input i => input i e p
  | VisibilityHidden => onVisibilityHidden e p
  | VisibilityVisible => onVisibilityVisible e p
  | Pagehide => onPagehide e p
  | Beforeunload => onBeforeunload e p
  | Offline => onOffline e (setOnLine false p)
  | Online => onOnline (setOnLine true p)
  end.

Fixpoint steps (tr : list (Env * Event I)) (p : S * Browser) : S * Browser :=
  match tr with
  | [] => p
  | (e, ev) :: tr => steps tr (step e ev p)
  end.

End Lifecycle.

(** A page on which [TaskCore.init] ran at clock reading [perf]. *)
Definition loaded (sid csrf : string) (perf : Q) (online : bool) : Browser :=
  mkBrowser (Core.init sid csrf perf (Core.initial online)) Timers.empty.

(** ** Statements about payloads and trial records *)

(** The payloads that the five task files build for [TaskCore.submit]. *)
Inductive Constructed : gmap string Core.Value -> Prop :=
| ByPvt s endedAt : Constructed (PvtTask.payload s endedAt)
| BySart s endedAt : Constructed (SartTask.payload s endedAt)
| ByFlanker s endedAt : Constructed (FlankerTask.payload s endedAt)
| ByDigitSymbol s endedAt : Constructed (DigitSymbolTask.payload s endedAt)
| ByMood s endedAt dateNow : Constructed (MoodTask.payload s endedAt dateNow).

Definition missingSessionId : string := "Missing required field: session_id".

(** A vigilance trial carries a valid reaction time when it holds a
    latency and is not flagged as an anticipation. *)
Definition validReactionTime (t : PvtTrial.t) : bool :=
  bool_decide (is_Some (PvtTrial.rt_ms t)) && negb (PvtTrial.is_anticipation t).


(** The handlers of the five task files that call [TaskCore.submit]:
    [endTask] of a runner that is not stopped, and the click on the enabled
    submit button of the mood form.  [Submission b b'] relates the browser
    before and after one such handler. *)
Inductive Submission : Browser -> Browser -> Prop :=
| SubmitPvt e s b :
    PvtTask.isStopped s = false ->
    Submission b (snd (PvtTask.endTask e (s, b)))
| SubmitSart e s b :
    SartTask.isStopped s = false ->
    Submission b (snd (SartTask.endTask e (s, b)))
| SubmitFlanker e s b :
    FlankerTask.isStopped s = false ->
    Submission b (snd (FlankerTask.endTask e (s, b)))
| SubmitDigitSymbol e s b :
    DigitSymbolTask.isStopped s = false ->
    Submission b (snd (DigitSymbolTask.endTask e (s, b)))
| SubmitMood d e s b :
    MoodTask.submitDisabled s = false ->
    Submission b (snd (MoodTask.clickSubmit d e (s, b))).

(** The runner state in which [endTask] builds its payload. *)
Definition pvtStopped (s : PvtTask.State) : PvtTask.State :=
  PvtTask.set_display DSubmitting
    (PvtTask.set_listening false
       (PvtTask.set_isRunning false (PvtTask.set_isStopped true s))).

Definition sartStopped (s : SartTask.State) : SartTask.State :=
  SartTask.set_display DSubmitting
    (SartTask.set_listening false
       (SartTask.set_isRunning false (SartTask.set_isStopped true s))).

Definition flankerStopped (s : FlankerTask.State) : FlankerTask.State :=
  FlankerTask.set_display DSubmitting
    (FlankerTask.set_keyListening false
       (FlankerTask.set_isRunning false (FlankerTask.set_isStopped true s))).

Definition digitSymbolStopped (s : DigitSymbolTask.State) : DigitSymbolTask.State :=
  DigitSymbolTask.set_options []
    (DigitSymbolTask.set_display DSubmitting
       (DigitSymbolTask.set_isRunning false (DigitSymbolTask.set_isStopped true s))).

(** The core after a call of [TaskCore.submit] that is rejected before
    any request: only the ghost log of calls grows. *)
Definition submitted (payload : gmap string Core.Value) (b : Browser) : Core.State :=
  Core.set_submitCalls (Core.submitCalls (core b) ++ [payload]) (core b).

(** The page after the listener of [offline] has logged the event and
    noted the call of [abort] on the registered task. *)
Definition offlineNoted {S : Type} (e : Env) (p : S * Browser) : S * Browser :=
  (fst p,
   withCore
     (fun k => Core.set_calls (Core.calls k ++ [Core.CallAbort "offline"]) k)
     (withCore (Core.logEvent "offline" (Some (wallClock e)) (wallClock e))
        (withCore (Core.set_onLine false) (snd p)))).

(** An event leaves the submission log and the requests as they are. *)
Definition quiet {S I : Type} `{TaskObject S I} (ev : Event I) : Prop :=
  forall (e : Env) (p : S * Browser),
    Core.submitCalls (core (snd (step e ev p))) = Core.submitCalls (core (snd p))
    /\ Core.fetches (core (snd (step e ev p))) = Core.fetches (core (snd p)).

(** ** The closures a turn of the event loop enters

    Every turn runs at most one closure of the task: a lifecycle method, a
    timer callback or an input handler, after task_core.js has written its
    own logs. *)

Inductive Entry (I : Type) :=
| EnterNone
| EnterPause
| EnterResume
| EnterAbort (reason : string)
| EnterTimer (cb : Callback)
| EnterInput (i : I).

Arguments EnterNone {I}.
Arguments EnterPause {I}.
Arguments EnterResume {I}.
Arguments EnterAbort {I} reason.
Arguments EnterTimer {I} cb.
Arguments EnterInput {I} i.

Definition enter {S I : Type} `{TaskObject S I}
    (o : Entry I) (e : Env) (p : S * Browser) : S * Browser :=
  match o with
  | EnterNone => p
  | EnterPause => pause p
  | EnterResume => resume e p
  | EnterAbort r => abort r p
  | EnterTimer cb => timer cb e p
  | EnterInput i => input i e p
  end.

(** Two cores that differ at most in the interruption log, the log of
    lifecycle calls and [navigator.onLine]. *)
Definition sameSession (c c' : Core.State) : Prop :=
  Core.sessionId c' = Core.sessionId c
  /\ Core.csrfToken c' = Core.csrfToken c
  /\ Core.initPerfTime c' = Core.initPerfTime c
  /\ Core.activeTask c' = Core.activeTask c
  /\ Core.fetches c' = Core.fetches c
  /\ Core.submitCalls c' = Core.submitCalls c.

(** The reason with which an event makes task_core.js call [abort]. *)
Definition abortReason {I : Type} (ev : Event I) : option string :=
  match ev with
  | Pagehide => Some "pagehide"
  | Beforeunload => Some "beforeunload"
  | Offline => Some "offline"
  | _ => None
  end.

(** The entries an event can lead to: [abort] only for the three events
    above, and for those no other closure of the task. *)
Definition entryFor {I : Type} (ev : Event I) (o : Entry I) : Prop :=
  match o with
  | EnterNone => True
  | EnterAbort r => abortReason ev = Some r
  | _ => abortReason ev = None
  end.

(** C1 as it is stated: a turn that takes a runner into a terminal state
    adds one call of [TaskCore.submit], whose payload holds the trial
    records and the interruption log. *)
Definition submitsOnTerminal {S I : Type} `{TaskObject S I} `{Observed S}
    (e : Env) (ev : Event I) (p : S * Browser) : Prop :=
  stopped (fst p) = false ->
  stopped (fst (step e ev p)) = true ->
  exists payload,
    Core.submitCalls (core (snd (step e ev p)))
      = Core.submitCalls (core (snd p)) ++ [payload]
    /\ payload !! "trials" = Some (Core.VTrials (recorded (fst (step e ev p))))
    /\ payload !! "interruptions"
       = Some (Core.VLog (Core.interruptions (core (snd (step e ev p))))).

(** What the runners do instead.  A stopped runner stays stopped and
    submits nothing more.  A turn that stops a runner is either one of the
    three abort events, and then nothing is submitted, or another event
    that ran [endTask], and then exactly one call of [TaskCore.submit] is
    added, with all trial records in the payload; the interruption log is
    not a key of the payload, [TaskCore.submit] puts it into the request
    body. *)
Definition terminalLaw {S I : Type} `{TaskObject S I} `{Observed S} : Prop :=
  forall (e : Env) (ev : Event I) (p : S * Browser),
    (stopped (fst p) = true ->
       stopped (fst (step e ev p)) = true
       /\ Core.submitCalls (core (snd (step e ev p)))
          = Core.submitCalls (core (snd p)))
    /\ (stopped (fst p) = false ->
        stopped (fst (step e ev p)) = true ->
        (abortReason ev <> None
         /\ Core.submitCalls (core (snd (step e ev p)))
            = Core.submitCalls (core (snd p)))
        \/ (abortReason ev = None
            /\ exists payload,
                 Core.submitCalls (core (snd (step e ev p)))
                   = Core.submitCalls (core (snd p)) ++ [payload]
                 /\ payload !! "trials"
                    = Some (Core.VTrials (recorded (fst (step e ev p))))
                 /\ payload !! "interruptions" = None
                 /\ forall c, Core.body c payload !! "interruptions"
                              = Some (Core.VLog (Core.interruptions c)))).

(** What one closure of a runner does to the submission log: it keeps the
    core, or it is [endTask] stopping the runner with one rejected call. *)
Definition closureLaw {S I : Type} `{TaskObject S I} `{Observed S}
    (payloadOf : S -> string -> gmap string Core.Value) : Prop :=
  forall (o : Entry I) (e : Env) (s : S) (b : Browser),
    (stopped s = true ->
       stopped (fst (enter o e (s, b))) = true
       /\ core (snd (enter o e (s, b))) = core b)
    /\ (stopped s = false ->
        (core (snd (enter o e (s, b))) = core b
         /\ (stopped (fst (enter o e (s, b))) = true -> exists r, o = EnterAbort r))
        \/ ((forall r, o <> EnterAbort r)
            /\ stopped (fst (enter o e (s, b))) = true
            /\ core (snd (enter o e (s, b)))
               = submitted (payloadOf (fst (enter o e (s, b))) (wallClock e)) b)).

(** The closures of the task files are unfolded by name in the proofs. *)
Arguments Core.submit : simpl never.
Arguments PvtTask.startISI : simpl never.
Arguments PvtTask.showStimulus : simpl never.
Arguments PvtTask.animate : simpl never.
Arguments PvtTask.recordResponse : simpl never.
Arguments PvtTask.noResponse : simpl never.
Arguments PvtTask.handleInteraction : simpl never.
Arguments PvtTask.endTask : simpl never.
Arguments PvtTask.pause : simpl never.
Arguments PvtTask.resume : simpl never.
Arguments PvtTask.abort : simpl never.
Arguments PvtTask.init : simpl never.
Arguments SartTask.showNextTrial : simpl never.
Arguments SartTask.hideStimulus : simpl never.
Arguments SartTask.windowEnd : simpl never.
Arguments SartTask.handleInteraction : simpl never.
Arguments SartTask.endTask : simpl never.
Arguments SartTask.pause : simpl never.
Arguments SartTask.resume : simpl never.
Arguments SartTask.abort : simpl never.
Arguments SartTask.init : simpl never.
Arguments FlankerTask.showNextTrial : simpl never.
Arguments FlankerTask.windowEnd : simpl never.
Arguments FlankerTask.handleResponse : simpl never.
Arguments FlankerTask.keyHandler : simpl never.
Arguments FlankerTask.endTask : simpl never.
Arguments FlankerTask.pause : simpl never.
Arguments FlankerTask.resume : simpl never.
Arguments FlankerTask.abort : simpl never.
Arguments FlankerTask.init : simpl never.
Arguments DigitSymbolTask.showNextTrial : simpl never.
Arguments DigitSymbolTask.click : simpl never.
Arguments DigitSymbolTask.endTask : simpl never.
Arguments DigitSymbolTask.pause : simpl never.
Arguments DigitSymbolTask.resume : simpl never.
Arguments DigitSymbolTask.abort : simpl never.
Arguments DigitSymbolTask.init : simpl never.
Arguments MoodTask.clickSubmit : simpl never.
Arguments MoodTask.rate : simpl never.

(** The two outcomes of a closure other than [abort]: the core and the
    stopped flag are kept, or the closure ran [endTask] on a runner that
    was not stopped. *)
Definition outcome {S : Type} `{Observed S}
    (payloadOf : S -> string -> gmap string Core.Value)
    (e : Env) (s : S) (b : Browser) (p' : S * Browser) : Prop :=
  (core (snd p') = core b /\ stopped (fst p') = stopped s)
  \/ (stopped s = false
      /\ stopped (fst p') = true
      /\ core (snd p') = submitted (payloadOf (fst p') (wallClock e)) b).

(** ** Example pages *)

Definition exampleEnv (t : Z) : Env := mkEnv (inject_Z t) "2026-01-05T10:00:00.000Z".

(** A vigilance run with seed "abc123": the first stimulus is shown, the
    participant taps 341 ms later. *)
Definition pvtExample : PvtTask.Page :=
  steps [(exampleEnv 7559, Timeout 1%nat); (exampleEnv 7900, Input TapContainer)]
    (PvtTask.init (JS.units "abc123") 0 (exampleEnv 0) (loaded "session-1" "token" 0 true)).

(** A conflict-task run with the same seed, one response given. *)
Definition flankerExample : FlankerTask.Page :=
  steps [(exampleEnv 420, Input (Button Left))]
    (FlankerTask.init (JS.units "abc123") 0 (exampleEnv 0)
       (loaded "session-1" "token" 0 true)).

(** A sustained-attention run with the same seed: a tap on the first
    digit, no tap on the second. *)
Definition sartExample : SartTask.Page :=
  steps [(exampleEnv 200, Input TapContainer);
         (exampleEnv 250, Timeout 1%nat); (exampleEnv 900, Timeout 3%nat);
         (exampleEnv 1150, Timeout 4%nat); (exampleEnv 1800, Timeout 5%nat)]
    (SartTask.init (JS.units "abc123") 0 (exampleEnv 0)
       (loaded "session-1" "token" 0 true)).

(** C3 as it is stated: after a pause of length [d] and the resume,
    [TaskCore.now] is behind the unpaused reading by [d]. *)
Definition nowExcludesPause {S I : Type} `{TaskObject S I}
    (p : S * Browser) (wall : string) (t1 d t2 : Q) : Prop :=
  (Core.now
     (core (snd (steps [(mkEnv t1 wall, VisibilityHidden);
                        (mkEnv (t1 + d) wall, VisibilityVisible)] p))) t2
   == Core.now (core (snd p)) t2 - d)%Q.

(** What the code does: no turn of the event loop changes the value that
    [TaskCore.now] returns for a given clock reading. *)
Definition nowIgnoresEvents {S I : Type} `{TaskObject S I} : Prop :=
  forall (tr : list (Env * Event I)) (p : S * Browser) (t : Q),
    Core.now (core (snd (steps tr p))) t = Core.now (core (snd p)) t.

(** ** Generator closures on a heap

    Every call of [makeRng] allocates a fresh captured variable [h]; a call
    of the returned closure reads and writes that variable only.  A program
    is a sequence of allocations by the [init] of some task and of calls of
    closures allocated before; the log keeps what each call returned. *)

Module Closures.

Inductive Op :=
| Make (t : Rng.TaskId) (seed : list Z)
| Call (i : nat).

Definition State : Type := list Z * list (nat * Z).

Definition exec (st : State) (op : Op) : State :=
  match op with
  | Make t seed => (fst st ++ [Rng.taskRng t seed], snd st)
  | Call i =>
      match fst st !! i with
      | None => st
      | Some h =>
          let '(h', u) := Rng.next h in
          (<[i := h']> (fst st), snd st ++ [(i, u)])
      end
  end.

Definition run (ops : list Op) : State := fold_left exec ops ([], []).

(** The allocations of a program, in order: closure [i] is the [i]-th. *)
Definition makes (ops : list Op) : list (Rng.TaskId * list Z) :=
  omap (fun op => match op with Make t seed => Some (t, seed) | Call _ => None end) ops.

(** The values that the calls of closure [i] returned, in order. *)
Definition returned (i : nat) (log : list (nat * Z)) : list Z :=
  omap (fun x => if decide (fst x = i) then Some (snd x) else None) log.

End Closures.

(** ** Independence of the task generators *)

(** Two generator states produce the same value at every call. *)
Definition identicalStreams (h1 h2 : Z) : Prop :=
  forall k : nat, Rng.nthOutput h1 k = Rng.nthOutput h2 k.

(** C9 as it is stated, for one seed and two tasks. *)
Definition independent (seed : list Z) (t1 t2 : Rng.TaskId) : Prop :=
  ~ identicalStreams (Rng.taskRng t1 seed) (Rng.taskRng t2 seed).

(** The pairs of tasks whose generators start in the same state for some
    seeds. *)
Definition mayCoincide (t1 t2 : Rng.TaskId) : bool :=
  match t1, t2 with
  | Rng.Pvt, Rng.Sart | Rng.Sart, Rng.Pvt => true
  | Rng.Flanker, Rng.DigitSymbol | Rng.DigitSymbol, Rng.Flanker => true
  | _, _ => false
  end.

(** The hash loop without the 32-bit coercions. *)
Definition poly (h : Z) (s : list Z) : Z := fold_left (fun h c => 31 * h + c) s h.

(** The vigilance run of [pvtExample] when its first stimulus has just
    been shown. *)
Definition pvtVisible : PvtTask.Page :=
  step (exampleEnv 7559) (Timeout 1%nat)
    (PvtTask.init (JS.units "abc123") 0 (exampleEnv 0)
       (loaded "session-1" "token" 0 true)).

(** The situation of the worked example: the stimulus is shown at 1200 ms
    (the timers of the model carry their delay but fire when the event
    loop says so). *)
Definition pvtOnset1200 : PvtTask.Page :=
  step (exampleEnv 1200) (Timeout 1%nat)
    (PvtTask.init (JS.units "abc123") 0 (exampleEnv 0)
       (loaded "session-1" "token" 0 true)).

(** A complete payload, as a caller that adds the session id would pass. *)
Definition completePayload : gmap string Core.Value :=
  <["session_id" := Core.VStr "session-1"]>
    (PvtTask.payload (fst pvtExample) "2026-01-05T10:01:00.000Z").

(** Two programs that build a vigilance generator from the same seed, the
    second among other allocations and calls. *)
Definition programA : list Closures.Op :=
  [Closures.Make Rng.Pvt (JS.units "abc123"); Closures.Call 0; Closures.Call 0].

Definition programB : list Closures.Op :=
  [Closures.Make Rng.Sart (JS.units "abc123");
   Closures.Make Rng.Pvt (JS.units "abc123");
   Closures.Call 0; Closures.Call 1; Closures.Call 0; Closures.Call 1].

(** The entries that the listeners of task_core.js append to the
    interruption log for one event: one entry for a visibility change, a
    pagehide, a beforeunload or an offline event, none for [online], a
    timer or an input. *)
Definition noted {I : Type} (ev : Event I) (e : Env) : list Core.Interruption :=
  let entry ty := [Core.mkInterruption ty (Some (wallClock e)) (wallClock e)] in
  match ev with
  | VisibilityHidden => entry "visibility_hidden"
  | VisibilityVisible => entry "visibility_visible"
  | Pagehide => entry "pagehide"
  | Beforeunload => entry "beforeunload"
  | Offline => entry "offline"
  | _ => []
  end.

Definition notedAll {I : Type} (tr : list (Env * Event I)) : list Core.Interruption :=
  flat_map (fun x => noted (snd x) (fst x)) tr.

(** What a whole run does to the core, as statements about a task. *)
Definition logsLifecycleOnly {S I : Type} `{TaskObject S I} : Prop :=
  forall (tr : list (Env * Event I)) (p : S * Browser),
    Core.interruptions (core (snd (steps tr p)))
    = Core.interruptions (core (snd p)) ++ notedAll tr.

Definition neverPosts {S I : Type} `{TaskObject S I} : Prop :=
  forall (tr : list (Env * Event I)) (p : S * Browser),
    Core.fetches (core (snd (steps tr p))) = Core.fetches (core (snd p)).

Definition submitsAtMostOnce {S I : Type} `{TaskObject S I} `{Observed S} : Prop :=
  forall (tr : list (Env * Event I)) (p : S * Browser),
    (stopped (fst p) = true ->
       Core.submitCalls (core (snd (steps tr p))) = Core.submitCalls (core (snd p)))
    /\ (stopped (fst p) = false ->
        Core.submitCalls (core (snd (steps tr p))) = Core.submitCalls (core (snd p))
        \/ (stopped (fst (steps tr p)) = true
            /\ exists payload,
                 Core.submitCalls (core (snd (steps tr p)))
                 = Core.submitCalls (core (snd p)) ++ [payload])).

Definition ignoresInputWhenInactive {S I : Type} `{TaskObject S I} `{Observed S} : Prop :=
  forall (e : Env) (i : I) (p : S * Browser),
    paused (fst p) = true \/ stopped (fst p) = true ->
    step e (Input i) p = p.

(** What a closure of a task does to the core: nothing, or one rejected
    call of [submit]. *)
Definition coreKept (b : Browser) (p' : Browser) : Prop :=
  core p' = core b \/ exists payload, core p' = submitted payload b.

(** The shape of a record of the vigilance task: a tap before the stimulus
    has no onset and no latency and is an anticipation; a record without a
    response has an onset, no latency and is a lapse; a latency [r] comes
    with a response and is classified by the two thresholds; a response is
    never both an anticipation and a lapse. *)
Definition pvtScored (t : PvtTrial.t) : Prop :=
  (PvtTrial.stimulus_at_ms t = None ->
     PvtTrial.responded t = true /\ PvtTrial.rt_ms t = None
     /\ PvtTrial.is_anticipation t = true /\ PvtTrial.is_lapse t = false)
  /\ (PvtTrial.responded t = false ->
      is_Some (PvtTrial.stimulus_at_ms t) /\ PvtTrial.rt_ms t = None
      /\ PvtTrial.is_lapse t = true)
  /\ (forall r, PvtTrial.rt_ms t = Some r ->
        PvtTrial.responded t = true /\ is_Some (PvtTrial.stimulus_at_ms t)
        /\ PvtTrial.is_anticipation t = (r <? PvtTask.ANTICIPATION_THRESHOLD)
        /\ PvtTrial.is_lapse t = (PvtTask.LAPSE_THRESHOLD <? r))
  /\ (PvtTrial.responded t = true ->
      ~ (PvtTrial.is_anticipation t = true /\ PvtTrial.is_lapse t = true)).

(** A closure keeps the two flags of the runner, or stops it. *)
Definition pvtFlags (s s' : PvtTask.State) : Prop :=
  (PvtTask.isStopped s' = PvtTask.isStopped s
   /\ PvtTask.isRunning s' = PvtTask.isRunning s)
  \/ (PvtTask.isStopped s' = true /\ PvtTask.isRunning s' = false).

(** ** Rows of the conflict task *)

Definition arrowOf (d : Direction) : Ascii.ascii :=
  match d with Left => "<"%char | Right => ">"%char end.

Definition opposite (d : Direction) : Direction :=
  match d with Left => Right | Right => Left end.

(** A row of five arrows separated by blanks whose centre arrow points in
    direction [dir] and whose four flankers point the same way when the
    trial is congruent and the other way when it is not. *)
Definition rowMatches (row : string) (dir : Direction) (congruent : bool) : Prop :=
  String.length row = 9%nat
  /\ String.get 4 row = Some (arrowOf dir)
  /\ Forall (fun i => String.get i row
                      = Some (arrowOf (if congruent then dir else opposite dir)))
       [0; 2; 6; 8]%nat.

(** The shape of a record of the conflict task. *)
Definition flankerScored (t : FlankerTrial.t) : Prop :=
  rowMatches (FlankerTrial.arrows t) (FlankerTrial.direction t)
    (FlankerTrial.is_congruent t)
  /\ (FlankerTrial.responded t = false ->
      FlankerTrial.response t = None /\ FlankerTrial.correct t = false
      /\ FlankerTrial.rt_ms t = None)
  /\ (FlankerTrial.responded t = true ->
      exists d, FlankerTrial.response t = Some d
                /\ (FlankerTrial.correct t = true <-> d = FlankerTrial.direction t)
                /\ is_Some (FlankerTrial.rt_ms t)).

(** The stimulus on display, if any, is a well-formed row. *)
Definition stimulusShown (s : FlankerTask.State) : Prop :=
  forall st, FlankerTask.currentTrial s = Some st ->
             rowMatches (FlankerTask.arrows st) (FlankerTask.direction st)
               (FlankerTask.is_congruent st).

(** ** Option buttons and records of the substitution task *)

(** The option buttons belong to one trial whose target and digits lie
    between 1 and 9 and whose target symbol is the key's symbol. *)
Definition optionsOf (s : DigitSymbolTask.State) : Prop :=
  Forall (fun btn =>
            1 <= DigitSymbolTask.optDigit btn <= 9
            /\ 1 <= DigitSymbolTask.targetDigit btn <= 9
            /\ DigitSymbolTask.targetSymbol btn
               = DigitSymbolTask.symbolOf (DigitSymbolTask.symbolMap s)
                   (DigitSymbolTask.targetDigit btn))
    (DigitSymbolTask.options s).

(** The shape of a record of the substitution task under key [key]. *)
Definition digitSymbolScored (key : list nat) (t : DigitSymbolTrial.t) : Prop :=
  DigitSymbolTrial.responded t = true
  /\ 1 <= DigitSymbolTrial.digit t <= 9
  /\ DigitSymbolTrial.target_symbol t
     = DigitSymbolTask.symbolOf key (DigitSymbolTrial.digit t)
  /\ is_Some (DigitSymbolTrial.target_symbol t)
  /\ is_Some (DigitSymbolTrial.selected_symbol t)
  /\ (DigitSymbolTrial.correct t = true
      <-> DigitSymbolTrial.selected_symbol t = DigitSymbolTrial.target_symbol t).

(** ** Further example pages *)

(** [completePayload] without its [started_at]. *)
Definition payloadWithoutStart : gmap string Core.Value :=
  delete "started_at" completePayload.

(** The vigilance run of [pvtExample], left by the participant at 9 s. *)
Definition pvtLeft : list (Env * Event Tap) :=
  [(exampleEnv 7559, Timeout 1%nat); (exampleEnv 7900, Input TapContainer);
   (exampleEnv 9000, Pagehide)].

(** A sustained-attention run with seed "abc123" whose first digit is on
    screen. *)
Definition sartFirstDigit : SartTask.Page :=
  SartTask.init (JS.units "abc123") 0 (exampleEnv 0) (loaded "session-1" "token" 0 true).

(** A substitution run with seed "abc123", its first trial answered with
    the second button. *)
Definition digitSymbolExample : DigitSymbolTask.Page :=
  steps [(exampleEnv 1300, Input (Option_ 1))]
    (DigitSymbolTask.init (JS.units "abc123") 0 (exampleEnv 0)
       (loaded "session-1" "token" 0 true)).

(** A mood form with the four scales rated. *)
Definition moodRated : MoodTask.Page :=
  steps [(exampleEnv 1000, Input (Rate "valence" 4));
         (exampleEnv 2000, Input (Rate "arousal" 2));
         (exampleEnv 3000, Input (Rate "stress" 1));
         (exampleEnv 3500, Input (Rate "stress" 3));
         (exampleEnv 4000, Input (Rate "sharpness" 5))]
    (MoodTask.init 0 (exampleEnv 0) (loaded "session-1" "token" 0 true)).

(** ** Responses and non-responses of the sustained-attention task *)









Example rng_abc123_pvt :
  Rng.outputs 1 (Rng.taskRng Rng.Pvt (JS.units "abc123")) = [2984327793].
Proof. vm_compute. reflexivity. Qed.

Example rng_abc123_ds :
  Rng.taskRng Rng.DigitSymbol (JS.units "abc123") = JS.toInt32 3644082311.
Proof. vm_compute. reflexivity. Qed.

(** * Properties *)

(** ** task_core.js: submit *)

Lemma envelope_no_session_id ty ver st en d tr su :
  envelope ty ver st en d tr su !! "session_id" = None.
Proof.
  unfold envelope. rewrite !lookup_insert_ne by done. apply lookup_empty.
Qed.

Lemma pvt_payload_no_session_id s en :
  PvtTask.payload s en !! "session_id" = None.
Proof. unfold PvtTask.payload. apply envelope_no_session_id. Qed.

Lemma sart_payload_no_session_id s en :
  SartTask.payload s en !! "session_id" = None.
Proof. unfold SartTask.payload. apply envelope_no_session_id. Qed.

Lemma flanker_payload_no_session_id s en :
  FlankerTask.payload s en !! "session_id" = None.
Proof. unfold FlankerTask.payload. apply envelope_no_session_id. Qed.

Lemma digitSymbol_payload_no_session_id s en :
  DigitSymbolTask.payload s en !! "session_id" = None.
Proof. unfold DigitSymbolTask.payload. apply envelope_no_session_id. Qed.

Lemma mood_payload_no_session_id s en d :
  MoodTask.payload s en d !! "session_id" = None.
Proof.
  unfold MoodTask.payload. rewrite !lookup_insert_ne by done. apply lookup_empty.
Qed.

Lemma constructed_no_session_id payload :
  Constructed payload -> payload !! "session_id" = None.
Proof.
  intros [s en|s en|s en|s en|s en d].
  - apply pvt_payload_no_session_id.
  - apply sart_payload_no_session_id.
  - apply flanker_payload_no_session_id.
  - apply digitSymbol_payload_no_session_id.
  - apply mood_payload_no_session_id.
Qed.

Lemma submit_without_session_id payload c :
  payload !! "session_id" = None ->
  Core.submit payload c =
    (Core.Rejected missingSessionId,
     Core.set_submitCalls (Core.submitCalls c ++ [payload]) c).
Proof.
  intros Hno. unfold Core.submit, Core.REQUIRED, Core.firstMissing.
  rewrite Hno. reflexivity.
Qed.

Lemma submit_fetches_offline payload c :
  Core.onLine c = false ->
  Core.fetches (snd (Core.submit payload c)) = Core.fetches c.
Proof.
  intros Hoff. unfold Core.submit.
  destruct (Core.firstMissing _ _); simpl; [reflexivity|].
  rewrite Hoff. reflexivity.
Qed.

Lemma submit_rejected_offline payload c :
  Core.onLine c = false ->
  exists msg, fst (Core.submit payload c) = Core.Rejected msg.
Proof.
  intros Hoff. unfold Core.submit.
  destruct (Core.firstMissing _ _); simpl; [eauto|].
  rewrite Hoff. simpl. eauto.
Qed.

(** ** endTask of the four runners *)

Lemma pvt_endTask_running e s b :
  PvtTask.isStopped s = false ->
  PvtTask.endTask e (s, b) =
    (PvtTask.set_display (DError missingSessionId) (pvtStopped s),
     mkBrowser (submitted (PvtTask.payload (pvtStopped s) (wallClock e)) b)
       (PvtTask.clearTimers s (timers b))).
Proof.
  intros Hs. unfold PvtTask.endTask. rewrite Hs.
  rewrite submit_without_session_id by apply pvt_payload_no_session_id.
  reflexivity.
Qed.

Lemma pvt_endTask_stopped e s b :
  PvtTask.isStopped s = true -> PvtTask.endTask e (s, b) = (s, b).
Proof. intros Hs. unfold PvtTask.endTask. rewrite Hs. reflexivity. Qed.

Lemma sart_endTask_running e s b :
  SartTask.isStopped s = false ->
  SartTask.endTask e (s, b) =
    (SartTask.set_display (DError missingSessionId) (sartStopped s),
     mkBrowser (submitted (SartTask.payload (sartStopped s) (wallClock e)) b)
       (Timers.clearTimeout (SartTask.taskEndTimer s)
          (Timers.clearTimeout (SartTask.trialTimer s) (timers b)))).
Proof.
  intros Hs. unfold SartTask.endTask. rewrite Hs.
  rewrite submit_without_session_id by apply sart_payload_no_session_id.
  reflexivity.
Qed.

Lemma sart_endTask_stopped e s b :
  SartTask.isStopped s = true -> SartTask.endTask e (s, b) = (s, b).
Proof. intros Hs. unfold SartTask.endTask. rewrite Hs. reflexivity. Qed.

Lemma flanker_endTask_running e s b :
  FlankerTask.isStopped s = false ->
  FlankerTask.endTask e (s, b) =
    (FlankerTask.set_display (DError missingSessionId) (flankerStopped s),
     mkBrowser (submitted (FlankerTask.payload (flankerStopped s) (wallClock e)) b)
       (Timers.clearTimeout (FlankerTask.taskEndTimer s)
          (Timers.clearTimeout (FlankerTask.trialTimer s) (timers b)))).
Proof.
  intros Hs. unfold FlankerTask.endTask. rewrite Hs.
  rewrite submit_without_session_id by apply flanker_payload_no_session_id.
  reflexivity.
Qed.

Lemma flanker_endTask_stopped e s b :
  FlankerTask.isStopped s = true -> FlankerTask.endTask e (s, b) = (s, b).
Proof. intros Hs. unfold FlankerTask.endTask. rewrite Hs. reflexivity. Qed.

Lemma digitSymbol_endTask_running e s b :
  DigitSymbolTask.isStopped s = false ->
  DigitSymbolTask.endTask e (s, b) =
    (DigitSymbolTask.set_display (DError missingSessionId) (digitSymbolStopped s),
     mkBrowser
       (submitted (DigitSymbolTask.payload (digitSymbolStopped s) (wallClock e)) b)
       (Timers.clearTimeout (DigitSymbolTask.taskEndTimer s) (timers b))).
Proof.
  intros Hs. unfold DigitSymbolTask.endTask. rewrite Hs.
  rewrite submit_without_session_id by apply digitSymbol_payload_no_session_id.
  reflexivity.
Qed.

Lemma digitSymbol_endTask_stopped e s b :
  DigitSymbolTask.isStopped s = true -> DigitSymbolTask.endTask e (s, b) = (s, b).
Proof. intros Hs. unfold DigitSymbolTask.endTask. rewrite Hs. reflexivity. Qed.

Lemma mood_clickSubmit_enabled d e s b :
  MoodTask.submitDisabled s = false ->
  exists s',
    MoodTask.clickSubmit d e (s, b) =
      (s', mkBrowser
             (submitted
                (MoodTask.payload
                   (MoodTask.mk (MoodTask.startedAt s) (MoodTask.startedAtMs s)
                      (MoodTask.ratings s) true (MoodTask.alerts s))
                   (wallClock e) d) b)
             (timers b)).
Proof.
  intros Hs. unfold MoodTask.clickSubmit. rewrite Hs.
  rewrite submit_without_session_id by apply mood_payload_no_session_id.
  eexists. reflexivity.
Qed.

(** C2: every payload that a task module hands to [TaskCore.submit] lacks
    the key [session_id]; [submit] tests the keys of the payload before it
    merges the stored session id, so each of these calls is rejected with
    "Missing required field: session_id" and issues no request. *)
Theorem task_submissions_rejected_missing_session_id b b' :
  Submission b b' ->
  Core.fetches (core b') = Core.fetches (core b)
  /\ exists payload,
       Constructed payload
       /\ Core.submitCalls (core b') = Core.submitCalls (core b) ++ [payload]
       /\ payload !! "session_id" = None
       /\ forall c, fst (Core.submit payload c) = Core.Rejected missingSessionId
                    /\ Core.fetches (snd (Core.submit payload c)) = Core.fetches c.
Proof.
  assert (Hrej : forall payload, Constructed payload ->
            forall c, fst (Core.submit payload c) = Core.Rejected missingSessionId
                      /\ Core.fetches (snd (Core.submit payload c)) = Core.fetches c).
  { intros payload Hc c.
    rewrite submit_without_session_id by (apply constructed_no_session_id, Hc).
    split; reflexivity. }
  intros [e s b0 Hs|e s b0 Hs|e s b0 Hs|e s b0 Hs|d e s b0 Hs].
  - rewrite pvt_endTask_running by exact Hs. simpl. split; [reflexivity|].
    eexists. split; [apply ByPvt|]. split; [reflexivity|].
    split; [apply pvt_payload_no_session_id|]. apply Hrej, ByPvt.
  - rewrite sart_endTask_running by exact Hs. simpl. split; [reflexivity|].
    eexists. split; [apply BySart|]. split; [reflexivity|].
    split; [apply sart_payload_no_session_id|]. apply Hrej, BySart.
  - rewrite flanker_endTask_running by exact Hs. simpl. split; [reflexivity|].
    eexists. split; [apply ByFlanker|]. split; [reflexivity|].
    split; [apply flanker_payload_no_session_id|]. apply Hrej, ByFlanker.
  - rewrite digitSymbol_endTask_running by exact Hs. simpl. split; [reflexivity|].
    eexists. split; [apply ByDigitSymbol|]. split; [reflexivity|].
    split; [apply digitSymbol_payload_no_session_id|]. apply Hrej, ByDigitSymbol.
  - destruct (mood_clickSubmit_enabled d e s b0 Hs) as [s' ->]. simpl.
    split; [reflexivity|].
    eexists. split; [apply ByMood|]. split; [reflexivity|].
    split; [apply mood_payload_no_session_id|]. apply Hrej, ByMood.
Qed.

(** ** The offline path *)

Lemma offline_invokes_abort {S I : Type} `{TaskObject S I} e (p : S * Browser) :
  Core.activeTask (core (snd p)) = true ->
  step e Offline p = abort "offline" (offlineNoted e p).
Proof.
  intros Hact. destruct p as [s b]. simpl in Hact.
  unfold step, onOffline, invoke, logged, setOnLine. simpl.
  rewrite Hact. reflexivity.
Qed.

Lemma offline_unregistered {S I : Type} `{TaskObject S I} e (p : S * Browser) :
  Core.activeTask (core (snd p)) = false ->
  Core.submitCalls (core (snd (step e Offline p))) = Core.submitCalls (core (snd p))
  /\ Core.fetches (core (snd (step e Offline p))) = Core.fetches (core (snd p)).
Proof.
  intros Hact. destruct p as [s b]. simpl in Hact.
  unfold step, onOffline, invoke, logged, setOnLine. simpl.
  rewrite Hact. split; reflexivity.
Qed.

Lemma quiet_offline_of_abort {S I : Type} `{TaskObject S I} :
  (forall r (p : S * Browser), core (snd (abort r p)) = core (snd p)) ->
  quiet (S := S) (I := I) Offline.
Proof.
  intros Habort e p.
  destruct (Core.activeTask (core (snd p))) eqn:Hact.
  - rewrite offline_invokes_abort by exact Hact. rewrite Habort.
    destruct p as [s b]. split; reflexivity.
  - apply offline_unregistered, Hact.
Qed.

Lemma pvt_abort_core r p : core (snd (PvtTask.abort r p)) = core (snd p).
Proof. destruct p as [s b]. reflexivity. Qed.

Lemma sart_abort_core r p : core (snd (SartTask.abort r p)) = core (snd p).
Proof. destruct p as [s b]. reflexivity. Qed.

Lemma flanker_abort_core r p : core (snd (FlankerTask.abort r p)) = core (snd p).
Proof. destruct p as [s b]. reflexivity. Qed.

Lemma digitSymbol_abort_core r p :
  core (snd (DigitSymbolTask.abort r p)) = core (snd p).
Proof. destruct p as [s b]. reflexivity. Qed.

(** C5: a call of [TaskCore.submit] while [navigator.onLine] is false is
    rejected at once and issues no request; the [offline] event invokes
    [abort("offline")] on the registered task, and for each of the five
    task objects that event adds neither a submission nor a request. *)
Theorem offline_rejects_submit_and_aborts_task :
  (forall payload c,
      Core.onLine c = false ->
      (exists msg, fst (Core.submit payload c) = Core.Rejected msg)
      /\ Core.fetches (snd (Core.submit payload c)) = Core.fetches c)
  /\ (forall (S I : Type) (T : TaskObject S I) e (p : S * Browser),
        Core.activeTask (core (snd p)) = true ->
        step e Offline p = abort "offline" (offlineNoted e p)
        /\ Core.calls (core (snd (offlineNoted e p)))
           = Core.calls (core (snd p)) ++ [Core.CallAbort "offline"]
        /\ Core.onLine (core (snd (offlineNoted e p))) = false)
  /\ quiet (S := PvtTask.State) Offline
  /\ quiet (S := SartTask.State) Offline
  /\ quiet (S := FlankerTask.State) (I := FlankerInput) Offline
  /\ quiet (S := DigitSymbolTask.State) (I := DigitSymbolInput) Offline
  /\ quiet (S := MoodTask.State) (I := MoodInput) Offline.
Proof.
  split.
  { intros payload c Hoff. split.
    - apply submit_rejected_offline, Hoff.
    - apply submit_fetches_offline, Hoff. }
  split.
  { intros S I T e p Hact. split; [apply offline_invokes_abort, Hact|].
    destruct p as [s b]. split; reflexivity. }
  split; [apply (quiet_offline_of_abort (S := PvtTask.State)), pvt_abort_core|].
  split; [apply (quiet_offline_of_abort (S := SartTask.State)), sart_abort_core|].
  split; [apply (quiet_offline_of_abort (S := FlankerTask.State)), flanker_abort_core|].
  split; [apply (quiet_offline_of_abort (S := DigitSymbolTask.State)),
            digitSymbol_abort_core|].
  apply (quiet_offline_of_abort (S := MoodTask.State)). intros r p. reflexivity.
Qed.

(** ** pvt.js: recording a response *)

Lemma round_proper x y : (x == y)%Q -> JS.round x = JS.round y.
Proof.
  intros Hxy. unfold JS.round. apply Qfloor_comp. rewrite Hxy. reflexivity.
Qed.

Lemma pvt_startISI_trials p :
  PvtTask.trials (fst (PvtTask.startISI p)) = PvtTask.trials (fst p).
Proof.
  destruct p as [s b]. unfold PvtTask.startISI.
  destruct (negb (PvtTask.isRunning s) || PvtTask.isPaused s); reflexivity.
Qed.

Lemma pvt_recordResponse_visible isUserTap e s b t0 :
  PvtTask.stimulusStartMs s = Some t0 ->
  let rtMs := JS.round (Core.now (core b) (perfNow e) - t0) in
  PvtTask.trials (fst (PvtTask.recordResponse isUserTap e (s, b))) =
    PvtTask.trials s ++
      [PvtTrial.mk (Some (JS.round t0)) (JS.round (Core.now (core b) (perfNow e)))
         (if isUserTap then Some rtMs else None)
         (rtMs <? PvtTask.ANTICIPATION_THRESHOLD)
         ((PvtTask.LAPSE_THRESHOLD <? rtMs) || negb isUserTap) isUserTap].
Proof.
  intros Hvis rtMs. unfold PvtTask.recordResponse. rewrite Hvis.
  match goal with
  | |- context [if ?c then PvtTask.startISI ?q else ?r] =>
      destruct c; [rewrite pvt_startISI_trials|]; reflexivity
  end.
Qed.

Lemma pvt_recordResponse_waiting e s b :
  PvtTask.stimulusStartMs s = None ->
  PvtTask.trials (fst (PvtTask.recordResponse true e (s, b))) =
    PvtTask.trials s ++
      [PvtTrial.mk None (JS.round (Core.now (core b) (perfNow e))) None true false true].
Proof.
  intros Hisi. unfold PvtTask.recordResponse. rewrite Hisi. simpl negb. cbv iota.
  rewrite pvt_startISI_trials. reflexivity.
Qed.

(** C6: a response whose recorded latency is below 100 ms while the
    stimulus is visible is pushed with [is_anticipation] true, and that
    record does not count as a valid reaction time. *)
Theorem pvt_fast_response_is_anticipation isUserTap e s b t0 :
  PvtTask.stimulusStartMs s = Some t0 ->
  JS.round (Core.now (core b) (perfNow e) - t0) < 100 ->
  exists tr,
    PvtTask.trials (fst (PvtTask.recordResponse isUserTap e (s, b)))
      = PvtTask.trials s ++ [tr]
    /\ PvtTrial.is_anticipation tr = true
    /\ validReactionTime tr = false.
Proof.
  intros Hvis Hfast. eexists. split.
  - apply pvt_recordResponse_visible, Hvis.
  - assert (Hlt : (JS.round (Core.now (core b) (perfNow e) - t0)
                   <? PvtTask.ANTICIPATION_THRESHOLD) = true)
      by (apply Z.ltb_lt; exact Hfast).
    unfold validReactionTime. simpl. rewrite Hlt.
    split; [reflexivity|]. apply andb_false_r.
Qed.

(** C7: with the stimulus shown at 1200 ms and a tap at 1500 ms the pushed
    record has a reaction time of 300 ms and is neither a lapse nor an
    anticipation, whatever the state of the generator. *)
Theorem pvt_response_300ms e s b t0 :
  PvtTask.stimulusStartMs s = Some t0 ->
  (t0 == 1200)%Q ->
  (Core.now (core b) (perfNow e) == 1500)%Q ->
  exists tr,
    PvtTask.trials (fst (PvtTask.recordResponse true e (s, b)))
      = PvtTask.trials s ++ [tr]
    /\ PvtTrial.rt_ms tr = Some 300
    /\ PvtTrial.is_lapse tr = false
    /\ PvtTrial.is_anticipation tr = false
    /\ PvtTrial.responded tr = true
    /\ (300 <= PvtTask.LAPSE_THRESHOLD /\ PvtTask.ANTICIPATION_THRESHOLD <= 300).
Proof.
  intros Hvis Hon Hnow.
  assert (Hrt : JS.round (Core.now (core b) (perfNow e) - t0) = 300).
  { rewrite (round_proper _ (1500 - 1200)%Q) by (rewrite Hon, Hnow; reflexivity).
    reflexivity. }
  eexists. split; [apply pvt_recordResponse_visible, Hvis|].
  simpl. rewrite Hrt. repeat split; try reflexivity.
  - unfold PvtTask.LAPSE_THRESHOLD. lia.
  - unfold PvtTask.ANTICIPATION_THRESHOLD. lia.
Qed.

(** ** One turn of the event loop enters one closure *)

Lemma sameSession_refl c : sameSession c c.
Proof. repeat split. Qed.

Lemma sameSession_trans c1 c2 c3 :
  sameSession c1 c2 -> sameSession c2 c3 -> sameSession c1 c3.
Proof.
  unfold sameSession. intros (?&?&?&?&?&?) (?&?&?&?&?&?).
  repeat split; congruence.
Qed.

Lemma invoke_enters {S I : Type} `{TaskObject S I} c e (p : S * Browser) :
  exists (o : Entry I) b',
    invoke c e p = enter o e (fst p, b')
    /\ sameSession (core (snd p)) (core b')
    /\ match c, o with
       | _, EnterNone => True
       | Core.CallPause, EnterPause => True
       | Core.CallResume, EnterResume => True
       | Core.CallAbort r, EnterAbort r' => r = r'
       | _, _ => False
       end.
Proof.
  destruct p as [s b]. unfold invoke.
  destruct (Core.activeTask (core b)).
  - destruct c as [| |r].
    + exists EnterPause. eexists. split; [reflexivity|]. repeat split.
    + exists EnterResume. eexists. split; [reflexivity|]. repeat split.
    + exists (EnterAbort r). eexists. split; [reflexivity|]. repeat split.
  - exists EnterNone, b. split; [reflexivity|]. destruct c; repeat split.
Qed.

Lemma step_enters {S I : Type} `{TaskObject S I} e (ev : Event I) (p : S * Browser) :
  exists (o : Entry I) b',
    step e ev p = enter o e (fst p, b')
    /\ sameSession (core (snd p)) (core b')
    /\ entryFor ev o.
Proof.
  destruct ev as [id|id|i| | | | | | ]; simpl.
  - destruct p as [s b]. unfold fireTimeout.
    destruct (Timers.timeouts (timers b) !! id) as [[cb d]|].
    + exists (EnterTimer cb). eexists.
      split; [reflexivity|]. split; [apply sameSession_refl|reflexivity].
    + exists EnterNone, b.
      split; [reflexivity|]. split; [apply sameSession_refl|exact Logic.I].
  - destruct p as [s b]. unfold fireFrame.
    destruct (Timers.frames (timers b) !! id) as [cb|].
    + exists (EnterTimer cb). eexists.
      split; [reflexivity|]. split; [apply sameSession_refl|reflexivity].
    + exists EnterNone, b.
      split; [reflexivity|]. split; [apply sameSession_refl|exact Logic.I].
  - exists (EnterInput i), (snd p). destruct p.
    split; [reflexivity|]. split; [apply sameSession_refl|reflexivity].
  - destruct (invoke_enters Core.CallPause e (logged "visibility_hidden" e p))
      as (o & b' & Heq & Hs & Ho).
    exists o, b'. split; [exact Heq|]. split.
    + eapply sameSession_trans; [|exact Hs]. destruct p. repeat split.
    + destruct o; simpl in *; try exact Logic.I; try contradiction; congruence.
  - destruct (invoke_enters Core.CallResume e (logged "visibility_visible" e p))
      as (o & b' & Heq & Hs & Ho).
    exists o, b'. split; [exact Heq|]. split.
    + eapply sameSession_trans; [|exact Hs]. destruct p. repeat split.
    + destruct o; simpl in *; try exact Logic.I; try contradiction; congruence.
  - destruct (invoke_enters (Core.CallAbort "pagehide") e (logged "pagehide" e p))
      as (o & b' & Heq & Hs & Ho).
    exists o, b'. split; [exact Heq|]. split.
    + eapply sameSession_trans; [|exact Hs]. destruct p. repeat split.
    + destruct o; simpl in *; try exact Logic.I; try contradiction; congruence.
  - destruct (invoke_enters (Core.CallAbort "beforeunload") e (logged "beforeunload" e p))
      as (o & b' & Heq & Hs & Ho).
    exists o, b'. split; [exact Heq|]. split.
    + eapply sameSession_trans; [|exact Hs]. destruct p. repeat split.
    + destruct o; simpl in *; try exact Logic.I; try contradiction; congruence.
  - destruct (invoke_enters (Core.CallAbort "offline") e
                (logged "offline" e (setOnLine false p)))
      as (o & b' & Heq & Hs & Ho).
    exists o, b'. split; [exact Heq|]. split.
    + eapply sameSession_trans; [|exact Hs]. destruct p. repeat split.
    + destruct o; simpl in *; try exact Logic.I; try contradiction; congruence.
  - exists EnterNone. eexists. unfold onOnline, setOnLine. simpl.
    split; [destruct p; reflexivity|]. split; [|exact Logic.I].
    destruct p. repeat split.
Qed.

(** ** sart.js: every pushed record is scored by the rule *)



















(** ** What one closure does to the submission log *)

Ltac split_ifs :=
  repeat match goal with
         | |- context [match ?x with _ => _ end] =>
             match type of x with
             | bool => destruct x
             | option _ => destruct x
             end
         end.

Ltac keeps := cbv zeta; split_ifs; simpl; split; reflexivity.

Lemma terminalLaw_of_closureLaw {S I : Type} `{TaskObject S I} `{Observed S}
    (payloadOf : S -> string -> gmap string Core.Value) :
  closureLaw payloadOf ->
  (forall s en, payloadOf s en !! "trials" = Some (Core.VTrials (recorded s))) ->
  (forall s en, payloadOf s en !! "interruptions" = None) ->
  terminalLaw (S := S) (I := I).
Proof.
  intros Hlaw Htrials Hlog e ev p.
  destruct (step_enters e ev p) as (o & b' & Heq & Hsame & Hfor).
  destruct Hsame as (_ & _ & _ & _ & _ & Hcalls).
  rewrite Heq. destruct (Hlaw o e (fst p) b') as [Hstopped Hrunning].
  split.
  - intros Hs. destruct (Hstopped Hs) as [Hs' Hcore].
    rewrite Hs', Hcore, Hcalls. split; reflexivity.
  - intros Hs Hs'. destruct (Hrunning Hs) as [[Hcore Habort]|(Hno & _ & Hcore)].
    + left. destruct (Habort Hs') as [r ->]. simpl in Hfor.
      rewrite Hcore, Hcalls, Hfor. split; [discriminate|reflexivity].
    + right. split.
      * destruct o as [| | |r|cb|i]; simpl in Hfor; try exact Hfor.
        -- simpl in Hs'. congruence.
        -- destruct (Hno r eq_refl).
      * eexists. split; [rewrite Hcore; unfold submitted; simpl; rewrite Hcalls; reflexivity|].
        split; [apply Htrials|]. split; [apply Hlog|].
        intros c. unfold Core.body. apply lookup_insert_eq.
Qed.

Lemma envelope_trials ty ver st en d tr su :
  envelope ty ver st en d tr su !! "trials" = Some (Core.VTrials tr).
Proof.
  unfold envelope. rewrite !lookup_insert_ne by done. apply lookup_insert_eq.
Qed.

Lemma envelope_no_interruptions ty ver st en d tr su :
  envelope ty ver st en d tr su !! "interruptions" = None.
Proof.
  unfold envelope. rewrite !lookup_insert_ne by done. apply lookup_empty.
Qed.

(** *** pvt.js *)

Lemma pvt_startISI_keeps p :
  core (snd (PvtTask.startISI p)) = core (snd p)
  /\ PvtTask.isStopped (fst (PvtTask.startISI p)) = PvtTask.isStopped (fst p).
Proof. destruct p as [s b]. unfold PvtTask.startISI. keeps. Qed.

Lemma pvt_showStimulus_keeps e p :
  core (snd (PvtTask.showStimulus e p)) = core (snd p)
  /\ PvtTask.isStopped (fst (PvtTask.showStimulus e p)) = PvtTask.isStopped (fst p).
Proof. destruct p as [s b]. unfold PvtTask.showStimulus. keeps. Qed.

Lemma pvt_animate_keeps e p :
  core (snd (PvtTask.animate e p)) = core (snd p)
  /\ PvtTask.isStopped (fst (PvtTask.animate e p)) = PvtTask.isStopped (fst p).
Proof. destruct p as [s b]. unfold PvtTask.animate. keeps. Qed.

Lemma pvt_recordResponse_keeps tap e p :
  core (snd (PvtTask.recordResponse tap e p)) = core (snd p)
  /\ PvtTask.isStopped (fst (PvtTask.recordResponse tap e p))
     = PvtTask.isStopped (fst p).
Proof.
  destruct p as [s b]. unfold PvtTask.recordResponse.
  destruct (PvtTask.stimulusStartMs s) as [t0|].
  - match goal with
    | |- context [if ?c then PvtTask.startISI ?q else ?r] =>
        destruct c;
        [destruct (pvt_startISI_keeps q) as [-> ->]|]; split; reflexivity
    end.
  - destruct (negb tap); [split; reflexivity|].
    match goal with
    | |- context [PvtTask.startISI ?q] =>
        destruct (pvt_startISI_keeps q) as [-> ->]; split; reflexivity
    end.
Qed.

Lemma pvt_noResponse_keeps e p :
  core (snd (PvtTask.noResponse e p)) = core (snd p)
  /\ PvtTask.isStopped (fst (PvtTask.noResponse e p)) = PvtTask.isStopped (fst p).
Proof.
  destruct p as [s b]. unfold PvtTask.noResponse.
  destruct (PvtTask.stimulusStartMs s); [|split; reflexivity].
  destruct (PvtTask.isRunning s); [|split; reflexivity].
  apply pvt_recordResponse_keeps.
Qed.

Lemma pvt_handleInteraction_keeps e p :
  core (snd (PvtTask.handleInteraction e p)) = core (snd p)
  /\ PvtTask.isStopped (fst (PvtTask.handleInteraction e p))
     = PvtTask.isStopped (fst p).
Proof.
  destruct p as [s b]. unfold PvtTask.handleInteraction.
  destruct (negb (PvtTask.listening s)); [split; reflexivity|].
  destruct (negb (PvtTask.isRunning s) || PvtTask.isPaused s || PvtTask.isStopped s);
    [split; reflexivity|].
  apply pvt_recordResponse_keeps.
Qed.

Lemma pvt_closureLaw : closureLaw (S := PvtTask.State) (I := Tap) PvtTask.payload.
Proof.
  intros o e s b.
  assert (Hkeep : forall p' : PvtTask.Page,
             core (snd p') = core b /\ PvtTask.isStopped (fst p') = PvtTask.isStopped s ->
             (stopped s = true -> stopped (fst p') = true /\ core (snd p') = core b)
             /\ (stopped s = false ->
                 (core (snd p') = core b
                  /\ (stopped (fst p') = true -> exists r, o = EnterAbort r))
                 \/ ((forall r, o <> EnterAbort r)
                     /\ stopped (fst p') = true
                     /\ core (snd p')
                        = submitted (PvtTask.payload (fst p') (wallClock e)) b))).
  { intros p' [Hc Hst]. simpl. rewrite Hst. split.
    - intros Hs. split; [exact Hs|exact Hc].
    - intros Hs. left. split; [exact Hc|]. congruence. }
  destruct o as [| | |r|cb|i]; simpl enter.
  - apply Hkeep. split; reflexivity.
  - apply Hkeep. split; reflexivity.
  - apply Hkeep. simpl. unfold PvtTask.resume.
    match goal with
    | |- context [PvtTask.startISI ?q] =>
        destruct (pvt_startISI_keeps q) as [-> ->]; split; reflexivity
    end.
  - simpl. unfold PvtTask.abort. simpl. split.
    + intros _. split; reflexivity.
    + intros _. left. split; [reflexivity|]. intros _. exists r. reflexivity.
  - destruct cb; simpl timer; try (apply Hkeep; split; reflexivity).
    + apply Hkeep, (pvt_showStimulus_keeps e (s, b)).
    + apply Hkeep, (pvt_noResponse_keeps e (s, b)).
    + apply Hkeep, (pvt_animate_keeps e (s, b)).
    + simpl. destruct (PvtTask.isStopped s) eqn:Hs.
      * rewrite pvt_endTask_stopped by exact Hs. simpl. rewrite Hs.
        split; [intros _; split; reflexivity|discriminate].
      * rewrite pvt_endTask_running by exact Hs. simpl.
        split; [discriminate|]. intros _. right.
        split; [discriminate|]. split; reflexivity.
  - apply Hkeep, (pvt_handleInteraction_keeps e (s, b)).
Qed.

Lemma closureLaw_intro {S I : Type} `{TaskObject S I} `{Observed S}
    (payloadOf : S -> string -> gmap string Core.Value) :
  (forall (o : Entry I) e s b,
      (forall r, o <> EnterAbort r) ->
      outcome payloadOf e s b (enter o e (s, b))) ->
  (forall r s b,
      core (snd (abort r (s, b))) = core b
      /\ stopped (fst (abort r (s, b))) = true) ->
  closureLaw (S := S) (I := I) payloadOf.
Proof.
  intros Hother Habort o e s b.
  destruct o as [| | |r|cb|i].
  1,2,3,5,6:
    match goal with
    | |- context [enter ?o _ _] =>
        destruct (Hother o e s b ltac:(discriminate))
          as [[Hc Hst]|(Hs & Hs' & Hc)];
        [ split;
          [ intros Hs; split; [congruence|exact Hc]
          | intros Hs; left; split; [exact Hc|congruence] ]
        | split;
          [ congruence
          | intros _; right; split; [discriminate|]; split; [exact Hs'|exact Hc] ] ]
    end.
  simpl enter. destruct (Habort r s b) as [Hc Hs']. split.
  - intros _. split; [exact Hs'|exact Hc].
  - intros _. left. split; [exact Hc|]. intros _. exists r. reflexivity.
Qed.

(** *** sart.js *)

Lemma sart_endTask_outcome e s s0 b :
  SartTask.isStopped s = SartTask.isStopped s0 ->
  outcome SartTask.payload e s0 b (SartTask.endTask e (s, b)).
Proof.
  intros Hst. destruct (SartTask.isStopped s) eqn:Hs.
  - rewrite sart_endTask_stopped by exact Hs. left. simpl.
    split; [reflexivity|congruence].
  - rewrite sart_endTask_running by exact Hs. right. simpl.
    split; [congruence|]. split; reflexivity.
Qed.

Lemma sart_showNextTrial_outcome e s s0 b :
  SartTask.isStopped s = SartTask.isStopped s0 ->
  outcome SartTask.payload e s0 b (SartTask.showNextTrial e (s, b)).
Proof.
  intros Hst. unfold SartTask.showNextTrial.
  destruct (negb (SartTask.isRunning s) || SartTask.isPaused s
            || (length (SartTask.sequence s) <=? SartTask.seqIndex s)%nat).
  - apply sart_endTask_outcome, Hst.
  - left. simpl. split; [reflexivity|exact Hst].
Qed.

Lemma sart_closureLaw : closureLaw (S := SartTask.State) (I := Tap) SartTask.payload.
Proof.
  apply closureLaw_intro.
  - intros o e s b Hno. destruct o as [| | |r|cb|i]; simpl enter.
    + left. split; reflexivity.
    + left. split; reflexivity.
    + unfold SartTask.resume. apply sart_showNextTrial_outcome. reflexivity.
    + destruct (Hno r eq_refl).
    + destruct cb; simpl timer; try (left; split; reflexivity).
      * unfold SartTask.windowEnd. apply sart_showNextTrial_outcome.
        destruct (SartTask.responded s); reflexivity.
      * apply sart_endTask_outcome. reflexivity.
    + unfold SartTask.handleInteraction. left. keeps.
  - intros r s b. split; reflexivity.
Qed.

(** *** flanker.js *)

Lemma flanker_endTask_outcome e s b :
  outcome FlankerTask.payload e s b (FlankerTask.endTask e (s, b)).
Proof.
  destruct (FlankerTask.isStopped s) eqn:Hs.
  - rewrite flanker_endTask_stopped by exact Hs. left. split; reflexivity.
  - rewrite flanker_endTask_running by exact Hs. right. simpl.
    split; [exact Hs|]. split; reflexivity.
Qed.

Lemma flanker_showNextTrial_keeps e s b :
  core (snd (FlankerTask.showNextTrial e (s, b))) = core b
  /\ FlankerTask.isStopped (fst (FlankerTask.showNextTrial e (s, b)))
     = FlankerTask.isStopped s.
Proof. unfold FlankerTask.showNextTrial. keeps. Qed.

Lemma flanker_handleResponse_keeps d e s b :
  core (snd (FlankerTask.handleResponse d e (s, b))) = core b
  /\ FlankerTask.isStopped (fst (FlankerTask.handleResponse d e (s, b)))
     = FlankerTask.isStopped s.
Proof. unfold FlankerTask.handleResponse. keeps. Qed.

Lemma flanker_closureLaw :
  closureLaw (S := FlankerTask.State) (I := FlankerInput) FlankerTask.payload.
Proof.
  apply closureLaw_intro.
  - intros o e s b Hno. destruct o as [| | |r|cb|i]; simpl enter.
    + left. split; reflexivity.
    + left. split; reflexivity.
    + left. unfold FlankerTask.resume.
      exact (flanker_showNextTrial_keeps e (FlankerTask.set_isPaused false s) b).
    + destruct (Hno r eq_refl).
    + destruct cb; simpl timer; try (left; split; reflexivity).
      * left. unfold FlankerTask.windowEnd. simpl.
        destruct (FlankerTask.currentTrial s) as [st|];
          [destruct (FlankerTask.responded s)|]; split; reflexivity.
      * left. apply flanker_showNextTrial_keeps.
      * apply flanker_endTask_outcome.
    + left. destruct i as [d|d]; simpl input.
      * apply flanker_handleResponse_keeps.
      * unfold FlankerTask.keyHandler. simpl.
        destruct (FlankerTask.keyListening s); [|split; reflexivity].
        apply flanker_handleResponse_keeps.
  - intros r s b. split; reflexivity.
Qed.

(** *** digit_symbol.js *)

Lemma digitSymbol_showNextTrial_keeps e s b :
  core (snd (DigitSymbolTask.showNextTrial e (s, b))) = core b
  /\ DigitSymbolTask.isStopped (fst (DigitSymbolTask.showNextTrial e (s, b)))
     = DigitSymbolTask.isStopped s.
Proof.
  unfold DigitSymbolTask.showNextTrial.
  destruct (negb (DigitSymbolTask.isRunning s) || DigitSymbolTask.isPaused s
            || DigitSymbolTask.isStopped s); [split; reflexivity|].
  destruct (Rng.draw (DigitSymbolTask.rng s)) as [u h].
  destruct (DigitSymbolTask.shuffle _ h) as [sh h1].
  destruct (DigitSymbolTask.shuffle _ h1) as [opts h2].
  split; reflexivity.
Qed.

Lemma digitSymbol_closureLaw :
  closureLaw (S := DigitSymbolTask.State) (I := DigitSymbolInput)
    DigitSymbolTask.payload.
Proof.
  apply closureLaw_intro.
  - intros o e s b Hno. destruct o as [| | |r|cb|i]; simpl enter.
    + left. split; reflexivity.
    + left. split; reflexivity.
    + left. unfold DigitSymbolTask.resume.
      exact (digitSymbol_showNextTrial_keeps e
               (DigitSymbolTask.set_isPaused false s) b).
    + destruct (Hno r eq_refl).
    + destruct cb; simpl timer; try (left; split; reflexivity).
      destruct (DigitSymbolTask.isStopped s) eqn:Hs.
      * rewrite digitSymbol_endTask_stopped by exact Hs. left. split; reflexivity.
      * rewrite digitSymbol_endTask_running by exact Hs. right. simpl.
        split; [exact Hs|]. split; reflexivity.
    + left. destruct i as [k]. simpl input. unfold DigitSymbolTask.click.
      destruct (DigitSymbolTask.options s !! k) as [btn|]; [|split; reflexivity].
      destruct (negb (DigitSymbolTask.isRunning s) || DigitSymbolTask.isPaused s
                || DigitSymbolTask.isStopped s); [split; reflexivity|].
      match goal with
      | |- context [DigitSymbolTask.showNextTrial e (?q, b)] =>
          exact (digitSymbol_showNextTrial_keeps e q b)
      end.
  - intros r s b. split; reflexivity.
Qed.

(** ** Terminal states and submission *)

Lemma pvt_terminalLaw : terminalLaw (S := PvtTask.State) (I := Tap).
Proof.
  apply (terminalLaw_of_closureLaw PvtTask.payload).
  - apply pvt_closureLaw.
  - intros s en. unfold PvtTask.payload. apply envelope_trials.
  - intros s en. unfold PvtTask.payload. apply envelope_no_interruptions.
Qed.

Lemma sart_terminalLaw : terminalLaw (S := SartTask.State) (I := Tap).
Proof.
  apply (terminalLaw_of_closureLaw SartTask.payload).
  - apply sart_closureLaw.
  - intros s en. unfold SartTask.payload. apply envelope_trials.
  - intros s en. unfold SartTask.payload. apply envelope_no_interruptions.
Qed.

Lemma flanker_terminalLaw :
  terminalLaw (S := FlankerTask.State) (I := FlankerInput).
Proof.
  apply (terminalLaw_of_closureLaw FlankerTask.payload).
  - apply flanker_closureLaw.
  - intros s en. unfold FlankerTask.payload. apply envelope_trials.
  - intros s en. unfold FlankerTask.payload. apply envelope_no_interruptions.
Qed.

Lemma digitSymbol_terminalLaw :
  terminalLaw (S := DigitSymbolTask.State) (I := DigitSymbolInput).
Proof.
  apply (terminalLaw_of_closureLaw DigitSymbolTask.payload).
  - apply digitSymbol_closureLaw.
  - intros s en. unfold DigitSymbolTask.payload. apply envelope_trials.
  - intros s en. unfold DigitSymbolTask.payload. apply envelope_no_interruptions.
Qed.

(** C1, as stated, fails on the abort path: the [offline] event stops the
    example vigilance run, which holds one trial record, and no call of
    [TaskCore.submit] is made. *)
Lemma abort_makes_no_submission :
  ~ submitsOnTerminal (exampleEnv 9000) Offline pvtExample.
Proof.
  intros Hclaim.
  destruct Hclaim as (payload & Hcalls & _); [reflexivity|reflexivity|].
  vm_compute in Hcalls. discriminate Hcalls.
Qed.

(** C1, amended: for each of the four runners a stopped runner stays
    stopped and submits nothing more; a turn that stops a runner either is
    an abort event (pagehide, beforeunload, offline) and submits nothing,
    or ran [endTask] and adds exactly one call of [TaskCore.submit] whose
    payload holds all trial records, the interruption log being merged
    only into the request body. *)
Theorem runners_submit_on_completion_only :
  terminalLaw (S := PvtTask.State) (I := Tap)
  /\ terminalLaw (S := SartTask.State) (I := Tap)
  /\ terminalLaw (S := FlankerTask.State) (I := FlankerInput)
  /\ terminalLaw (S := DigitSymbolTask.State) (I := DigitSymbolInput).
Proof.
  split; [apply pvt_terminalLaw|].
  split; [apply sart_terminalLaw|].
  split; [apply flanker_terminalLaw|apply digitSymbol_terminalLaw].
Qed.

Lemma runners_submit_on_completion_only_witness :
  stopped (fst pvtExample) = false
  /\ stopped (fst (step (exampleEnv 60000) (Timeout 2%nat) pvtExample)) = true
  /\ ((abortReason (I := Tap) (Timeout 2%nat) <> None
       /\ Core.submitCalls (core (snd (step (exampleEnv 60000) (Timeout 2%nat) pvtExample)))
          = Core.submitCalls (core (snd pvtExample)))
      \/ (abortReason (I := Tap) (Timeout 2%nat) = None
          /\ exists payload,
               Core.submitCalls
                 (core (snd (step (exampleEnv 60000) (Timeout 2%nat) pvtExample)))
                 = Core.submitCalls (core (snd pvtExample)) ++ [payload]
               /\ payload !! "trials"
                  = Some (Core.VTrials
                            (recorded (fst (step (exampleEnv 60000) (Timeout 2%nat)
                                              pvtExample))))
               /\ payload !! "interruptions" = None
               /\ forall c, Core.body c payload !! "interruptions"
                            = Some (Core.VLog (Core.interruptions c)))).
Proof.
  split; [reflexivity|]. split; [reflexivity|].
  apply (proj2 (proj1 runners_submit_on_completion_only
                  (exampleEnv 60000) (Timeout 2%nat) pvtExample));
    reflexivity.
Defined.

(** ** TaskCore.now and pauses *)

Lemma submit_initPerfTime payload c :
  Core.initPerfTime (snd (Core.submit payload c)) = Core.initPerfTime c.
Proof.
  unfold Core.submit. destruct (Core.firstMissing _ _); [reflexivity|].
  destruct (negb (Core.onLine _)); reflexivity.
Qed.

Lemma now_of_initPerfTime c c' t :
  Core.initPerfTime c' = Core.initPerfTime c -> Core.now c' t = Core.now c t.
Proof. intros Heq. unfold Core.now. rewrite Heq. reflexivity. Qed.

Lemma nowIgnoresEvents_intro {S I : Type} `{TaskObject S I} :
  (forall (o : Entry I) e (s : S) b,
      Core.initPerfTime (core (snd (enter o e (s, b)))) = Core.initPerfTime (core b)) ->
  nowIgnoresEvents (S := S) (I := I).
Proof.
  intros Henter tr. induction tr as [|[e ev] tr IH]; intros p t; simpl.
  - reflexivity.
  - rewrite IH. apply now_of_initPerfTime.
    destruct (step_enters e ev p) as (o & b' & -> & Hsame & _).
    rewrite Henter. apply Hsame.
Qed.

Lemma closureLaw_initPerfTime {S I : Type} `{TaskObject S I} `{Observed S}
    (payloadOf : S -> string -> gmap string Core.Value) :
  closureLaw payloadOf ->
  forall (o : Entry I) e (s : S) b,
    Core.initPerfTime (core (snd (enter o e (s, b)))) = Core.initPerfTime (core b).
Proof.
  intros Hlaw o e s b. destruct (Hlaw o e s b) as [Hstopped Hrunning].
  destruct (stopped s) eqn:Hs.
  - destruct (Hstopped eq_refl) as [_ ->]. reflexivity.
  - destruct (Hrunning eq_refl) as [[-> _]|(_ & _ & ->)]; reflexivity.
Qed.

Lemma mood_enter_initPerfTime (o : Entry MoodInput) e (s : MoodTask.State) b :
  Core.initPerfTime (core (snd (enter o e (s, b)))) = Core.initPerfTime (core b).
Proof.
  destruct o as [| | |r|cb|i]; try reflexivity.
  destruct i as [k v|d]; simpl; [reflexivity|].
  unfold MoodTask.clickSubmit.
  destruct (MoodTask.submitDisabled s); [reflexivity|].
  match goal with
  | |- context [Core.submit ?pl ?c] =>
      pose proof (submit_initPerfTime pl c) as Hs;
      destruct (Core.submit pl c) as [[msg|] c']
  end; exact Hs.
Qed.

(** C3, as stated, fails: the example vigilance run is paused at 8000 ms
    for 3000 ms; at 12000 ms [TaskCore.now] still returns 12000. *)
Lemma now_counts_the_pause :
  ~ nowExcludesPause pvtExample "2026-01-05T10:00:08.000Z" 8000 3000 12000.
Proof. unfold nowExcludesPause. vm_compute. discriminate. Qed.

(** C3, amended: [TaskCore.now] is the clock reading minus the reading
    taken by [TaskCore.init]; no event of any of the five tasks changes
    that origin, so the time spent paused is part of every later value. *)
Theorem now_is_elapsed_since_init :
  (forall c t t0, Core.initPerfTime c = Some t0 -> Core.now c t = (t - t0)%Q)
  /\ nowIgnoresEvents (S := PvtTask.State) (I := Tap)
  /\ nowIgnoresEvents (S := SartTask.State) (I := Tap)
  /\ nowIgnoresEvents (S := FlankerTask.State) (I := FlankerInput)
  /\ nowIgnoresEvents (S := DigitSymbolTask.State) (I := DigitSymbolInput)
  /\ nowIgnoresEvents (S := MoodTask.State) (I := MoodInput).
Proof.
  split; [intros c t t0 Hinit; unfold Core.now; rewrite Hinit; reflexivity|].
  split; [apply nowIgnoresEvents_intro,
            (closureLaw_initPerfTime PvtTask.payload), pvt_closureLaw|].
  split; [apply nowIgnoresEvents_intro,
            (closureLaw_initPerfTime SartTask.payload), sart_closureLaw|].
  split; [apply nowIgnoresEvents_intro,
            (closureLaw_initPerfTime FlankerTask.payload), flanker_closureLaw|].
  split; [apply nowIgnoresEvents_intro,
            (closureLaw_initPerfTime DigitSymbolTask.payload), digitSymbol_closureLaw|].
  apply nowIgnoresEvents_intro, mood_enter_initPerfTime.
Qed.

Lemma now_is_elapsed_since_init_witness :
  Core.initPerfTime (core (snd pvtExample)) = Some 0%Q
  /\ Core.now (core (snd pvtExample)) 12000 = (12000 - 0)%Q.
Proof.
  split; [reflexivity|].
  apply (proj1 now_is_elapsed_since_init (core (snd pvtExample)) 12000%Q 0%Q).
  reflexivity.
Defined.

(** ** pause and the task-end timer *)

(** C4 at the failing input: after [pause()] the task-end timer of the
    example vigilance and conflict runs is still pending; when it fires
    during the pause, [endTask] runs and calls [TaskCore.submit] while the
    runner is paused. *)
Theorem task_end_timer_fires_while_paused :
  let hidden := step (exampleEnv 8000) VisibilityHidden pvtExample in
  let ended := step (exampleEnv 60000) (Timeout 2%nat) hidden in
  let hiddenF := step (exampleEnv 8000) VisibilityHidden flankerExample in
  let endedF := step (exampleEnv 75000) (Timeout 2%nat) hiddenF in
  (paused (fst hidden) = true
   /\ Timers.pending (timers (snd hidden)) (PvtTask.taskEndTimer (fst hidden)) = true
   /\ Timers.pending (timers (snd hidden)) (PvtTask.isiTimer (fst hidden)) = false
   /\ paused (fst ended) = true
   /\ stopped (fst ended) = true
   /\ length (Core.submitCalls (core (snd ended))) = 1%nat)
  /\ (paused (fst hiddenF) = true
      /\ Timers.pending (timers (snd hiddenF))
           (FlankerTask.taskEndTimer (fst hiddenF)) = true
      /\ Timers.pending (timers (snd hiddenF))
           (FlankerTask.trialTimer (fst hiddenF)) = false
      /\ paused (fst endedF) = true
      /\ stopped (fst endedF) = true
      /\ length (Core.submitCalls (core (snd endedF))) = 1%nat).
Proof. vm_compute. repeat split. Qed.

(** ** Determinism of the generator closures *)

Lemma after_S k h : Rng.after (S k) h = Rng.bump (Rng.after k h).
Proof. reflexivity. Qed.

Lemma after_bump k h : Rng.after k (Rng.bump h) = Rng.bump (Rng.after k h).
Proof. induction k as [|k IH]; simpl; [reflexivity|rewrite IH; reflexivity]. Qed.

Lemma outputs_snoc n h :
  Rng.outputs (S n) h
  = Rng.outputs n h ++ [Rng.output (Rng.bump (Rng.after n h))].
Proof.
  revert h. induction n as [|n IH]; intros h.
  - reflexivity.
  - change (Rng.outputs (S (S n)) h)
      with (Rng.output (Rng.bump h) :: Rng.outputs (S n) (Rng.bump h)).
    rewrite IH, after_bump. reflexivity.
Qed.

Lemma outputs_length n h : length (Rng.outputs n h) = n.
Proof. revert h. induction n as [|n IH]; intros h; simpl; [|rewrite IH]; reflexivity. Qed.

Lemma outputs_lookup n h k a :
  Rng.outputs n h !! k = Some a -> a = Rng.nthOutput h k.
Proof.
  revert h k. induction n as [|n IH]; intros h k; simpl.
  - discriminate.
  - destruct k as [|k]; simpl.
    + intros [= <-]. unfold Rng.nthOutput. cbn [Rng.after]. reflexivity.
    + intros Hk. rewrite (IH _ _ Hk). unfold Rng.nthOutput.
      rewrite (after_bump (S k) h). cbn [Rng.after]. reflexivity.
Qed.

Lemma returned_app i l1 l2 :
  Closures.returned i (l1 ++ l2) = Closures.returned i l1 ++ Closures.returned i l2.
Proof. unfold Closures.returned. apply omap_app. Qed.

Lemma run_snoc ops op :
  Closures.run (ops ++ [op]) = Closures.exec (Closures.run ops) op.
Proof. unfold Closures.run. rewrite fold_left_app. reflexivity. Qed.

Lemma makes_snoc ops op :
  Closures.makes (ops ++ [op]) = Closures.makes ops ++ Closures.makes [op].
Proof. unfold Closures.makes. apply omap_app. Qed.

(** After any program, the cell of closure [i] and the values it returned
    are those of [n] calls on the state that its seed and task determine. *)
Lemma run_invariant ops :
  length (fst (Closures.run ops)) = length (Closures.makes ops)
  /\ (forall i, (length (Closures.makes ops) <= i)%nat ->
                Closures.returned i (snd (Closures.run ops)) = [])
  /\ (forall i t seed,
         Closures.makes ops !! i = Some (t, seed) ->
         exists n : nat,
           fst (Closures.run ops) !! i = Some (Rng.after n (Rng.taskRng t seed))
           /\ Closures.returned i (snd (Closures.run ops))
              = Rng.outputs n (Rng.taskRng t seed)).
Proof.
  induction ops as [|op ops IH] using rev_ind.
  - simpl. split; [reflexivity|]. split; [reflexivity|]. intros i t seed Hi.
    discriminate Hi.
  - destruct IH as (Hlen & Hfresh & Hcells).
    rewrite run_snoc, makes_snoc.
    destruct (Closures.run ops) as [heap log]. simpl in Hlen, Hfresh, Hcells.
    destruct op as [t0 seed0|j]; simpl.
    + rewrite !length_app. simpl. split; [lia|]. split.
      * intros i Hi. apply Hfresh. lia.
      * intros i t seed Hi.
        destruct (decide (i < length (Closures.makes ops))%nat) as [Hlt|Hge].
        -- rewrite lookup_app_l in Hi by exact Hlt.
           destruct (Hcells i t seed Hi) as (n & Hcell & Hret).
           exists n. rewrite lookup_app_l by lia. split; assumption.
        -- rewrite lookup_app_r in Hi by lia.
           destruct (i - length (Closures.makes ops))%nat as [|m] eqn:Hm;
             [|discriminate Hi].
           simpl in Hi. injection Hi as <- <-.
           exists 0%nat. rewrite lookup_app_r by lia.
           replace (i - length heap)%nat with 0%nat by lia. simpl.
           split; [reflexivity|]. apply Hfresh. lia.
    + rewrite app_nil_r.
      destruct (heap !! j) as [h|] eqn:Hj; simpl.
      * assert (Hjlt : (j < length heap)%nat) by (eapply lookup_lt_Some; exact Hj).
        rewrite length_insert. split; [exact Hlen|]. split.
        -- intros i Hi. rewrite returned_app, Hfresh by exact Hi.
           unfold Closures.returned. simpl.
           destruct (decide (j = i)); [lia|reflexivity].
        -- intros i t seed Hi.
           destruct (Hcells i t seed Hi) as (n & Hcell & Hret).
           rewrite returned_app, Hret.
           destruct (decide (j = i)) as [->|Hne].
           ++ exists (S n). rewrite list_lookup_insert_eq by exact Hjlt.
              rewrite Hcell in Hj. injection Hj as <-.
              split.
              ** reflexivity.
              ** rewrite outputs_snoc. unfold Closures.returned. simpl.
                 destruct (decide (i = i)); [reflexivity|congruence].
           ++ exists n. rewrite list_lookup_insert_ne by exact Hne.
              split; [exact Hcell|].
              unfold Closures.returned. simpl.
              destruct (decide (j = i)); [congruence|]. apply app_nil_r.
      * split; [exact Hlen|]. split; [exact Hfresh|exact Hcells].
Qed.

(** C8: in any two programs, two closures that the same task built from
    the same seed return the same value at their [k]-th call, whatever
    else was allocated or called in between. *)
Theorem generator_is_deterministic ops1 ops2 i1 i2 t seed k a b :
  Closures.makes ops1 !! i1 = Some (t, seed) ->
  Closures.makes ops2 !! i2 = Some (t, seed) ->
  Closures.returned i1 (snd (Closures.run ops1)) !! k = Some a ->
  Closures.returned i2 (snd (Closures.run ops2)) !! k = Some b ->
  a = b /\ a = Rng.nthOutput (Rng.taskRng t seed) k.
Proof.
  intros H1 H2 Ha Hb.
  destruct (run_invariant ops1) as (_ & _ & Hc1).
  destruct (run_invariant ops2) as (_ & _ & Hc2).
  destruct (Hc1 i1 t seed H1) as (n1 & _ & Hr1).
  destruct (Hc2 i2 t seed H2) as (n2 & _ & Hr2).
  rewrite Hr1 in Ha. rewrite Hr2 in Hb.
  apply outputs_lookup in Ha. apply outputs_lookup in Hb.
  split; congruence.
Qed.

(** ** Arithmetic of the 32-bit coercions *)

Lemma cong_intro a b z : a = b + JS.two32 * z -> JS.toUint32 a = JS.toUint32 b.
Proof.
  intros ->. unfold JS.toUint32. rewrite Z.mul_comm. apply Z_mod_plus_full.
Qed.

Lemma toInt32_wrap x : exists z, JS.toInt32 x = x + JS.two32 * z.
Proof.
  unfold JS.toInt32, JS.toUint32, JS.two32, JS.two31.
  pose proof (Z.div_mod x 4294967296 ltac:(lia)) as Hx.
  destruct (2147483648 <=? x mod 4294967296).
  - exists (- (x / 4294967296) - 1). lia.
  - exists (- (x / 4294967296)). lia.
Qed.

Lemma toInt32_of_toUint32 x y :
  JS.toUint32 x = JS.toUint32 y -> JS.toInt32 x = JS.toInt32 y.
Proof. intros Heq. unfold JS.toInt32. rewrite Heq. reflexivity. Qed.

Lemma toUint32_toInt32 x : JS.toUint32 (JS.toInt32 x) = JS.toUint32 x.
Proof. destruct (toInt32_wrap x) as [z ->]. apply (cong_intro _ _ z). reflexivity. Qed.

Lemma toInt32_idem x : JS.toInt32 (JS.toInt32 x) = JS.toInt32 x.
Proof. apply toInt32_of_toUint32, toUint32_toInt32. Qed.

Lemma bitor_zero x : JS.bitor x 0 = JS.toInt32 x.
Proof. unfold JS.bitor. change (JS.toInt32 0) with 0. apply Z.lor_0_r. Qed.

Lemma imul_wrap a b : exists z, JS.imul a b = a * b + JS.two32 * z.
Proof.
  unfold JS.imul.
  destruct (toInt32_wrap (JS.toInt32 a * JS.toInt32 b)) as [z ->].
  destruct (toInt32_wrap a) as [za ->]. destruct (toInt32_wrap b) as [zb ->].
  exists (z + a * zb + za * b + JS.two32 * za * zb). ring.
Qed.

(** The value of a generator call depends on [h] modulo 2^32 only. *)
Lemma output_congr h h' :
  JS.toUint32 h = JS.toUint32 h' -> Rng.output h = Rng.output h'.
Proof.
  intros Heq. unfold Rng.output, JS.bitxor, JS.bitor, JS.ushr.
  rewrite (toInt32_of_toUint32 h h' Heq), Heq. reflexivity.
Qed.

(** ** The hash as a polynomial modulo 2^32 *)

Lemma hashStep_wrap h c : exists z, Rng.hashStep h c = 31 * h + c + JS.two32 * z.
Proof.
  unfold Rng.hashStep. rewrite bitor_zero.
  destruct (toInt32_wrap (JS.imul 31 h + c)) as [z ->].
  destruct (imul_wrap 31 h) as [z' ->].
  exists (z + z'). ring.
Qed.

Lemma poly_shift s h z : exists z', poly (h + JS.two32 * z) s = poly h s + JS.two32 * z'.
Proof.
  revert h z. induction s as [|c s IH]; intros h z.
  - exists z. reflexivity.
  - change (poly (h + JS.two32 * z) (c :: s))
      with (poly (31 * (h + JS.two32 * z) + c) s).
    change (poly h (c :: s)) with (poly (31 * h + c) s).
    destruct (IH (31 * h + c) (31 * z)) as [z' Hz'].
    exists z'. rewrite <- Hz'. f_equal. ring.
Qed.

Lemma hashFrom_wrap s h : exists z, Rng.hashFrom h s = poly h s + JS.two32 * z.
Proof.
  revert h. induction s as [|c s IH]; intros h.
  - exists 0. simpl. ring.
  - change (Rng.hashFrom h (c :: s)) with (Rng.hashFrom (Rng.hashStep h c) s).
    change (poly h (c :: s)) with (poly (31 * h + c) s).
    destruct (IH (Rng.hashStep h c)) as [z ->].
    destruct (hashStep_wrap h c) as [z0 ->].
    destruct (poly_shift s (31 * h + c) z0) as [z1 ->].
    exists (z1 + z). ring.
Qed.

Lemma poly_linear s h : poly h s = h * 31 ^ Z.of_nat (length s) + poly 0 s.
Proof.
  revert h. induction s as [|c s IH]; intros h.
  - change (h = h * 1 + 0). lia.
  - change (poly h (c :: s)) with (poly (31 * h + c) s).
    change (poly 0 (c :: s)) with (poly (31 * 0 + c) s).
    rewrite (IH (31 * h + c)), (IH (31 * 0 + c)).
    change (length (c :: s)) with (S (length s)).
    rewrite Nat2Z.inj_succ, Z.pow_succ_r by lia. ring.
Qed.

(** The start state of the generator of task [t] is, modulo 2^32, a linear
    function of the hash of the session seed. *)
Lemma taskRng_wrap t seed :
  exists z,
    Rng.taskRng t seed
    = (Rng.hash seed * 31 ^ Z.of_nat (length (JS.units (Rng.salt t)))
       + poly 0 (JS.units (Rng.salt t))) * Rng.mixMul t
      + Rng.mixAdd t + JS.two32 * z.
Proof.
  unfold Rng.taskRng, Rng.makeRng. rewrite bitor_zero.
  destruct (toInt32_wrap
              (JS.imul (Rng.hash (seed ++ JS.units (Rng.salt t))) (Rng.mixMul t)
               + Rng.mixAdd t)) as [z1 ->].
  destruct (imul_wrap (Rng.hash (seed ++ JS.units (Rng.salt t))) (Rng.mixMul t))
    as [z2 ->].
  assert (Hh : exists z, Rng.hash (seed ++ JS.units (Rng.salt t))
                         = poly (Rng.hash seed) (JS.units (Rng.salt t)) + JS.two32 * z).
  { unfold Rng.hash at 1. unfold Rng.hashFrom. rewrite fold_left_app.
    apply (hashFrom_wrap (JS.units (Rng.salt t)) (Rng.hash seed)). }
  destruct Hh as [z3 ->]. rewrite poly_linear.
  exists (z1 + z2 + z3 * Rng.mixMul t). ring.
Qed.

Lemma taskRng_canonical t seed : JS.toInt32 (Rng.taskRng t seed) = Rng.taskRng t seed.
Proof.
  unfold Rng.taskRng, Rng.makeRng. rewrite bitor_zero. apply toInt32_idem.
Qed.

(** ** Start states of the task generators *)

(** The four pairs of tasks whose start states differ for every seed. *)
Lemma taskRng_never_equal t1 t2 seed :
  t1 <> t2 -> mayCoincide t1 t2 = false ->
  Rng.taskRng t1 seed <> Rng.taskRng t2 seed.
Proof.
  intros Hne Hpair Heq.
  destruct (taskRng_wrap t1 seed) as [z1 H1].
  destruct (taskRng_wrap t2 seed) as [z2 H2].
  rewrite Heq in H1. rewrite H1 in H2. clear H1 Heq.
  generalize dependent (Rng.hash seed). intros x H2.
  destruct t1, t2; try discriminate Hpair; try congruence;
    cbn [Rng.salt Rng.mixMul Rng.mixAdd] in H2; unfold JS.two32 in H2;
    repeat match type of H2 with
           | context [31 ^ Z.of_nat ?e] =>
               let v := eval vm_compute in (31 ^ Z.of_nat e) in
               change (31 ^ Z.of_nat e) with v in H2
           | context [poly 0 ?e] =>
               let v := eval vm_compute in (poly 0 e) in
               change (poly 0 e) with v in H2
           end;
    lia.
Qed.

(** C9: the mixing line of [makeRng] is there to give the tasks different
    sequences from one session seed, and [init] salts the seed with the
    task's name; yet with the seed "0038f17e2a" the generators of pvt.js and
    sart.js start in the same state, 1242017867, and return the same value
    at every call, and so do the generators of flanker.js and
    digit_symbol.js with the seed "00b07b1771", from state -546575822. *)
Theorem task_generators_share_streams :
  (Rng.taskRng Rng.Pvt (JS.units "0038f17e2a") = 1242017867
   /\ Rng.taskRng Rng.Sart (JS.units "0038f17e2a") = 1242017867
   /\ ~ independent (JS.units "0038f17e2a") Rng.Pvt Rng.Sart
   /\ forall n, Rng.outputs n (Rng.taskRng Rng.Pvt (JS.units "0038f17e2a"))
                = Rng.outputs n (Rng.taskRng Rng.Sart (JS.units "0038f17e2a")))
  /\ (Rng.taskRng Rng.Flanker (JS.units "00b07b1771") = -546575822
      /\ Rng.taskRng Rng.DigitSymbol (JS.units "00b07b1771") = -546575822
      /\ ~ independent (JS.units "00b07b1771") Rng.Flanker Rng.DigitSymbol
      /\ forall n, Rng.outputs n (Rng.taskRng Rng.Flanker (JS.units "00b07b1771"))
                   = Rng.outputs n (Rng.taskRng Rng.DigitSymbol (JS.units "00b07b1771"))).
Proof.
  assert (Hps : Rng.taskRng Rng.Pvt (JS.units "0038f17e2a") = 1242017867)
    by (vm_compute; reflexivity).
  assert (Hsp : Rng.taskRng Rng.Sart (JS.units "0038f17e2a") = 1242017867)
    by (vm_compute; reflexivity).
  assert (Hfd : Rng.taskRng Rng.Flanker (JS.units "00b07b1771") = -546575822)
    by (vm_compute; reflexivity).
  assert (Hdf : Rng.taskRng Rng.DigitSymbol (JS.units "00b07b1771") = -546575822)
    by (vm_compute; reflexivity).
  split.
  - split; [exact Hps|]. split; [exact Hsp|]. split.
    + intros Hind. apply Hind. intros k. rewrite Hps, Hsp. reflexivity.
    + intros n. rewrite Hps, Hsp. reflexivity.
  - split; [exact Hfd|]. split; [exact Hdf|]. split.
    + intros Hind. apply Hind. intros k. rewrite Hfd, Hdf. reflexivity.
    + intros n. rewrite Hfd, Hdf. reflexivity.
Qed.

(** ** The theorems above at concrete pages *)

Lemma task_submissions_rejected_missing_session_id_witness :
  Submission (snd pvtExample)
    (snd (PvtTask.endTask (exampleEnv 60000) (fst pvtExample, snd pvtExample)))
  /\ Core.fetches
       (core (snd (PvtTask.endTask (exampleEnv 60000)
                     (fst pvtExample, snd pvtExample))))
     = Core.fetches (core (snd pvtExample)).
Proof.
  assert (Hsub : Submission (snd pvtExample)
                   (snd (PvtTask.endTask (exampleEnv 60000)
                           (fst pvtExample, snd pvtExample))))
    by (apply SubmitPvt; reflexivity).
  split; [exact Hsub|].
  exact (proj1 (task_submissions_rejected_missing_session_id _ _ Hsub)).
Defined.

Lemma offline_rejects_submit_and_aborts_task_witness :
  Core.onLine (core (snd (step (exampleEnv 9000) Offline pvtExample))) = false
  /\ (exists msg,
        fst (Core.submit completePayload
               (core (snd (step (exampleEnv 9000) Offline pvtExample))))
        = Core.Rejected msg)
  /\ Core.fetches
       (snd (Core.submit completePayload
               (core (snd (step (exampleEnv 9000) Offline pvtExample)))))
     = Core.fetches (core (snd (step (exampleEnv 9000) Offline pvtExample))).
Proof.
  split; [reflexivity|].
  apply (proj1 offline_rejects_submit_and_aborts_task completePayload
           (core (snd (step (exampleEnv 9000) Offline pvtExample)))).
  reflexivity.
Defined.

Lemma pvt_fast_response_is_anticipation_witness :
  PvtTask.stimulusStartMs (fst pvtVisible) = Some (inject_Z 7559 - 0)%Q
  /\ JS.round (Core.now (core (snd pvtVisible)) (perfNow (exampleEnv 7600))
               - (inject_Z 7559 - 0)) < 100
  /\ exists tr,
       PvtTask.trials
         (fst (PvtTask.recordResponse true (exampleEnv 7600)
                 (fst pvtVisible, snd pvtVisible)))
         = PvtTask.trials (fst pvtVisible) ++ [tr]
       /\ PvtTrial.is_anticipation tr = true
       /\ validReactionTime tr = false.
Proof.
  split; [reflexivity|]. split; [vm_compute; reflexivity|].
  apply (pvt_fast_response_is_anticipation true (exampleEnv 7600)
           (fst pvtVisible) (snd pvtVisible) (inject_Z 7559 - 0)%Q).
  - reflexivity.
  - vm_compute. reflexivity.
Defined.

Lemma pvt_response_300ms_witness :
  PvtTask.stimulusStartMs (fst pvtOnset1200) = Some (inject_Z 1200 - 0)%Q
  /\ exists tr,
       PvtTask.trials
         (fst (PvtTask.recordResponse true (exampleEnv 1500)
                 (fst pvtOnset1200, snd pvtOnset1200)))
         = PvtTask.trials (fst pvtOnset1200) ++ [tr]
       /\ PvtTrial.rt_ms tr = Some 300
       /\ PvtTrial.is_lapse tr = false
       /\ PvtTrial.is_anticipation tr = false
       /\ PvtTrial.responded tr = true
       /\ (300 <= PvtTask.LAPSE_THRESHOLD /\ PvtTask.ANTICIPATION_THRESHOLD <= 300).
Proof.
  split; [reflexivity|].
  apply (pvt_response_300ms (exampleEnv 1500) (fst pvtOnset1200) (snd pvtOnset1200)
           (inject_Z 1200 - 0)%Q).
  - reflexivity.
  - vm_compute. reflexivity.
  - vm_compute. reflexivity.
Defined.

Lemma generator_is_deterministic_witness :
  Closures.makes programA !! 0%nat = Some (Rng.Pvt, JS.units "abc123")
  /\ Closures.makes programB !! 1%nat = Some (Rng.Pvt, JS.units "abc123")
  /\ Closures.returned 0 (snd (Closures.run programA)) !! 1%nat = Some 502317468
  /\ Closures.returned 1 (snd (Closures.run programB)) !! 1%nat = Some 502317468
  /\ 502317468 = Rng.nthOutput (Rng.taskRng Rng.Pvt (JS.units "abc123")) 1.
Proof.
  split; [reflexivity|]. split; [reflexivity|].
  split; [vm_compute; reflexivity|]. split; [vm_compute; reflexivity|].
  apply (generator_is_deterministic programA programB 0 1 Rng.Pvt
           (JS.units "abc123") 1 502317468 502317468).
  - reflexivity.
  - reflexivity.
  - vm_compute. reflexivity.
  - vm_compute. reflexivity.
Defined.


(** * Further properties of the code *)

(** ** The generator: range, counter, hash *)

Lemma output_range h : 0 <= Rng.output h < 4294967296.
Proof.
  unfold Rng.output, JS.ushr. rewrite Z.shiftr_0_r.
  apply Z.mod_pos_bound. reflexivity.
Qed.

Lemma toUnit_range u : 0 <= u < 4294967296 -> (0 <= Rng.toUnit u < 1)%Q.
Proof.
  intros Hu. unfold Rng.toUnit, Qle, Qlt. simpl. lia.
Qed.

(** X1: every call of a generator closure returns a number in [0, 1),
    whatever the captured state. *)
Theorem rng_draw_in_unit_interval h : (0 <= fst (Rng.draw h) < 1)%Q.
Proof. unfold Rng.draw. simpl. apply toUnit_range, output_range. Qed.

(** X2: the delay that [randomISI] draws lies in [ISI_MIN, ISI_MAX),
    that is from 2000 ms up to, not including, 10000 ms. *)
Theorem pvt_randomISI_in_range s :
  (inject_Z PvtTask.ISI_MIN <= fst (PvtTask.randomISI s) < inject_Z PvtTask.ISI_MAX)%Q.
Proof.
  unfold PvtTask.randomISI.
  pose proof (rng_draw_in_unit_interval (PvtTask.rng s)) as Hu.
  destruct (Rng.draw (PvtTask.rng s)) as [u h]. simpl in *.
  change (inject_Z PvtTask.ISI_MIN) with (2000 # 1)%Q.
  change (inject_Z PvtTask.ISI_MAX) with (10000 # 1)%Q.
  change (inject_Z (PvtTask.ISI_MAX - PvtTask.ISI_MIN)) with (8000 # 1)%Q.
  lra.
Qed.

Lemma toDouble_exact x :
  -9007199254740992 < x < 9007199254740992 -> JS.toDouble x = x.
Proof.
  intros Hx. unfold JS.toDouble.
  destruct (Z.ltb_spec (Z.abs x) 9007199254740992); [reflexivity|lia].
Qed.

(** From 2^53 on a double is a multiple of two. *)
Lemma toDouble_even x :
  9007199254740992 <= Z.abs x -> Z.even (JS.toDouble x) = true.
Proof.
  intros Hx. unfold JS.toDouble.
  destruct (Z.ltb_spec (Z.abs x) 9007199254740992) as [Hlt|_]; [lia|].
  assert (Hlog : 53 <= Z.log2 (Z.abs x)).
  { change 53 with (Z.log2 9007199254740992). apply Z.log2_le_mono, Hx. }
  replace (Z.log2 (Z.abs x) - 52) with (Z.succ (Z.log2 (Z.abs x) - 53)) by lia.
  rewrite Z.pow_succ_r by lia.
  rewrite !Z.even_mul. change (Z.even 2) with true. simpl.
  rewrite !orb_true_r. reflexivity.
Qed.

(** Below 2^53 the captured counter is the exact sum. *)
Lemma after_exact k h :
  -9007199254740992 < h ->
  h + Z.of_nat k * 1831565813 < 9007199254740992 ->
  Rng.after k h = h + Z.of_nat k * 1831565813.
Proof.
  intros Hlo. induction k as [|k IH]; intros Hhi.
  - simpl. lia.
  - cbn [Rng.after]. rewrite IH by lia. unfold Rng.bump.
    rewrite toDouble_exact by lia. lia.
Qed.

(** X3: the captured counter is a double that the code never wraps.  From
    a 32-bit start state the first 4917757 calls add exactly: the [k]-th
    value is the output of [h + (k + 1) * 0x6d2b79f5], of which only the
    residue modulo 2^32 matters.  From 2^53 on the sum is rounded to an even
    number, so the low bit that a 32-bit counter would flip at every call is
    lost: with the seed "abc123" the generator of pvt.js returns 721003205
    at call 4917758 (counting from 0), where the exact sum would give
    2803970291. *)
Theorem rng_counter_exact_below_2_53 :
  (forall h (k : nat),
     -2147483648 <= h < 2147483648 ->
     Z.of_nat k < 4917757 ->
     Rng.after (S k) h = h + (Z.of_nat k + 1) * 1831565813
     /\ Rng.nthOutput h k
        = Rng.output (JS.toInt32 (h + (Z.of_nat k + 1) * 1831565813)))
  /\ (forall h, 9007199254740992 <= h -> Z.even (Rng.bump h) = true)
  /\ Rng.nthOutput (Rng.taskRng Rng.Pvt (JS.units "abc123")) (Z.to_nat 4917758)
     = 721003205
  /\ Rng.output (Rng.taskRng Rng.Pvt (JS.units "abc123") + 4917759 * 1831565813)
     = 2803970291.
Proof.
  split.
  { intros h k Hh Hk.
    assert (Hafter : Rng.after (S k) h = h + (Z.of_nat k + 1) * 1831565813).
    { rewrite after_exact by lia. lia. }
    split; [exact Hafter|].
    unfold Rng.nthOutput. rewrite Hafter.
    apply output_congr. symmetry. apply toUint32_toInt32. }
  split.
  { intros h Hh. unfold Rng.bump. apply toDouble_even. lia. }
  assert (Hstart : Rng.taskRng Rng.Pvt (JS.units "abc123") = 2046072402)
    by (vm_compute; reflexivity).
  rewrite Hstart. split; [|vm_compute; reflexivity].
  unfold Rng.nthOutput.
  replace (Z.to_nat 4917758) with (S (Z.to_nat 4917757)) by lia.
  rewrite !after_S.
  rewrite after_exact by (rewrite ?Z2Nat.id; lia).
  rewrite Z2Nat.id by lia. vm_compute. reflexivity.
Qed.

Lemma toInt32_range x : -2147483648 <= JS.toInt32 x < 2147483648.
Proof.
  unfold JS.toInt32, JS.toUint32, JS.two32, JS.two31.
  pose proof (Z.mod_pos_bound x 4294967296 ltac:(lia)) as Hb.
  destruct (Z.leb_spec 2147483648 (x mod 4294967296)); lia.
Qed.

(** X4: the seed hash is the polynomial hash with base 31 of the code
    units, reduced to a signed 32-bit integer; hashing a concatenation
    continues the hash of the first part, and the start state of every
    task generator is a signed 32-bit integer too. *)
Theorem seed_hash_is_polynomial s1 s2 t :
  JS.toUint32 (Rng.hash s1) = (poly 0 s1) mod 4294967296
  /\ -2147483648 <= Rng.hash s1 < 2147483648
  /\ Rng.hash (s1 ++ s2) = Rng.hashFrom (Rng.hash s1) s2
  /\ -2147483648 <= Rng.taskRng t s1 < 2147483648.
Proof.
  split.
  { destruct (hashFrom_wrap s1 0) as [z Hz]. unfold Rng.hash. rewrite Hz.
    apply (cong_intro _ _ z). reflexivity. }
  split.
  { unfold Rng.hash, Rng.hashFrom.
    induction s1 as [|c s1 IH] using rev_ind; [simpl; lia|].
    rewrite fold_left_app. simpl. unfold Rng.hashStep.
    rewrite bitor_zero. apply toInt32_range. }
  split.
  { unfold Rng.hash, Rng.hashFrom. apply fold_left_app. }
  rewrite <- taskRng_canonical. apply toInt32_range.
Qed.

(** ** task_core.js: the accepted path of submit and the field check *)

Lemma firstMissing_none fields (payload : gmap string Core.Value) :
  Core.firstMissing fields payload = None
  <-> Forall (fun f => is_Some (payload !! f)) fields.
Proof.
  induction fields as [|f fields IH]; simpl.
  - split; [constructor|reflexivity].
  - destruct (payload !! f) as [v|] eqn:Hf.
    + rewrite IH. split.
      * intros Hall. constructor; [rewrite Hf; eauto|exact Hall].
      * intros Hall. inversion Hall; assumption.
    + split; [discriminate|]. intros Hall. inversion Hall as [|? ? [v Hv] ?].
      rewrite Hf in Hv. discriminate.
Qed.

Lemma firstMissing_some pre f post (payload : gmap string Core.Value) :
  Forall (fun g => is_Some (payload !! g)) pre ->
  payload !! f = None ->
  Core.firstMissing (pre ++ f :: post) payload = Some f.
Proof.
  intros Hpre Hf. induction Hpre as [|g pre [v Hg] Hpre IH]; simpl.
  - rewrite Hf. reflexivity.
  - rewrite Hg. exact IH.
Qed.

(** X5: [submit] names the first field of [REQUIRED], in the order of the
    list, that is not a key of the payload: when the fields before [f] are
    present and [f] is not, the call is rejected with "Missing required
    field: f" whether the browser is online or not, and issues no
    request. *)
Theorem submit_names_first_missing_field pre f post payload c :
  Core.REQUIRED = pre ++ f :: post ->
  Forall (fun g => is_Some (payload !! g)) pre ->
  payload !! f = None ->
  fst (Core.submit payload c) = Core.Rejected (String.append "Missing required field: " f)
  /\ Core.fetches (snd (Core.submit payload c)) = Core.fetches c.
Proof.
  intros Hreq Hpre Hf. unfold Core.submit.
  rewrite Hreq, (firstMissing_some pre f post payload Hpre Hf).
  split; reflexivity.
Qed.

(** X6: a payload with every required field, submitted online, is sent in
    one POST; the body carries the session id stored by [TaskCore.init]
    (replacing any [session_id] of the payload), the interruption log, and
    every other key of the payload unchanged. *)
Theorem submit_posts_merged_body payload c :
  Forall (fun f => is_Some (payload !! f)) Core.REQUIRED ->
  Core.onLine c = true ->
  fst (Core.submit payload c) = Core.Sent
  /\ Core.fetches (snd (Core.submit payload c))
     = Core.fetches c ++ [Core.SubmitPost (Core.csrfToken c) (Core.body c payload)]
  /\ Core.body c payload !! "session_id" = Some (Core.optStr (Core.sessionId c))
  /\ Core.body c payload !! "interruptions" = Some (Core.VLog (Core.interruptions c))
  /\ (forall k, k <> "session_id" -> k <> "interruptions" ->
                Core.body c payload !! k = payload !! k).
Proof.
  intros Hall Hon. apply firstMissing_none in Hall.
  unfold Core.submit. rewrite Hall. simpl. rewrite Hon. simpl.
  split; [reflexivity|]. split; [reflexivity|]. unfold Core.body.
  split; [rewrite lookup_insert_ne by done; apply lookup_insert_eq|].
  split; [apply lookup_insert_eq|].
  intros k Hk1 Hk2. rewrite !lookup_insert_ne by congruence. reflexivity.
Qed.

(** ** Whole runs: the interruption log, requests and submissions *)

Lemma invoke_log {S I : Type} `{TaskObject S I} c e (p : S * Browser) :
  exists (o : Entry I) b',
    invoke c e p = enter o e (fst p, b')
    /\ sameSession (core (snd p)) (core b')
    /\ Core.interruptions (core b') = Core.interruptions (core (snd p)).
Proof.
  destruct p as [s b]. unfold invoke.
  destruct (Core.activeTask (core b)).
  - destruct c as [| |r].
    + exists EnterPause. eexists. split; [reflexivity|]. repeat split.
    + exists EnterResume. eexists. split; [reflexivity|]. repeat split.
    + exists (EnterAbort r). eexists. split; [reflexivity|]. repeat split.
  - exists EnterNone, b. split; [reflexivity|]. repeat split.
Qed.

Lemma step_log {S I : Type} `{TaskObject S I} e (ev : Event I) (p : S * Browser) :
  exists (o : Entry I) b',
    step e ev p = enter o e (fst p, b')
    /\ sameSession (core (snd p)) (core b')
    /\ Core.interruptions (core b')
       = Core.interruptions (core (snd p)) ++ noted ev e.
Proof.
  destruct ev as [id|id|i| | | | | | ]; simpl.
  - destruct p as [s b]. unfold fireTimeout.
    destruct (Timers.timeouts (timers b) !! id) as [[cb d]|].
    + exists (EnterTimer cb). eexists. split; [reflexivity|].
      split; [apply sameSession_refl|]. simpl. rewrite app_nil_r. reflexivity.
    + exists EnterNone, b. split; [reflexivity|].
      split; [apply sameSession_refl|]. simpl. rewrite app_nil_r. reflexivity.
  - destruct p as [s b]. unfold fireFrame.
    destruct (Timers.frames (timers b) !! id) as [cb|].
    + exists (EnterTimer cb). eexists. split; [reflexivity|].
      split; [apply sameSession_refl|]. simpl. rewrite app_nil_r. reflexivity.
    + exists EnterNone, b. split; [reflexivity|].
      split; [apply sameSession_refl|]. simpl. rewrite app_nil_r. reflexivity.
  - exists (EnterInput i), (snd p). destruct p. split; [reflexivity|].
    split; [apply sameSession_refl|]. simpl. rewrite app_nil_r. reflexivity.
  - destruct (invoke_log Core.CallPause e (logged "visibility_hidden" e p))
      as (o & b' & Heq & Hs & Hl).
    exists o, b'. split; [exact Heq|]. split.
    + eapply sameSession_trans; [|exact Hs]. destruct p. repeat split.
    + rewrite Hl. destruct p. reflexivity.
  - destruct (invoke_log Core.CallResume e (logged "visibility_visible" e p))
      as (o & b' & Heq & Hs & Hl).
    exists o, b'. split; [exact Heq|]. split.
    + eapply sameSession_trans; [|exact Hs]. destruct p. repeat split.
    + rewrite Hl. destruct p. reflexivity.
  - destruct (invoke_log (Core.CallAbort "pagehide") e (logged "pagehide" e p))
      as (o & b' & Heq & Hs & Hl).
    exists o, b'. split; [exact Heq|]. split.
    + eapply sameSession_trans; [|exact Hs]. destruct p. repeat split.
    + rewrite Hl. destruct p. reflexivity.
  - destruct (invoke_log (Core.CallAbort "beforeunload") e (logged "beforeunload" e p))
      as (o & b' & Heq & Hs & Hl).
    exists o, b'. split; [exact Heq|]. split.
    + eapply sameSession_trans; [|exact Hs]. destruct p. repeat split.
    + rewrite Hl. destruct p. reflexivity.
  - destruct (invoke_log (Core.CallAbort "offline") e
                (logged "offline" e (setOnLine false p)))
      as (o & b' & Heq & Hs & Hl).
    exists o, b'. split; [exact Heq|]. split.
    + eapply sameSession_trans; [|exact Hs]. destruct p. repeat split.
    + rewrite Hl. destruct p. reflexivity.
  - exists EnterNone. eexists. unfold onOnline, setOnLine. simpl.
    split; [destruct p; reflexivity|]. split; [destruct p; repeat split|].
    destruct p. simpl. rewrite app_nil_r. reflexivity.
Qed.

Lemma closureLaw_coreKept {S I : Type} `{TaskObject S I} `{Observed S}
    (payloadOf : S -> string -> gmap string Core.Value) :
  closureLaw payloadOf ->
  forall (o : Entry I) e (s : S) b, coreKept b (snd (enter o e (s, b))).
Proof.
  intros Hlaw o e s b. destruct (Hlaw o e s b) as [Hstopped Hrunning].
  destruct (stopped s) eqn:Hs.
  - left. apply (Hstopped eq_refl).
  - destruct (Hrunning eq_refl) as [[Hc _]|(_ & _ & Hc)].
    + left. exact Hc.
    + right. eexists. exact Hc.
Qed.

Lemma mood_coreKept (o : Entry MoodInput) e (s : MoodTask.State) b :
  coreKept b (snd (enter o e (s, b))).
Proof.
  destruct o as [| | |r|cb|i]; try (left; reflexivity).
  destruct i as [k v|d]; simpl; [left; reflexivity|].
  destruct (MoodTask.submitDisabled s) eqn:Hd.
  - left. unfold MoodTask.clickSubmit. rewrite Hd. reflexivity.
  - destruct (mood_clickSubmit_enabled d e s b Hd) as [s' ->].
    right. eexists. reflexivity.
Qed.

Lemma logsLifecycleOnly_intro {S I : Type} `{TaskObject S I} :
  (forall (o : Entry I) e (s : S) b, coreKept b (snd (enter o e (s, b)))) ->
  logsLifecycleOnly (S := S) (I := I).
Proof.
  intros Hkept tr. induction tr as [|[e ev] tr IH]; intros p; simpl.
  - unfold notedAll. simpl. rewrite app_nil_r. reflexivity.
  - rewrite IH. unfold notedAll. simpl. rewrite app_assoc. f_equal.
    destruct (step_log e ev p) as (o & b' & -> & _ & Hlog).
    destruct (Hkept o e (fst p) b') as [->|[payload ->]]; exact Hlog.
Qed.

Lemma neverPosts_intro {S I : Type} `{TaskObject S I} :
  (forall (o : Entry I) e (s : S) b, coreKept b (snd (enter o e (s, b)))) ->
  neverPosts (S := S) (I := I).
Proof.
  intros Hkept tr. induction tr as [|[e ev] tr IH]; intros p; simpl.
  - reflexivity.
  - rewrite IH.
    destruct (step_log e ev p) as (o & b' & -> & Hsame & _).
    destruct Hsame as (_ & _ & _ & _ & Hf & _).
    destruct (Hkept o e (fst p) b') as [->|[payload ->]]; exact Hf.
Qed.

Lemma submitsAtMostOnce_intro {S I : Type} `{TaskObject S I} `{Observed S}
    (payloadOf : S -> string -> gmap string Core.Value) :
  closureLaw payloadOf -> submitsAtMostOnce (S := S) (I := I).
Proof.
  intros Hlaw.
  assert (Hstep : forall e (ev : Event I) (p : S * Browser),
            (stopped (fst p) = true ->
               stopped (fst (step e ev p)) = true
               /\ Core.submitCalls (core (snd (step e ev p)))
                  = Core.submitCalls (core (snd p)))
            /\ (stopped (fst p) = false ->
                Core.submitCalls (core (snd (step e ev p)))
                = Core.submitCalls (core (snd p))
                \/ (stopped (fst (step e ev p)) = true
                    /\ exists payload,
                         Core.submitCalls (core (snd (step e ev p)))
                         = Core.submitCalls (core (snd p)) ++ [payload]))).
  { intros e ev p.
    destruct (step_log e ev p) as (o & b' & -> & Hsame & _).
    destruct Hsame as (_ & _ & _ & _ & _ & Hc).
    destruct (Hlaw o e (fst p) b') as [Hstopped Hrunning]. split.
    - intros Hs. destruct (Hstopped Hs) as [Hs' ->]. split; [exact Hs'|exact Hc].
    - intros Hs. destruct (Hrunning Hs) as [[-> _]|(_ & Hs' & ->)].
      + left. exact Hc.
      + right. split; [exact Hs'|]. eexists. simpl. rewrite Hc. reflexivity. }
  assert (Hstopped : forall (tr : list (Env * Event I)) (p : S * Browser),
            stopped (fst p) = true ->
            Core.submitCalls (core (snd (steps tr p)))
            = Core.submitCalls (core (snd p))
            /\ stopped (fst (steps tr p)) = true).
  { intros tr. induction tr as [|[e ev] tr IH]; intros p Hs; simpl.
    - split; [reflexivity|exact Hs].
    - destruct (proj1 (Hstep e ev p) Hs) as [Hs' Hc].
      destruct (IH _ Hs') as [Hc' Hs'']. split; [congruence|exact Hs'']. }
  intros tr. induction tr as [|[e ev] tr IH]; intros p; simpl.
  - split; [reflexivity|]. intros _. left. reflexivity.
  - split.
    + intros Hs. apply (Hstopped ((e, ev) :: tr) p Hs).
    + intros Hs. destruct (proj2 (Hstep e ev p) Hs) as [Hc|[Hs' [payload Hc]]].
      * destruct (stopped (fst (step e ev p))) eqn:Hs'.
        -- left. rewrite (proj1 (Hstopped tr _ Hs')). exact Hc.
        -- destruct (proj2 (IH (step e ev p)) Hs') as [Hc'|[Hs'' [payload Hc']]].
           ++ left. congruence.
           ++ right. split; [exact Hs''|]. exists payload. congruence.
      * right. destruct (Hstopped tr _ Hs') as [Hc' Hs''].
        split; [exact Hs''|]. exists payload. congruence.
Qed.

(** X7: in every run of each of the five tasks the interruption log grows
    by exactly one entry per visibility change, pagehide, beforeunload and
    offline event, in order and stamped with the wall clock; timers, input
    and the [online] event add nothing, and no entry is ever removed. *)
Theorem interruption_log_records_lifecycle_events :
  logsLifecycleOnly (S := PvtTask.State) (I := Tap)
  /\ logsLifecycleOnly (S := SartTask.State) (I := Tap)
  /\ logsLifecycleOnly (S := FlankerTask.State) (I := FlankerInput)
  /\ logsLifecycleOnly (S := DigitSymbolTask.State) (I := DigitSymbolInput)
  /\ logsLifecycleOnly (S := MoodTask.State) (I := MoodInput).
Proof.
  split; [apply logsLifecycleOnly_intro,
            (closureLaw_coreKept PvtTask.payload), pvt_closureLaw|].
  split; [apply logsLifecycleOnly_intro,
            (closureLaw_coreKept SartTask.payload), sart_closureLaw|].
  split; [apply logsLifecycleOnly_intro,
            (closureLaw_coreKept FlankerTask.payload), flanker_closureLaw|].
  split; [apply logsLifecycleOnly_intro,
            (closureLaw_coreKept DigitSymbolTask.payload), digitSymbol_closureLaw|].
  apply logsLifecycleOnly_intro, mood_coreKept.
Qed.

(** X8: no run of any of the five tasks issues a request: whatever the
    events, the requests of the page stay those made before the task
    started (the device-meta POST of [TaskCore.init]); no result is ever
    posted. *)
Theorem task_pages_never_post_results :
  neverPosts (S := PvtTask.State) (I := Tap)
  /\ neverPosts (S := SartTask.State) (I := Tap)
  /\ neverPosts (S := FlankerTask.State) (I := FlankerInput)
  /\ neverPosts (S := DigitSymbolTask.State) (I := DigitSymbolInput)
  /\ neverPosts (S := MoodTask.State) (I := MoodInput).
Proof.
  split; [apply neverPosts_intro,
            (closureLaw_coreKept PvtTask.payload), pvt_closureLaw|].
  split; [apply neverPosts_intro,
            (closureLaw_coreKept SartTask.payload), sart_closureLaw|].
  split; [apply neverPosts_intro,
            (closureLaw_coreKept FlankerTask.payload), flanker_closureLaw|].
  split; [apply neverPosts_intro,
            (closureLaw_coreKept DigitSymbolTask.payload), digitSymbol_closureLaw|].
  apply neverPosts_intro, mood_coreKept.
Qed.

(** X9: over a whole run, each of the four timed runners calls
    [TaskCore.submit] at most once: a stopped runner never calls it, and a
    runner that is not stopped either has not called it or has called it
    once and is stopped. *)
Theorem runners_submit_at_most_once_per_run :
  submitsAtMostOnce (S := PvtTask.State) (I := Tap)
  /\ submitsAtMostOnce (S := SartTask.State) (I := Tap)
  /\ submitsAtMostOnce (S := FlankerTask.State) (I := FlankerInput)
  /\ submitsAtMostOnce (S := DigitSymbolTask.State) (I := DigitSymbolInput).
Proof.
  split; [apply (submitsAtMostOnce_intro PvtTask.payload), pvt_closureLaw|].
  split; [apply (submitsAtMostOnce_intro SartTask.payload), sart_closureLaw|].
  split; [apply (submitsAtMostOnce_intro FlankerTask.payload), flanker_closureLaw|].
  apply (submitsAtMostOnce_intro DigitSymbolTask.payload), digitSymbol_closureLaw.
Qed.

(** X10: a runner that is paused or stopped discards user input: a tap,
    a button, a key or an option click leaves the whole page as it was. *)
Theorem paused_or_stopped_runner_ignores_input :
  ignoresInputWhenInactive (S := PvtTask.State) (I := Tap)
  /\ ignoresInputWhenInactive (S := SartTask.State) (I := Tap)
  /\ ignoresInputWhenInactive (S := FlankerTask.State) (I := FlankerInput)
  /\ ignoresInputWhenInactive (S := DigitSymbolTask.State) (I := DigitSymbolInput).
Proof.
  split; [|split; [|split]]; intros e i [s b] Hin; simpl in Hin; simpl.
  - unfold PvtTask.handleInteraction.
    destruct (negb (PvtTask.listening s)); [reflexivity|].
    destruct Hin as [-> | ->]; rewrite ?orb_true_r; reflexivity.
  - unfold SartTask.handleInteraction.
    destruct (negb (SartTask.listening s)); [reflexivity|].
    destruct Hin as [-> | ->]; rewrite ?orb_true_r; reflexivity.
  - destruct i as [d|d]; simpl; unfold FlankerTask.keyHandler; simpl;
      try destruct (FlankerTask.keyListening s); try reflexivity;
      unfold FlankerTask.handleResponse;
      destruct Hin as [-> | ->]; rewrite ?orb_true_r; reflexivity.
  - destruct i as [k]. simpl. unfold DigitSymbolTask.click.
    destruct (DigitSymbolTask.options s !! k); [|reflexivity].
    destruct Hin as [-> | ->]; rewrite ?orb_true_r; reflexivity.
Qed.

(** ** pvt.js: records, terminal state, pause and resume *)

Lemma pvtScored_waiting resp :
  pvtScored (PvtTrial.mk None resp None true false true).
Proof.
  unfold pvtScored. simpl. split; [intros _; repeat split|].
  split; [discriminate|]. split; [discriminate|].
  intros _ Hboth. destruct Hboth as [_ Hl]. discriminate.
Qed.

Lemma pvtScored_visible (st resp rt : Z) (tap : bool) :
  pvtScored
    (PvtTrial.mk (Some st) resp (if tap then Some rt else None)
       (rt <? PvtTask.ANTICIPATION_THRESHOLD)
       ((PvtTask.LAPSE_THRESHOLD <? rt) || negb tap) tap).
Proof.
  unfold pvtScored. simpl. split; [discriminate|]. split; [|split].
  - intros ->. simpl. split; [eauto|]. split; [reflexivity|apply orb_true_r].
  - intros r Hr. destruct tap; [|discriminate]. injection Hr as ->.
    split; [reflexivity|]. split; [eauto|]. split; [reflexivity|apply orb_false_r].
  - intros -> Hboth. destruct Hboth as [Ha Hl]. rewrite orb_false_r in Hl.
    apply Z.ltb_lt in Ha. apply Z.ltb_lt in Hl.
    unfold PvtTask.ANTICIPATION_THRESHOLD, PvtTask.LAPSE_THRESHOLD in *. lia.
Qed.

Lemma pvt_showStimulus_trials e p :
  PvtTask.trials (fst (PvtTask.showStimulus e p)) = PvtTask.trials (fst p).
Proof.
  destruct p as [s b]. unfold PvtTask.showStimulus.
  destruct (negb (PvtTask.isRunning s) || PvtTask.isPaused s); reflexivity.
Qed.

Lemma pvt_animate_trials e p :
  PvtTask.trials (fst (PvtTask.animate e p)) = PvtTask.trials (fst p).
Proof.
  destruct p as [s b]. unfold PvtTask.animate.
  destruct (PvtTask.stimulusStartMs s); [|reflexivity].
  destruct (negb (PvtTask.isRunning s)); reflexivity.
Qed.

Lemma pvt_endTask_trials e p :
  PvtTask.trials (fst (PvtTask.endTask e p)) = PvtTask.trials (fst p).
Proof.
  destruct p as [s b]. destruct (PvtTask.isStopped s) eqn:Hs.
  - rewrite pvt_endTask_stopped by exact Hs. reflexivity.
  - rewrite pvt_endTask_running by exact Hs. reflexivity.
Qed.

Lemma pvt_recordResponse_trials tap e s b :
  PvtTask.trials (fst (PvtTask.recordResponse tap e (s, b))) = PvtTask.trials s
  \/ exists t,
       PvtTask.trials (fst (PvtTask.recordResponse tap e (s, b)))
       = PvtTask.trials s ++ [t]
       /\ pvtScored t.
Proof.
  destruct (PvtTask.stimulusStartMs s) as [t0|] eqn:Hst.
  - right. eexists. split; [apply pvt_recordResponse_visible, Hst|].
    apply pvtScored_visible.
  - destruct tap.
    + right. eexists. split; [apply pvt_recordResponse_waiting, Hst|].
      apply pvtScored_waiting.
    + left. unfold PvtTask.recordResponse. rewrite Hst. reflexivity.
Qed.

Lemma pvt_enter_trials (o : Entry Tap) e s b :
  PvtTask.trials (fst (enter o e (s, b))) = PvtTask.trials s
  \/ exists t,
       PvtTask.trials (fst (enter o e (s, b))) = PvtTask.trials s ++ [t]
       /\ pvtScored t.
Proof.
  destruct o as [| | |r|cb|i]; simpl enter.
  - left. reflexivity.
  - left. reflexivity.
  - left. simpl. unfold PvtTask.resume. rewrite pvt_startISI_trials. reflexivity.
  - left. reflexivity.
  - destruct cb; simpl timer; try (left; reflexivity).
    + left. apply (pvt_showStimulus_trials e (s, b)).
    + simpl. unfold PvtTask.noResponse.
      destruct (PvtTask.stimulusStartMs s); [|left; reflexivity].
      destruct (PvtTask.isRunning s); [|left; reflexivity].
      apply pvt_recordResponse_trials.
    + left. apply (pvt_animate_trials e (s, b)).
    + left. apply (pvt_endTask_trials e (s, b)).
  - simpl. unfold PvtTask.handleInteraction.
    destruct (negb (PvtTask.listening s)); [left; reflexivity|].
    destruct (negb (PvtTask.isRunning s) || PvtTask.isPaused s
              || PvtTask.isStopped s); [left; reflexivity|].
    apply pvt_recordResponse_trials.
Qed.

Lemma pvt_init_state seed d e b :
  PvtTask.trials (fst (PvtTask.init seed d e b)) = []
  /\ PvtTask.isStopped (fst (PvtTask.init seed d e b)) = false.
Proof.
  unfold PvtTask.init.
  match goal with
  | |- context [PvtTask.startISI ?q] =>
      pose proof (pvt_startISI_trials q) as Ht;
      pose proof (proj2 (pvt_startISI_keeps q)) as Hs;
      destruct (PvtTask.startISI q) as [s1 b1]
  end.
  simpl in *. split; assumption.
Qed.

(** X11: in every run of the vigilance task from [init], every record has
    the shape the scoring expects: a tap before the stimulus is an
    anticipation without onset or latency; a record without response has
    no latency and is a lapse; a recorded latency is classified as
    anticipation below 100 ms and as lapse above 500 ms; no response is
    both. *)
Theorem pvt_trials_scored seed d e0 b (tr : list (Env * Event Tap)) :
  Forall pvtScored (PvtTask.trials (fst (steps tr (PvtTask.init seed d e0 b)))).
Proof.
  assert (Hinit : Forall pvtScored (PvtTask.trials (fst (PvtTask.init seed d e0 b))))
    by (rewrite (proj1 (pvt_init_state seed d e0 b)); constructor).
  revert Hinit. generalize (PvtTask.init seed d e0 b).
  induction tr as [|[e ev] tr IH]; intros p Hp; simpl; [exact Hp|].
  apply IH. destruct (step_enters e ev p) as (o & b' & -> & _).
  destruct (pvt_enter_trials o e (fst p) b') as [->|(t & -> & Ht)]; [exact Hp|].
  apply Forall_app. split; [exact Hp|]. constructor; [exact Ht|constructor].
Qed.

Lemma pvt_startISI_flags p :
  PvtTask.isStopped (fst (PvtTask.startISI p)) = PvtTask.isStopped (fst p)
  /\ PvtTask.isRunning (fst (PvtTask.startISI p)) = PvtTask.isRunning (fst p).
Proof. destruct p as [s b]. unfold PvtTask.startISI. keeps. Qed.

Lemma pvt_recordResponse_flags tap e p :
  PvtTask.isStopped (fst (PvtTask.recordResponse tap e p)) = PvtTask.isStopped (fst p)
  /\ PvtTask.isRunning (fst (PvtTask.recordResponse tap e p))
     = PvtTask.isRunning (fst p).
Proof.
  destruct p as [s b]. unfold PvtTask.recordResponse.
  destruct (PvtTask.stimulusStartMs s) as [t0|].
  - match goal with
    | |- context [if ?c then PvtTask.startISI ?q else ?r] =>
        destruct c;
        [destruct (pvt_startISI_flags q) as [-> ->]|]; split; reflexivity
    end.
  - destruct (negb tap); [split; reflexivity|].
    match goal with
    | |- context [PvtTask.startISI ?q] =>
        destruct (pvt_startISI_flags q) as [-> ->]; split; reflexivity
    end.
Qed.

Lemma pvt_noResponse_flags e p :
  PvtTask.isStopped (fst (PvtTask.noResponse e p)) = PvtTask.isStopped (fst p)
  /\ PvtTask.isRunning (fst (PvtTask.noResponse e p)) = PvtTask.isRunning (fst p).
Proof.
  destruct p as [s b]. unfold PvtTask.noResponse.
  destruct (PvtTask.stimulusStartMs s); [|split; reflexivity].
  destruct (PvtTask.isRunning s); [|split; reflexivity].
  apply pvt_recordResponse_flags.
Qed.

Lemma pvt_handleInteraction_flags e p :
  PvtTask.isStopped (fst (PvtTask.handleInteraction e p)) = PvtTask.isStopped (fst p)
  /\ PvtTask.isRunning (fst (PvtTask.handleInteraction e p))
     = PvtTask.isRunning (fst p).
Proof.
  destruct p as [s b]. unfold PvtTask.handleInteraction.
  destruct (negb (PvtTask.listening s)); [split; reflexivity|].
  destruct (negb (PvtTask.isRunning s) || PvtTask.isPaused s || PvtTask.isStopped s);
    [split; reflexivity|].
  apply pvt_recordResponse_flags.
Qed.

Lemma pvt_enter_flags (o : Entry Tap) e s b :
  pvtFlags s (fst (enter o e (s, b))).
Proof.
  destruct o as [| | |r|cb|i]; simpl enter.
  - left. split; reflexivity.
  - left. split; reflexivity.
  - left. simpl. unfold PvtTask.resume.
    destruct (pvt_startISI_flags (PvtTask.set_isPaused false s, b)) as [-> ->].
    split; reflexivity.
  - right. split; reflexivity.
  - destruct cb; simpl; try (left; split; reflexivity).
    + left. unfold PvtTask.showStimulus. keeps.
    + left. apply (pvt_noResponse_flags e (s, b)).
    + left. unfold PvtTask.animate. keeps.
    + destruct (PvtTask.isStopped s) eqn:Hs.
      * rewrite pvt_endTask_stopped by exact Hs. left. split; reflexivity.
      * rewrite pvt_endTask_running by exact Hs. right. split; reflexivity.
  - left. apply (pvt_handleInteraction_flags e (s, b)).
Qed.

Lemma pvt_enter_frozen (o : Entry Tap) e s b :
  PvtTask.isRunning s = false ->
  PvtTask.trials (fst (enter o e (s, b))) = PvtTask.trials s.
Proof.
  intros Hr. destruct o as [| | |r|cb|i]; simpl enter; try reflexivity.
  - simpl. unfold PvtTask.resume. apply pvt_startISI_trials.
  - destruct cb; simpl timer; try reflexivity.
    + apply (pvt_showStimulus_trials e (s, b)).
    + simpl. unfold PvtTask.noResponse. rewrite Hr.
      destruct (PvtTask.stimulusStartMs s); reflexivity.
    + apply (pvt_animate_trials e (s, b)).
    + apply (pvt_endTask_trials e (s, b)).
  - simpl. unfold PvtTask.handleInteraction. rewrite Hr. simpl.
    destruct (negb (PvtTask.listening s)); reflexivity.
Qed.

(** X12: once a run of the vigilance task from [init] has stopped, by
    [endTask] or by [abort], no later event changes the trial records:
    they are immutable in the terminal state. *)
Theorem pvt_trials_frozen_once_stopped seed d e0 b (tr1 tr2 : list (Env * Event Tap)) :
  PvtTask.isStopped (fst (steps tr1 (PvtTask.init seed d e0 b))) = true ->
  PvtTask.trials (fst (steps tr2 (steps tr1 (PvtTask.init seed d e0 b))))
  = PvtTask.trials (fst (steps tr1 (PvtTask.init seed d e0 b))).
Proof.
  assert (Hinv : forall (tr : list (Env * Event Tap)) (p : PvtTask.Page),
            (PvtTask.isStopped (fst p) = true -> PvtTask.isRunning (fst p) = false) ->
            PvtTask.isStopped (fst (steps tr p)) = true ->
            PvtTask.isRunning (fst (steps tr p)) = false).
  { intros tr. induction tr as [|[e ev] tr IH]; intros p Hp; simpl; [exact Hp|].
    apply IH. destruct (step_enters e ev p) as (o & b' & -> & _).
    destruct (pvt_enter_flags o e (fst p) b') as [[Hs Hr]|[Hs Hr]].
    - rewrite Hs, Hr. exact Hp.
    - intros _. exact Hr. }
  intros Hstopped.
  assert (Hidle : PvtTask.isRunning (fst (steps tr1 (PvtTask.init seed d e0 b))) = false).
  { apply Hinv; [|exact Hstopped].
    rewrite (proj2 (pvt_init_state seed d e0 b)). discriminate. }
  revert Hidle. generalize (steps tr1 (PvtTask.init seed d e0 b)).
  induction tr2 as [|[e ev] tr2 IH]; intros p Hidle; simpl; [reflexivity|].
  destruct (step_enters e ev p) as (o & b' & Heq & _).
  rewrite IH.
  - rewrite Heq. apply pvt_enter_frozen, Hidle.
  - rewrite Heq. destruct (pvt_enter_flags o e (fst p) b') as [[_ Hr]|[_ Hr]].
    + rewrite Hr. exact Hidle.
    + exact Hr.
Qed.

Lemma pending_clearTimeout_same h tm :
  Timers.pending (Timers.clearTimeout h tm) h = false.
Proof.
  destruct h as [i|]; [|reflexivity]. simpl.
  rewrite lookup_delete_eq. apply bool_decide_eq_false. intros [x Hx]. discriminate.
Qed.

Lemma pending_clearTimeout_mono h h' tm :
  Timers.pending tm h = false ->
  Timers.pending (Timers.clearTimeout h' tm) h = false.
Proof.
  destruct h as [i|]; [|reflexivity]. destruct h' as [j|]; [|auto]. simpl.
  intros Hp. apply bool_decide_eq_false in Hp. apply bool_decide_eq_false.
  intros [x Hx]. apply Hp. exists x.
  apply lookup_delete_Some in Hx. apply Hx.
Qed.

Lemma pending_cancelAnimationFrame h h' tm :
  Timers.pending (Timers.cancelAnimationFrame h' tm) h = Timers.pending tm h.
Proof. destruct h' as [j|]; reflexivity. Qed.

(** X13: [pause] of the vigilance task cancels the inter-stimulus and the
    no-response timeout; [resume] of a running task hides the stimulus and
    starts a new inter-stimulus wait of 2000 to 10000 ms without touching
    the records, so a tap that follows is recorded without latency: a pause
    is never measured as a reaction time. *)
Theorem pvt_resume_starts_new_interval s b :
  PvtTask.isRunning s = true ->
  Timers.pending (timers (snd (PvtTask.pause (s, b)))) (PvtTask.isiTimer s) = false
  /\ Timers.pending (timers (snd (PvtTask.pause (s, b)))) (PvtTask.noResponseTimer s)
     = false
  /\ PvtTask.stimulusStartMs (fst (PvtTask.resume (PvtTask.pause (s, b)))) = None
  /\ PvtTask.isPaused (fst (PvtTask.resume (PvtTask.pause (s, b)))) = false
  /\ PvtTask.trials (fst (PvtTask.resume (PvtTask.pause (s, b)))) = PvtTask.trials s
  /\ (exists id d,
        PvtTask.isiTimer (fst (PvtTask.resume (PvtTask.pause (s, b)))) = Some id
        /\ Timers.timeouts (timers (snd (PvtTask.resume (PvtTask.pause (s, b))))) !! id
           = Some (CbShowStimulus, d)
        /\ (inject_Z 2000 <= d < inject_Z 10000)%Q)
  /\ (forall e,
        PvtTask.listening s = true -> PvtTask.isStopped s = false ->
        PvtTask.trials
          (fst (PvtTask.handleInteraction e (PvtTask.resume (PvtTask.pause (s, b)))))
        = PvtTask.trials s
          ++ [PvtTrial.mk None (JS.round (Core.now (core b) (perfNow e)))
                None true false true]).
Proof.
  intros Hrun.
  split.
  { unfold PvtTask.pause. simpl. rewrite pending_cancelAnimationFrame.
    apply pending_clearTimeout_mono, pending_clearTimeout_same. }
  split.
  { unfold PvtTask.pause. simpl. rewrite pending_cancelAnimationFrame.
    apply pending_clearTimeout_same. }
  unfold PvtTask.pause, PvtTask.resume, PvtTask.startISI.
  simpl PvtTask.isRunning. simpl PvtTask.isPaused. rewrite Hrun. simpl negb. simpl orb.
  cbv iota.
  pose proof (pvt_randomISI_in_range
                (PvtTask.set_display DBlank
                   (PvtTask.set_stimulusStartMs None
                      (PvtTask.set_isPaused false (PvtTask.set_isPaused true s)))))
    as Hisi.
  unfold PvtTask.randomISI in *.
  destruct (Rng.draw _) as [u h]. simpl in Hisi. simpl.
  split; [reflexivity|]. split; [reflexivity|]. split; [reflexivity|].
  split.
  { eexists. eexists. split; [reflexivity|].
    split; [apply lookup_insert_eq|exact Hisi]. }
  intros e Hl Hs. unfold PvtTask.handleInteraction. simpl.
  rewrite Hl, Hrun, Hs. simpl.
  match goal with
  | |- context [PvtTask.recordResponse true e (?s', ?b')] =>
      exact (pvt_recordResponse_waiting e s' b' eq_refl)
  end.
Qed.

(** ** sart.js: the digit sequence, repeated taps, resume *)

Lemma floor_scaled_draw h n :
  0 < n ->
  0 <= JS.floor (fst (Rng.draw h) * inject_Z n) < n.
Proof.
  intros Hn. pose proof (output_range (Rng.bump h)) as Hu.
  unfold Rng.draw, Rng.toUnit, JS.floor, Qfloor, Qmult, inject_Z. simpl.
  change (Z.pos (4294967296 * 1)) with 4294967296.
  split.
  - apply Z.div_pos; [nia|lia].
  - apply Z.div_lt_upper_bound; [lia|nia].
Qed.

Lemma nextDigit_is_digit h :
  In (fst (SartTask.nextDigit h)) SartTask.digits.
Proof.
  unfold SartTask.nextDigit.
  destruct (Rng.draw h) as [u h1] eqn:Hd1.
  destruct (JS.lt u (111 # 1000)); [simpl; tauto|].
  pose proof (floor_scaled_draw h1 8 ltac:(lia)) as Hk.
  destruct (Rng.draw h1) as [v h2] eqn:Hd2. simpl fst in Hk.
  change (Z.of_nat (length SartTask.goDigits)) with 8.
  remember (JS.floor (v * inject_Z 8)) as k eqn:Heqk. clear Heqk. simpl fst.
  assert (Hcases : k = 0 \/ k = 1 \/ k = 2 \/ k = 3 \/ k = 4 \/ k = 5 \/ k = 6 \/ k = 7)
    by lia.
  destruct Hcases as [->|[->|[->|[->|[->|[->|[->| ->]]]]]]]; vm_compute; tauto.
Qed.

Lemma nextDigit_go_not_nogo h :
  fst (SartTask.nextDigit h) = SartTask.NOGO_DIGIT
  <-> JS.lt (fst (Rng.draw h)) (111 # 1000) = true.
Proof.
  unfold SartTask.nextDigit.
  destruct (Rng.draw h) as [u h1] eqn:Hd1. cbn [fst].
  destruct (JS.lt u (111 # 1000)); [split; reflexivity|].
  pose proof (floor_scaled_draw h1 8 ltac:(lia)) as Hk.
  destruct (Rng.draw h1) as [v h2] eqn:Hd2. simpl fst in Hk.
  change (Z.of_nat (length SartTask.goDigits)) with 8.
  remember (JS.floor (v * inject_Z 8)) as k eqn:Heqk. clear Heqk. cbn [fst].
  split; [|discriminate].
  assert (Hcases : k = 0 \/ k = 1 \/ k = 2 \/ k = 3 \/ k = 4 \/ k = 5 \/ k = 6 \/ k = 7)
    by lia.
  clear Hd1 Hd2 Hk.
  destruct Hcases as [->|[->|[->|[->|[->|[->|[->| ->]]]]]]];
    vm_compute; intros Hthree; discriminate Hthree.
Qed.

Lemma buildLoop_spec n h acc :
  length (fst (SartTask.buildLoop n h acc)) = (length acc + n)%nat
  /\ (Forall (fun d => In d SartTask.digits) acc ->
      Forall (fun d => In d SartTask.digits) (fst (SartTask.buildLoop n h acc))).
Proof.
  revert h acc. induction n as [|n IH]; intros h acc; simpl.
  - split; [lia|auto].
  - pose proof (nextDigit_is_digit h) as Hd.
    destruct (SartTask.nextDigit h) as [d h1]. simpl in Hd.
    destruct (IH h1 (acc ++ [d])) as [Hlen Hall]. split.
    + rewrite Hlen, length_app. simpl. lia.
    + intros Hacc. apply Hall. apply Forall_app. split; [exact Hacc|].
      constructor; [exact Hd|constructor].
Qed.

(** X14: [buildSequence] returns ceil(durationMs / 1150) + 5 digits (none
    when that number is not positive), each of them one of 1 to 9; with the
    default duration that is 71 digits.  A digit is the no-go digit 3
    exactly when the first draw of its iteration was below 0.111. *)
Theorem sart_buildSequence_digits h durationMs :
  length (fst (SartTask.buildSequence h durationMs))
  = Z.to_nat (SartTask.trialCount durationMs)
  /\ Forall (fun d => 1 <= d <= 9) (fst (SartTask.buildSequence h durationMs))
  /\ SartTask.trialCount SartTask.DURATION_MS = 71
  /\ (fst (SartTask.nextDigit h) = SartTask.NOGO_DIGIT
      <-> JS.lt (fst (Rng.draw h)) (111 # 1000) = true).
Proof.
  unfold SartTask.buildSequence.
  destruct (buildLoop_spec (Z.to_nat (SartTask.trialCount durationMs)) h [])
    as [Hlen Hall].
  split; [exact Hlen|]. split.
  - eapply Forall_impl; [apply Hall; constructor|].
    intros d Hd. simpl in Hd.
    destruct Hd as [<-|[<-|[<-|[<-|[<-|[<-|[<-|[<-|[<-|[]]]]]]]]]]; lia.
  - split; [reflexivity|apply nextDigit_go_not_nogo].
Qed.

Lemma sart_tap_cases s b :
  (forall e, SartTask.handleInteraction e (s, b) = (s, b))
  \/ (forall e, exists t,
         SartTask.handleInteraction e (s, b)
         = (SartTask.set_trials (SartTask.trials s ++ [t])
              (SartTask.set_responded true s), b)).
Proof.
  unfold SartTask.handleInteraction.
  destruct (negb (SartTask.listening s)); [left; reflexivity|].
  destruct (negb (SartTask.isRunning s) || SartTask.isPaused s
            || SartTask.isStopped s || SartTask.responded s); [left; reflexivity|].
  right. intros e. eexists. reflexivity.
Qed.

Lemma sart_tap_after_response e s b :
  SartTask.responded s = true -> SartTask.handleInteraction e (s, b) = (s, b).
Proof.
  intros Hr. unfold SartTask.handleInteraction.
  destruct (negb (SartTask.listening s)); [reflexivity|].
  rewrite Hr, orb_true_r. reflexivity.
Qed.

Lemma flanker_response_cases s b :
  (forall d e, FlankerTask.handleResponse d e (s, b) = (s, b))
  \/ (forall d e, exists t,
         FlankerTask.handleResponse d e (s, b)
         = (FlankerTask.set_trials (FlankerTask.trials s ++ [t])
              (FlankerTask.set_responded true s), b)).
Proof.
  unfold FlankerTask.handleResponse.
  destruct (negb (FlankerTask.isRunning s) || FlankerTask.isPaused s
            || FlankerTask.isStopped s || FlankerTask.responded s);
    [left; reflexivity|].
  destruct (FlankerTask.currentTrial s); [|left; reflexivity].
  right. intros d e. eexists. reflexivity.
Qed.

Lemma flanker_response_after_response d e s b :
  FlankerTask.responded s = true -> FlankerTask.handleResponse d e (s, b) = (s, b).
Proof.
  intros Hr. unfold FlankerTask.handleResponse.
  rewrite Hr, orb_true_r. reflexivity.
Qed.

(** X15: the first response to a stimulus wins: in sart.js a second tap
    during the same trial, and in flanker.js a second button or key press,
    whatever its direction, leaves the page exactly as the first one left
    it. *)
Theorem repeated_response_is_ignored e1 e2 d1 d2 (p : SartTask.Page)
    (q : FlankerTask.Page) :
  SartTask.handleInteraction e2 (SartTask.handleInteraction e1 p)
  = SartTask.handleInteraction e1 p
  /\ FlankerTask.handleResponse d2 e2 (FlankerTask.handleResponse d1 e1 q)
     = FlankerTask.handleResponse d1 e1 q.
Proof.
  split.
  - destruct p as [s b].
    destruct (sart_tap_cases s b) as [Hsame|Hpush].
    + rewrite !Hsame. reflexivity.
    + destruct (Hpush e1) as [t ->].
      apply sart_tap_after_response. reflexivity.
  - destruct q as [s b].
    destruct (flanker_response_cases s b) as [Hsame|Hpush].
    + rewrite !Hsame. reflexivity.
    + destruct (Hpush d1 e1) as [t ->].
      apply flanker_response_after_response. reflexivity.
Qed.

(** X16: after a pause, [resume] of the sustained-attention task shows
    the next digit of the sequence and takes a new trial start; the latency
    of a tap that follows is measured from the resume, so it does not
    contain the pause. *)
Theorem sart_latency_measured_from_resume e1 e2 s b :
  SartTask.isRunning s = true ->
  SartTask.isStopped s = false ->
  SartTask.listening s = true ->
  (SartTask.seqIndex s < length (SartTask.sequence s))%nat ->
  SartTask.trials
    (fst (SartTask.handleInteraction e2
            (SartTask.resume e1 (SartTask.pause (s, b)))))
  = SartTask.trials s
    ++ [SartTrial.mk (SartTask.sequence s !! SartTask.seqIndex s)
          (SartTask.isNogoDigit (SartTask.sequence s !! SartTask.seqIndex s))
          true
          (Some (JS.round (Core.now (core b) (perfNow e2)
                           - Core.now (core b) (perfNow e1))))
          (SartTask.isNogoDigit (SartTask.sequence s !! SartTask.seqIndex s))
          false].
Proof.
  intros Hrun Hstop Hlisten Hidx.
  unfold SartTask.pause, SartTask.resume, SartTask.showNextTrial. simpl.
  rewrite Hrun. simpl.
  destruct (Nat.leb_spec (length (SartTask.sequence s)) (SartTask.seqIndex s)) as [Hle|_];
    [lia|].
  unfold SartTask.handleInteraction. simpl.
  rewrite Hlisten, Hrun, Hstop. simpl. reflexivity.
Qed.

(** ** flanker.js: rows and records *)

Lemma buildTrial_row h :
  rowMatches (FlankerTask.arrows (fst (FlankerTask.buildTrial h)))
    (FlankerTask.direction (fst (FlankerTask.buildTrial h)))
    (FlankerTask.is_congruent (fst (FlankerTask.buildTrial h))).
Proof.
  unfold FlankerTask.buildTrial.
  destruct (Rng.draw h) as [u h1]. destruct (Rng.draw h1) as [v h2].
  destruct (JS.lt u (1 # 2)), (JS.lt v (1 # 2)); simpl;
    (split; [reflexivity|]; split; [reflexivity|]; repeat constructor).
Qed.

(** X17: [buildTrial] consumes exactly two draws; the first decides
    congruency, the second the direction, both at 1/2.  The row it returns
    has its centre arrow pointing in the trial's direction, and its four
    flankers point the same way exactly when the trial is congruent. *)
Theorem flanker_buildTrial_row h :
  rowMatches (FlankerTask.arrows (fst (FlankerTask.buildTrial h)))
    (FlankerTask.direction (fst (FlankerTask.buildTrial h)))
    (FlankerTask.is_congruent (fst (FlankerTask.buildTrial h)))
  /\ snd (FlankerTask.buildTrial h) = Rng.bump (Rng.bump h)
  /\ FlankerTask.is_congruent (fst (FlankerTask.buildTrial h))
     = JS.lt (fst (Rng.draw h)) (1 # 2)
  /\ (FlankerTask.direction (fst (FlankerTask.buildTrial h)) = Left
      <-> JS.lt (fst (Rng.draw (Rng.bump h))) (1 # 2) = true).
Proof.
  split; [apply buildTrial_row|].
  unfold FlankerTask.buildTrial, Rng.draw. simpl.
  split; [reflexivity|]. split; [reflexivity|].
  destruct (JS.lt (Rng.toUnit (Rng.output (Rng.bump (Rng.bump h)))) (1 # 2));
    split; (reflexivity || discriminate).
Qed.

Lemma flanker_showNextTrial_inv e s b :
  stimulusShown s ->
  stimulusShown (fst (FlankerTask.showNextTrial e (s, b)))
  /\ FlankerTask.trials (fst (FlankerTask.showNextTrial e (s, b)))
     = FlankerTask.trials s.
Proof.
  intros Hs. unfold FlankerTask.showNextTrial.
  destruct (negb (FlankerTask.isRunning s) || FlankerTask.isPaused s
            || FlankerTask.isStopped s); [split; [exact Hs|reflexivity]|].
  pose proof (buildTrial_row (FlankerTask.rng s)) as Hrow.
  destruct (FlankerTask.buildTrial (FlankerTask.rng s)) as [st h]. simpl in *.
  split; [|reflexivity]. intros st' [= <-]. exact Hrow.
Qed.

Lemma flanker_endTask_inv e s b :
  FlankerTask.currentTrial (fst (FlankerTask.endTask e (s, b)))
  = FlankerTask.currentTrial s
  /\ FlankerTask.trials (fst (FlankerTask.endTask e (s, b))) = FlankerTask.trials s.
Proof.
  destruct (FlankerTask.isStopped s) eqn:Hs.
  - rewrite flanker_endTask_stopped by exact Hs. split; reflexivity.
  - rewrite flanker_endTask_running by exact Hs. split; reflexivity.
Qed.

Lemma flanker_enter_inv (o : Entry FlankerInput) e s b :
  stimulusShown s ->
  Forall flankerScored (FlankerTask.trials s) ->
  stimulusShown (fst (enter o e (s, b)))
  /\ Forall flankerScored (FlankerTask.trials (fst (enter o e (s, b)))).
Proof.
  intros Hs Hall.
  assert (Hresp : forall d e,
             stimulusShown (fst (FlankerTask.handleResponse d e (s, b)))
             /\ Forall flankerScored
                  (FlankerTask.trials (fst (FlankerTask.handleResponse d e (s, b))))).
  { intros d e'. unfold FlankerTask.handleResponse.
    destruct (negb (FlankerTask.isRunning s) || FlankerTask.isPaused s
              || FlankerTask.isStopped s || FlankerTask.responded s);
      [split; assumption|].
    destruct (FlankerTask.currentTrial s) as [st|] eqn:Hct; [|split; assumption].
    simpl. split.
    - intros st' Hst'. apply Hs. simpl in Hst'. congruence.
    - apply Forall_app. split; [exact Hall|]. constructor; [|constructor].
      split; [apply Hs, Hct|]. simpl. split; [discriminate|]. intros _.
      exists d. split; [reflexivity|]. split; [|eauto].
      apply bool_decide_eq_true. }
  destruct o as [| | |r|cb|i]; simpl enter.
  - split; assumption.
  - split; assumption.
  - unfold FlankerTask.resume.
    destruct (flanker_showNextTrial_inv e (FlankerTask.set_isPaused false s) b Hs)
      as [Hs' ->]. split; [exact Hs'|exact Hall].
  - split; assumption.
  - destruct cb; simpl; try (split; assumption).
    + unfold FlankerTask.windowEnd. simpl.
      destruct (FlankerTask.currentTrial s) as [st|] eqn:Hct; [|split; assumption].
      destruct (FlankerTask.responded s).
      * split; [|exact Hall]. intros st' Hst'. apply Hs. simpl in Hst'. congruence.
      * simpl. split.
        -- intros st' Hst'. apply Hs. simpl in Hst'. congruence.
        -- apply Forall_app. split; [exact Hall|]. constructor; [|constructor].
           split; [apply Hs, Hct|]. simpl. split; [|discriminate].
           intros _. repeat split.
    + destruct (flanker_showNextTrial_inv e s b Hs) as [Hs' ->].
      split; [exact Hs'|exact Hall].
    + destruct (flanker_endTask_inv e s b) as [Hct Htr]. split.
      * intros st Hst. apply Hs. rewrite <- Hct. exact Hst.
      * rewrite Htr. exact Hall.
  - destruct i as [d|d]; simpl.
    + apply Hresp.
    + unfold FlankerTask.keyHandler. simpl.
      destruct (FlankerTask.keyListening s); [apply Hresp|split; assumption].
Qed.

(** X18: in every run of the conflict task from [init], each record
    carries a well-formed row whose centre arrow is the recorded
    direction; a record without response is incorrect and has no latency;
    a record with a response is correct exactly when the response equals
    the direction of the centre arrow. *)
Theorem flanker_trials_scored seed d e0 b (tr : list (Env * Event FlankerInput)) :
  Forall flankerScored
    (FlankerTask.trials (fst (steps tr (FlankerTask.init seed d e0 b)))).
Proof.
  assert (Hinit : stimulusShown (fst (FlankerTask.init seed d e0 b))
                  /\ Forall flankerScored
                       (FlankerTask.trials (fst (FlankerTask.init seed d e0 b)))).
  { unfold FlankerTask.init.
    match goal with
    | |- context [FlankerTask.showNextTrial e0 (?s0, b)] =>
        assert (Hs0 : stimulusShown s0) by (intros st Hst; discriminate Hst);
        destruct (flanker_showNextTrial_inv e0 s0 b Hs0) as [Hs1 Ht1];
        destruct (FlankerTask.showNextTrial e0 (s0, b)) as [s1 b1]
    end.
    simpl in *. split; [exact Hs1|]. rewrite Ht1. constructor. }
  revert Hinit. generalize (FlankerTask.init seed d e0 b).
  induction tr as [|[e ev] tr IH]; intros p [Hs Hall]; simpl; [exact Hall|].
  apply IH. destruct (step_enters e ev p) as (o & b' & -> & _).
  apply flanker_enter_inv; assumption.
Qed.

(** ** digit_symbol.js: shuffle, key, options, records *)

Lemma shuffleLoop_spec {A : Type} i (a : list A) h :
  fst (DigitSymbolTask.shuffleLoop i a h) ≡ₚ a
  /\ snd (DigitSymbolTask.shuffleLoop i a h) = Rng.after i h.
Proof.
  revert a h. induction i as [|i IH]; intros a h.
  - simpl. split; reflexivity.
  - cbn [DigitSymbolTask.shuffleLoop].
    destruct (Rng.draw h) as [u h1] eqn:Hd.
    assert (Hh1 : h1 = Rng.bump h) by (unfold Rng.draw in Hd; congruence).
    match goal with
    | |- context [DigitSymbolTask.shuffleLoop i ?a' h1] =>
        destruct (IH a' h1) as [Hp Hh];
        assert (Ha : a' ≡ₚ a)
    end.
    { destruct (a !! S i) as [x|] eqn:Hi; [|reflexivity].
      match goal with
      | |- context [a !! ?j] => destruct (a !! j) as [y|] eqn:Hj; [|reflexivity]
      end.
      eapply Permutation_insert_swap; eassumption. }
    split.
    + rewrite Hp. exact Ha.
    + rewrite Hh, Hh1. apply after_bump.
Qed.

(** X19: [shuffle] returns a permutation of its argument, whatever the
    state of the generator, and consumes one draw per element but the
    first. *)
Theorem shuffle_is_permutation {A : Type} (arr : list A) h :
  fst (DigitSymbolTask.shuffle arr h) ≡ₚ arr
  /\ length (fst (DigitSymbolTask.shuffle arr h)) = length arr
  /\ snd (DigitSymbolTask.shuffle arr h) = Rng.after (length arr - 1) h.
Proof.
  unfold DigitSymbolTask.shuffle.
  destruct (shuffleLoop_spec (length arr - 1) arr h) as [Hp Hh].
  split; [exact Hp|]. split; [apply Permutation_length, Hp|exact Hh].
Qed.

Lemma key_of_permutation (key : list nat) :
  key ≡ₚ DigitSymbolTask.SYMBOL_POOL ->
  (forall x, 1 <= x <= 9 ->
             exists sym, DigitSymbolTask.symbolOf key x = Some sym /\ (sym < 9)%nat)
  /\ (forall x y, 1 <= x <= 9 -> 1 <= y <= 9 ->
                  DigitSymbolTask.symbolOf key x = DigitSymbolTask.symbolOf key y ->
                  x = y).
Proof.
  intros Hp.
  assert (Hlen : length key = 9%nat) by (rewrite Hp; reflexivity).
  assert (Hnd : NoDup key) by (rewrite Hp; apply NoDup_seq).
  assert (Hlook : forall x, 1 <= x <= 9 ->
            exists sym, key !! Z.to_nat (x - 1) = Some sym
                        /\ DigitSymbolTask.symbolOf key x = Some sym).
  { intros x Hx. unfold DigitSymbolTask.symbolOf.
    destruct (Z.leb_spec 1 x); [|lia]. destruct (Z.leb_spec x 9); [|lia]. simpl.
    destruct (lookup_lt_is_Some_2 key (Z.to_nat (x - 1)) ltac:(lia)) as [sym Hsym].
    exists sym. split; assumption. }
  split.
  - intros x Hx. destruct (Hlook x Hx) as (sym & Hsym & Hof).
    exists sym. split; [exact Hof|].
    assert (Hin : sym ∈ DigitSymbolTask.SYMBOL_POOL)
      by (rewrite <- Hp; eapply list_elem_of_lookup_2; exact Hsym).
    apply elem_of_seq in Hin. lia.
  - intros x y Hx Hy Heq.
    destruct (Hlook x Hx) as (sx & Hsx & Hofx).
    destruct (Hlook y Hy) as (sy & Hsy & Hofy).
    rewrite Hofx, Hofy in Heq. injection Heq as <-.
    pose proof (NoDup_lookup key _ _ sx Hnd Hsx Hsy). lia.
Qed.

Lemma digitSymbol_showNextTrial_key e s b :
  DigitSymbolTask.symbolMap (fst (DigitSymbolTask.showNextTrial e (s, b)))
  = DigitSymbolTask.symbolMap s
  /\ DigitSymbolTask.trials (fst (DigitSymbolTask.showNextTrial e (s, b)))
     = DigitSymbolTask.trials s.
Proof.
  unfold DigitSymbolTask.showNextTrial.
  destruct (negb (DigitSymbolTask.isRunning s) || DigitSymbolTask.isPaused s
            || DigitSymbolTask.isStopped s); [split; reflexivity|].
  destruct (Rng.draw (DigitSymbolTask.rng s)) as [u h].
  destruct (DigitSymbolTask.shuffle _ h) as [sh h1].
  destruct (DigitSymbolTask.shuffle _ h1) as [opts h2].
  split; reflexivity.
Qed.

Lemma distractors_spec target :
  1 <= target <= 9 ->
  length (filter (fun d => d ≠ target) DigitSymbolTask.keys) = 8%nat
  /\ NoDup (filter (fun d => d ≠ target) DigitSymbolTask.keys)
  /\ (forall d, d ∈ filter (fun d => d ≠ target) DigitSymbolTask.keys ->
                d <> target /\ 1 <= d <= 9).
Proof.
  intros Ht.
  assert (Hnd : NoDup DigitSymbolTask.keys)
    by exact (bool_decide_unpack (NoDup DigitSymbolTask.keys) Logic.I).
  split; [|split].
  - assert (Hcases : target = 1 \/ target = 2 \/ target = 3 \/ target = 4 \/ target = 5
                     \/ target = 6 \/ target = 7 \/ target = 8 \/ target = 9) by lia.
    destruct Hcases as [->|[->|[->|[->|[->|[->|[->|[->| ->]]]]]]]]; reflexivity.
  - apply NoDup_filter, Hnd.
  - intros d Hd. apply list_elem_of_filter in Hd as [Hne Hin]. split; [exact Hne|].
    unfold DigitSymbolTask.keys in Hin.
    repeat (apply elem_of_cons in Hin as [->|Hin]; [lia|]).
    apply elem_of_nil in Hin. destruct Hin.
Qed.

Lemma digitSymbol_showNextTrial_options e s b :
  DigitSymbolTask.isRunning s = true ->
  DigitSymbolTask.isPaused s = false ->
  DigitSymbolTask.isStopped s = false ->
  exists target,
    1 <= target <= 9
    /\ DigitSymbolTask.display (fst (DigitSymbolTask.showNextTrial e (s, b)))
       = DNumber target
    /\ length (DigitSymbolTask.options (fst (DigitSymbolTask.showNextTrial e (s, b))))
       = 4%nat
    /\ NoDup (map DigitSymbolTask.optDigit
                (DigitSymbolTask.options (fst (DigitSymbolTask.showNextTrial e (s, b)))))
    /\ target ∈ map DigitSymbolTask.optDigit
                  (DigitSymbolTask.options (fst (DigitSymbolTask.showNextTrial e (s, b))))
    /\ Forall (fun btn =>
                 DigitSymbolTask.targetDigit btn = target
                 /\ 1 <= DigitSymbolTask.optDigit btn <= 9
                 /\ DigitSymbolTask.targetSymbol btn
                    = DigitSymbolTask.symbolOf (DigitSymbolTask.symbolMap s) target
                 /\ DigitSymbolTask.trialStartMs btn = Core.now (core b) (perfNow e))
         (DigitSymbolTask.options (fst (DigitSymbolTask.showNextTrial e (s, b)))).
Proof.
  intros Hrun Hpause Hstop. unfold DigitSymbolTask.showNextTrial.
  rewrite Hrun, Hpause, Hstop. simpl negb. simpl orb. cbv iota.
  pose proof (floor_scaled_draw (DigitSymbolTask.rng s) 9 ltac:(lia)) as Hk.
  destruct (Rng.draw (DigitSymbolTask.rng s)) as [u h]. cbn [fst] in Hk.
  change (inject_Z 9) with 9%Q in Hk.
  remember (JS.floor (u * 9) + 1) as target eqn:Htarget.
  assert (Ht : 1 <= target <= 9) by lia. clear Htarget Hk.
  destruct (distractors_spec target Ht) as (Hlen & Hnd & Hdis).
  pose proof (shuffle_is_permutation (filter (fun d => d ≠ target) DigitSymbolTask.keys) h)
    as (Hp1 & Hl1 & _).
  destruct (DigitSymbolTask.shuffle (filter (fun d => d ≠ target) DigitSymbolTask.keys) h)
    as [sh h1]. cbn [fst] in Hp1, Hl1.
  pose proof (shuffle_is_permutation (target :: take 3 sh) h1) as (Hp2 & Hl2 & _).
  destruct (DigitSymbolTask.shuffle (target :: take 3 sh) h1) as [opts h2].
  cbn [fst] in Hp2, Hl2. simpl.
  assert (Hopt : map DigitSymbolTask.optDigit
                   (map (fun d => DigitSymbolTask.mkButton d target
                                    (DigitSymbolTask.symbolOf
                                       (DigitSymbolTask.symbolMap s) target)
                                    (Core.now (core b) (perfNow e))) opts) = opts).
  { rewrite map_map. simpl. apply map_id. }
  assert (Htake : forall d, d ∈ take 3 sh -> d <> target /\ 1 <= d <= 9).
  { intros d Hd. apply Hdis. rewrite <- Hp1. eapply subseteq_take, Hd. }
  exists target. split; [exact Ht|]. split; [reflexivity|]. split.
  { rewrite length_map, Hl2. simpl. rewrite length_take_le; [reflexivity|]. lia. }
  split.
  { rewrite Hopt, Hp2. apply NoDup_cons. split.
    - intros Hin. apply Htake in Hin. destruct Hin as [Hne _]. congruence.
    - apply (sublist_NoDup (take 3 sh) sh); [|apply sublist_take].
      rewrite Hp1. exact Hnd. }
  split.
  { rewrite Hopt, Hp2. apply elem_of_cons. left. reflexivity. }
  apply List.Forall_forall. intros btn Hbtn.
  apply in_map_iff in Hbtn as (d & <- & Hd). apply list_elem_of_In in Hd.
  simpl. split; [reflexivity|]. split; [|split; reflexivity].
  rewrite Hp2 in Hd. apply elem_of_cons in Hd as [->|Hd]; [exact Ht|].
  apply Htake, Hd.
Qed.

(** X20: a trial of the substitution task that is shown on a running
    task has a target digit between 1 and 9 and four option buttons with
    four different digits between 1 and 9, one of which is the target;
    every button remembers the target, its key symbol and the start of
    the trial. *)
Theorem digit_symbol_trial_has_four_options e s b :
  DigitSymbolTask.isRunning s = true ->
  DigitSymbolTask.isPaused s = false ->
  DigitSymbolTask.isStopped s = false ->
  exists target,
    1 <= target <= 9
    /\ DigitSymbolTask.display (fst (DigitSymbolTask.showNextTrial e (s, b)))
       = DNumber target
    /\ length (DigitSymbolTask.options (fst (DigitSymbolTask.showNextTrial e (s, b))))
       = 4%nat
    /\ NoDup (map DigitSymbolTask.optDigit
                (DigitSymbolTask.options (fst (DigitSymbolTask.showNextTrial e (s, b)))))
    /\ target ∈ map DigitSymbolTask.optDigit
                  (DigitSymbolTask.options (fst (DigitSymbolTask.showNextTrial e (s, b))))
    /\ Forall (fun btn =>
                 DigitSymbolTask.targetDigit btn = target
                 /\ 1 <= DigitSymbolTask.optDigit btn <= 9
                 /\ DigitSymbolTask.targetSymbol btn
                    = DigitSymbolTask.symbolOf (DigitSymbolTask.symbolMap s) target
                 /\ DigitSymbolTask.trialStartMs btn = Core.now (core b) (perfNow e))
         (DigitSymbolTask.options (fst (DigitSymbolTask.showNextTrial e (s, b)))).
Proof. apply digitSymbol_showNextTrial_options. Qed.

Lemma digitSymbol_showNextTrial_inv e s b :
  optionsOf s ->
  optionsOf (fst (DigitSymbolTask.showNextTrial e (s, b))).
Proof.
  intros Hopt.
  destruct (negb (DigitSymbolTask.isRunning s) || DigitSymbolTask.isPaused s
            || DigitSymbolTask.isStopped s) eqn:Hg.
  - unfold DigitSymbolTask.showNextTrial. rewrite Hg. exact Hopt.
  - apply orb_false_elim in Hg as [Hg Hstop]. apply orb_false_elim in Hg as [Hrun Hpause].
    apply negb_false_iff in Hrun.
    destruct (digitSymbol_showNextTrial_options e s b Hrun Hpause Hstop)
      as (target & Ht & _ & _ & _ & _ & Hall).
    unfold optionsOf.
    rewrite (proj1 (digitSymbol_showNextTrial_key e s b)).
    eapply Forall_impl; [exact Hall|].
    intros btn (-> & Hd & -> & _). split; [exact Hd|]. split; [exact Ht|reflexivity].
Qed.

Lemma digitSymbol_click_inv k e s b :
  DigitSymbolTask.symbolMap s ≡ₚ DigitSymbolTask.SYMBOL_POOL ->
  optionsOf s ->
  Forall (digitSymbolScored (DigitSymbolTask.symbolMap s)) (DigitSymbolTask.trials s) ->
  DigitSymbolTask.symbolMap (fst (DigitSymbolTask.click k e (s, b)))
  = DigitSymbolTask.symbolMap s
  /\ optionsOf (fst (DigitSymbolTask.click k e (s, b)))
  /\ Forall (digitSymbolScored (DigitSymbolTask.symbolMap s))
       (DigitSymbolTask.trials (fst (DigitSymbolTask.click k e (s, b)))).
Proof.
  intros Hkey Hopt Hall. unfold DigitSymbolTask.click.
  destruct (DigitSymbolTask.options s !! k) as [btn|] eqn:Hk;
    [|split; [reflexivity|split; assumption]].
  destruct (negb (DigitSymbolTask.isRunning s) || DigitSymbolTask.isPaused s
            || DigitSymbolTask.isStopped s);
    [split; [reflexivity|split; assumption]|].
  cbv zeta.
  match goal with
  | |- context [DigitSymbolTask.showNextTrial e (?s', b)] =>
      destruct (digitSymbol_showNextTrial_key e s' b) as [-> ->];
      pose proof (digitSymbol_showNextTrial_inv e s' b Hopt) as Hopt'
  end.
  split; [reflexivity|]. split; [exact Hopt'|]. simpl.
  apply Forall_app. split; [exact Hall|]. constructor; [|constructor].
  unfold optionsOf in Hopt. rewrite List.Forall_forall in Hopt.
  assert (Hin : In btn (DigitSymbolTask.options s))
    by (apply list_elem_of_In; eapply list_elem_of_lookup_2; exact Hk).
  destruct (Hopt btn Hin) as (Hod & Htd & Hts).
  destruct (key_of_permutation _ Hkey) as [Htotal Hinj].
  destruct (Htotal _ Hod) as (so & Hso & _).
  destruct (Htotal _ Htd) as (st & Hst & _).
  unfold digitSymbolScored. simpl.
  split; [reflexivity|]. split; [exact Htd|]. split; [exact Hts|].
  split; [rewrite Hts, Hst; eauto|]. split; [rewrite Hso; eauto|].
  rewrite Hts. split.
  - intros Heq. apply Z.eqb_eq in Heq. rewrite Heq. reflexivity.
  - intros Heq. apply Z.eqb_eq. apply Hinj; assumption.
Qed.

Lemma digitSymbol_enter_inv (o : Entry DigitSymbolInput) e s b :
  DigitSymbolTask.symbolMap s ≡ₚ DigitSymbolTask.SYMBOL_POOL ->
  optionsOf s ->
  Forall (digitSymbolScored (DigitSymbolTask.symbolMap s)) (DigitSymbolTask.trials s) ->
  DigitSymbolTask.symbolMap (fst (enter o e (s, b))) = DigitSymbolTask.symbolMap s
  /\ optionsOf (fst (enter o e (s, b)))
  /\ Forall (digitSymbolScored (DigitSymbolTask.symbolMap s))
       (DigitSymbolTask.trials (fst (enter o e (s, b)))).
Proof.
  intros Hkey Hopt Hall.
  destruct o as [| | |r|cb|i]; simpl enter.
  - split; [reflexivity|split; assumption].
  - split; [reflexivity|split; assumption].
  - unfold DigitSymbolTask.resume.
    destruct (digitSymbol_showNextTrial_key e (DigitSymbolTask.set_isPaused false s) b)
      as [-> ->].
    split; [reflexivity|]. split; [|exact Hall].
    apply (digitSymbol_showNextTrial_inv e (DigitSymbolTask.set_isPaused false s) b Hopt).
  - split; [reflexivity|split; assumption].
  - destruct cb; simpl; try (split; [reflexivity|split; assumption]).
    destruct (DigitSymbolTask.isStopped s) eqn:Hs.
    + rewrite digitSymbol_endTask_stopped by exact Hs.
      split; [reflexivity|split; assumption].
    + rewrite digitSymbol_endTask_running by exact Hs. simpl.
      split; [reflexivity|]. split; [constructor|exact Hall].
  - destruct i as [k]. simpl. apply digitSymbol_click_inv; assumption.
Qed.

Lemma digitSymbol_run_inv seed d e0 b (tr : list (Env * Event DigitSymbolInput)) :
  DigitSymbolTask.symbolMap (fst (steps tr (DigitSymbolTask.init seed d e0 b)))
  = DigitSymbolTask.symbolMap (fst (DigitSymbolTask.init seed d e0 b))
  /\ DigitSymbolTask.symbolMap (fst (DigitSymbolTask.init seed d e0 b))
     ≡ₚ DigitSymbolTask.SYMBOL_POOL
  /\ Forall
       (digitSymbolScored
          (DigitSymbolTask.symbolMap (fst (DigitSymbolTask.init seed d e0 b))))
       (DigitSymbolTask.trials (fst (steps tr (DigitSymbolTask.init seed d e0 b)))).
Proof.
  assert (Hinit : DigitSymbolTask.symbolMap (fst (DigitSymbolTask.init seed d e0 b))
                  ≡ₚ DigitSymbolTask.SYMBOL_POOL
                  /\ optionsOf (fst (DigitSymbolTask.init seed d e0 b))
                  /\ DigitSymbolTask.trials (fst (DigitSymbolTask.init seed d e0 b)) = []).
  { unfold DigitSymbolTask.init.
    pose proof (shuffle_is_permutation DigitSymbolTask.SYMBOL_POOL
                  (Rng.taskRng Rng.DigitSymbol seed)) as (Hp & _ & _).
    destruct (DigitSymbolTask.shuffle DigitSymbolTask.SYMBOL_POOL _) as [key h].
    cbn [fst] in Hp.
    match goal with
    | |- context [DigitSymbolTask.showNextTrial e0 (?s0, b)] =>
        assert (Ho0 : optionsOf s0) by constructor;
        pose proof (digitSymbol_showNextTrial_inv e0 s0 b Ho0) as Ho1;
        destruct (digitSymbol_showNextTrial_key e0 s0 b) as [Hk1 Ht1];
        destruct (DigitSymbolTask.showNextTrial e0 (s0, b)) as [s1 b1]
    end.
    simpl in *. rewrite Hk1. split; [exact Hp|]. split; [exact Ho1|exact Ht1]. }
  destruct Hinit as (Hkey & Hopt & Htr).
  assert (Hall : Forall
                   (digitSymbolScored
                      (DigitSymbolTask.symbolMap (fst (DigitSymbolTask.init seed d e0 b))))
                   (DigitSymbolTask.trials (fst (DigitSymbolTask.init seed d e0 b))))
    by (rewrite Htr; constructor).
  clear Htr. revert Hkey Hopt Hall.
  generalize (DigitSymbolTask.init seed d e0 b).
  induction tr as [|[e ev] tr IH]; intros p Hkey Hopt Hall; simpl.
  - split; [reflexivity|split; assumption].
  - destruct (step_enters e ev p) as (o & b' & Heq & _).
    destruct (digitSymbol_enter_inv o e (fst p) b' Hkey Hopt Hall) as (Hk' & Ho' & Ha').
    rewrite <- Heq in Hk', Ho', Ha'.
    assert (Hkey' : DigitSymbolTask.symbolMap (fst (step e ev p))
                    ≡ₚ DigitSymbolTask.SYMBOL_POOL) by (rewrite Hk'; exact Hkey).
    rewrite <- Hk' in Ha'.
    destruct (IH (step e ev p) Hkey' Ho' Ha') as (Hk'' & _ & Ha'').
    split; [congruence|]. split; [exact Hkey|]. rewrite <- Hk'. exact Ha''.
Qed.

(** X21: the key of the substitution task is fixed by [init] and never
    changes during the run; it is a permutation of the nine symbols, so
    each digit from 1 to 9 has a symbol and no two digits share one. *)
Theorem digit_symbol_key_is_bijection seed d e0 b
    (tr : list (Env * Event DigitSymbolInput)) :
  DigitSymbolTask.symbolMap (fst (steps tr (DigitSymbolTask.init seed d e0 b)))
  = DigitSymbolTask.symbolMap (fst (DigitSymbolTask.init seed d e0 b))
  /\ DigitSymbolTask.symbolMap (fst (DigitSymbolTask.init seed d e0 b))
     ≡ₚ DigitSymbolTask.SYMBOL_POOL
  /\ (forall x, 1 <= x <= 9 ->
        exists sym,
          DigitSymbolTask.symbolOf
            (DigitSymbolTask.symbolMap (fst (DigitSymbolTask.init seed d e0 b))) x
          = Some sym /\ (sym < 9)%nat)
  /\ (forall x y, 1 <= x <= 9 -> 1 <= y <= 9 ->
        DigitSymbolTask.symbolOf
          (DigitSymbolTask.symbolMap (fst (DigitSymbolTask.init seed d e0 b))) x
        = DigitSymbolTask.symbolOf
            (DigitSymbolTask.symbolMap (fst (DigitSymbolTask.init seed d e0 b))) y ->
        x = y).
Proof.
  destruct (digitSymbol_run_inv seed d e0 b tr) as (Hconst & Hkey & _).
  split; [exact Hconst|]. split; [exact Hkey|]. apply key_of_permutation, Hkey.
Qed.

(** X22: in every run of the substitution task from [init], each record
    is a response to a digit between 1 and 9, carries the key's symbol of
    that digit and the symbol that was chosen, and is marked correct
    exactly when the chosen symbol is the key's symbol. *)
Theorem digit_symbol_trials_scored seed d e0 b
    (tr : list (Env * Event DigitSymbolInput)) :
  Forall
    (digitSymbolScored
       (DigitSymbolTask.symbolMap (fst (DigitSymbolTask.init seed d e0 b))))
    (DigitSymbolTask.trials (fst (steps tr (DigitSymbolTask.init seed d e0 b)))).
Proof. apply digitSymbol_run_inv. Qed.

(** ** mood.js: the submit button *)

Lemma mood_enter_button (o : Entry MoodInput) e s b :
  MoodTask.submitDisabled s
  = negb (forallb (fun k => bool_decide (is_Some (MoodTask.ratings s !! k)))
            MoodTask.SCALES) ->
  MoodTask.submitDisabled (fst (enter o e (s, b)))
  = negb (forallb
            (fun k => bool_decide (is_Some (MoodTask.ratings (fst (enter o e (s, b))) !! k)))
            MoodTask.SCALES).
Proof.
  intros Hinv. destruct o as [| | |r|cb|i]; try exact Hinv.
  destruct i as [k v|d]; simpl.
  - unfold MoodTask.rate, MoodTask.updateSubmit. reflexivity.
  - destruct (MoodTask.submitDisabled s) eqn:Hd.
    + unfold MoodTask.clickSubmit. rewrite Hd. simpl. rewrite Hd. exact Hinv.
    + unfold MoodTask.clickSubmit. rewrite Hd.
      rewrite submit_without_session_id by apply mood_payload_no_session_id.
      simpl. exact Hinv.
Qed.

(** X23: in every run of the mood form from [init], the submit button is
    enabled exactly when each of the four scales (valence, arousal, stress,
    sharpness) has a rating. *)
Theorem mood_submit_enabled_iff_all_rated dateNow e0 b
    (tr : list (Env * Event MoodInput)) :
  MoodTask.submitDisabled (fst (steps tr (MoodTask.init dateNow e0 b))) = false
  <-> Forall (fun k => is_Some
                         (MoodTask.ratings (fst (steps tr (MoodTask.init dateNow e0 b)))
                          !! k))
        MoodTask.SCALES.
Proof.
  assert (Hinv : MoodTask.submitDisabled (fst (steps tr (MoodTask.init dateNow e0 b)))
                 = negb (forallb
                           (fun k => bool_decide
                              (is_Some
                                 (MoodTask.ratings
                                    (fst (steps tr (MoodTask.init dateNow e0 b))) !! k)))
                           MoodTask.SCALES)).
  { assert (Hinit : MoodTask.submitDisabled (fst (MoodTask.init dateNow e0 b))
                    = negb (forallb
                              (fun k => bool_decide
                                 (is_Some
                                    (MoodTask.ratings (fst (MoodTask.init dateNow e0 b))
                                     !! k)))
                              MoodTask.SCALES)) by reflexivity.
    revert Hinit. generalize (MoodTask.init dateNow e0 b).
    induction tr as [|[e ev] tr IH]; intros p Hp; simpl; [exact Hp|].
    apply IH. destruct (step_enters e ev p) as (o & b' & -> & _).
    apply mood_enter_button, Hp. }
  rewrite Hinv, negb_false_iff, forallb_forall, List.Forall_forall.
  split; intros Hall k Hk.
  - apply (bool_decide_unpack _). apply Is_true_true, Hall, Hk.
  - apply bool_decide_eq_true, Hall, Hk.
Qed.

(** X24: a click on the enabled submit button of the mood form makes one
    call of [TaskCore.submit] with the ratings as the single trial and as
    the summary; the call is rejected, so the form alerts "Error: Missing
    required field: session_id", keeps the ratings and enables the button
    again; no request is issued. *)
Theorem mood_click_is_rejected_and_button_reenabled d e s b :
  MoodTask.submitDisabled s = false ->
  exists payload,
    Core.submitCalls (core (snd (MoodTask.clickSubmit d e (s, b))))
    = Core.submitCalls (core b) ++ [payload]
    /\ payload !! "trials" = Some (Core.VTrials (Core.MoodTrials [MoodTask.ratings s]))
    /\ payload !! "summary" = Some (Core.VObj (MoodTask.ratings s))
    /\ Core.fetches (core (snd (MoodTask.clickSubmit d e (s, b)))) = Core.fetches (core b)
    /\ MoodTask.submitDisabled (fst (MoodTask.clickSubmit d e (s, b))) = false
    /\ MoodTask.ratings (fst (MoodTask.clickSubmit d e (s, b))) = MoodTask.ratings s
    /\ MoodTask.alerts (fst (MoodTask.clickSubmit d e (s, b)))
       = MoodTask.alerts s ++ ["Error: Missing required field: session_id"].
Proof.
  intros Hd. unfold MoodTask.clickSubmit. rewrite Hd.
  rewrite submit_without_session_id by apply mood_payload_no_session_id.
  simpl. eexists. split; [reflexivity|].
  split; [unfold MoodTask.payload; rewrite !lookup_insert_ne by done;
          apply lookup_insert_eq|].
  split; [unfold MoodTask.payload; rewrite !lookup_insert_ne by done;
          apply lookup_insert_eq|].
  repeat split.
Qed.

(** ** The properties above on the example pages *)

Lemma submit_names_first_missing_field_witness :
  fst (Core.submit payloadWithoutStart (core (snd pvtExample)))
  = Core.Rejected "Missing required field: started_at"
  /\ Core.fetches (snd (Core.submit payloadWithoutStart (core (snd pvtExample))))
     = Core.fetches (core (snd pvtExample)).
Proof.
  apply (submit_names_first_missing_field
           ["session_id"; "task_type"; "task_version"] "started_at"
           ["ended_at"; "duration_ms"; "input_modality"; "trials"; "summary"]
           payloadWithoutStart (core (snd pvtExample))).
  - reflexivity.
  - apply (bool_decide_unpack _). vm_compute. exact Logic.I.
  - vm_compute. reflexivity.
Defined.

Lemma submit_posts_merged_body_witness :
  fst (Core.submit completePayload (core (snd pvtExample))) = Core.Sent
  /\ Core.fetches (snd (Core.submit completePayload (core (snd pvtExample))))
     = [Core.MetaPost "session-1";
        Core.SubmitPost (Some "token")
          (Core.body (core (snd pvtExample)) completePayload)]
  /\ Core.body (core (snd pvtExample)) completePayload !! "session_id"
     = Some (Core.VStr "session-1").
Proof.
  destruct (submit_posts_merged_body completePayload (core (snd pvtExample)))
    as (Hsent & Hfetch & Hsid & _).
  - apply (bool_decide_unpack _). vm_compute. exact Logic.I.
  - reflexivity.
  - split; [exact Hsent|]. split; [rewrite Hfetch; reflexivity|exact Hsid].
Defined.

Lemma pvt_trials_frozen_once_stopped_witness :
  length
    (PvtTask.trials
       (fst (steps [(exampleEnv 9500, Input TapContainer);
                    (exampleEnv 9600, VisibilityVisible);
                    (exampleEnv 9700, Input TapContainer)]
               (steps pvtLeft
                  (PvtTask.init (JS.units "abc123") 0 (exampleEnv 0)
                     (loaded "session-1" "token" 0 true))))))
  = 1%nat.
Proof.
  rewrite (pvt_trials_frozen_once_stopped (JS.units "abc123") 0 (exampleEnv 0)
             (loaded "session-1" "token" 0 true) pvtLeft
             [(exampleEnv 9500, Input TapContainer);
              (exampleEnv 9600, VisibilityVisible);
              (exampleEnv 9700, Input TapContainer)]).
  - vm_compute. reflexivity.
  - vm_compute. reflexivity.
Defined.

Lemma pvt_resume_starts_new_interval_witness :
  PvtTask.stimulusStartMs
    (fst (PvtTask.resume (PvtTask.pause (fst pvtVisible, snd pvtVisible)))) = None
  /\ PvtTask.trials
       (fst (PvtTask.handleInteraction (exampleEnv 60000)
               (PvtTask.resume (PvtTask.pause (fst pvtVisible, snd pvtVisible)))))
     = [PvtTrial.mk None 60000 None true false true].
Proof.
  destruct (pvt_resume_starts_new_interval (fst pvtVisible) (snd pvtVisible))
    as (_ & _ & Hstart & _ & _ & _ & Htap).
  - reflexivity.
  - split; [exact Hstart|].
    rewrite (Htap (exampleEnv 60000)) by reflexivity.
    vm_compute. reflexivity.
Defined.

Lemma sart_latency_measured_from_resume_witness :
  SartTask.trials
    (fst (SartTask.handleInteraction (exampleEnv 61000)
            (SartTask.resume (exampleEnv 60500)
               (SartTask.pause (fst sartFirstDigit, snd sartFirstDigit)))))
  = [SartTrial.mk (Some 8) false true (Some 500) false false].
Proof.
  rewrite (sart_latency_measured_from_resume (exampleEnv 60500) (exampleEnv 61000)
             (fst sartFirstDigit) (snd sartFirstDigit)).
  - vm_compute. reflexivity.
  - reflexivity.
  - reflexivity.
  - reflexivity.
  - vm_compute. lia.
Defined.

Lemma digit_symbol_trial_has_four_options_witness :
  exists target,
    1 <= target <= 9
    /\ DigitSymbolTask.display
         (fst (DigitSymbolTask.showNextTrial (exampleEnv 1300)
                 (fst digitSymbolExample, snd digitSymbolExample)))
       = DNumber target
    /\ length
         (DigitSymbolTask.options
            (fst (DigitSymbolTask.showNextTrial (exampleEnv 1300)
                    (fst digitSymbolExample, snd digitSymbolExample))))
       = 4%nat.
Proof.
  destruct (digit_symbol_trial_has_four_options (exampleEnv 1300)
              (fst digitSymbolExample) (snd digitSymbolExample))
    as (target & Hrange & Hshown & Hfour & _).
  - reflexivity.
  - reflexivity.
  - reflexivity.
  - exists target. split; [exact Hrange|]. split; [exact Hshown|exact Hfour].
Defined.

Lemma mood_submit_enabled_iff_all_rated_witness :
  MoodTask.submitDisabled (fst moodRated) = false.
Proof.
  apply (proj2 (mood_submit_enabled_iff_all_rated 0 (exampleEnv 0)
                  (loaded "session-1" "token" 0 true)
                  [(exampleEnv 1000, Input (Rate "valence" 4));
                   (exampleEnv 2000, Input (Rate "arousal" 2));
                   (exampleEnv 3000, Input (Rate "stress" 1));
                   (exampleEnv 3500, Input (Rate "stress" 3));
                   (exampleEnv 4000, Input (Rate "sharpness" 5))])).
  apply (bool_decide_unpack _). vm_compute. exact Logic.I.
Defined.

Lemma mood_click_is_rejected_and_button_reenabled_witness :
  MoodTask.submitDisabled
    (fst (MoodTask.clickSubmit 5000 (exampleEnv 5000) (fst moodRated, snd moodRated)))
  = false
  /\ MoodTask.alerts
       (fst (MoodTask.clickSubmit 5000 (exampleEnv 5000) (fst moodRated, snd moodRated)))
     = ["Error: Missing required field: session_id"].
Proof.
  destruct (mood_click_is_rejected_and_button_reenabled 5000 (exampleEnv 5000)
              (fst moodRated) (snd moodRated))
    as (payload & _ & _ & _ & _ & Hbtn & _ & Halert).
  - reflexivity.
  - split; [exact Hbtn|exact Halert].
Defined.

Lemma rng_counter_exact_below_2_53_witness :
  Rng.after 2 (Rng.taskRng Rng.Pvt (JS.units "abc123"))
  = Rng.taskRng Rng.Pvt (JS.units "abc123") + 2 * 1831565813
  /\ Rng.nthOutput (Rng.taskRng Rng.Pvt (JS.units "abc123")) 1 = 502317468.
Proof.
  destruct (proj1 rng_counter_exact_below_2_53
              (Rng.taskRng Rng.Pvt (JS.units "abc123")) 1%nat)
    as [Hafter Hout].
  - vm_compute. split; [discriminate|reflexivity].
  - reflexivity.
  - split; [exact Hafter|]. rewrite Hout. vm_compute. reflexivity.
Defined.
